(** * node-deps-watcher: dependency reconciliation, package-manager
      detection and branch watching

    A shallow embedding of the three core classes of the extension
    ([PackageManagerDetector], [DependencyChecker], [GitMonitor]) together
    with the properties their specification states.

    Modelling conventions.
    - JavaScript strings are [string]s; a character stands for one code
      unit in the range 0..255.
    - Values produced by [JSON.parse] (and [undefined]) are the type
      [value], which also holds the built-in objects a property read can
      reach through a prototype.  A number is carried as its decimal
      rendering.
    - A plain JavaScript object used as a dictionary is an association
      list of its own properties in the order of [Object.keys] (array
      indices first, in ascending order, then the other names as they
      were created).  Reading a property falls back on
      [Object.prototype]; writing one goes through the [__proto__]
      accessor.
    - The host (configuration store, file system, child processes,
      [JSON.parse], [path.join], the semver package, the engine's
      [Array.prototype]) is a record of oracles, [Runtime].  Effectful
      methods live in the monad [Eff], which reads the runtime, may raise
      a JavaScript exception and records every host call it makes.
      Writes to the output channel are not modelled; the text of a log
      line is still computed, since computing it may throw. *)

From Stdlib Require Import String Ascii List Bool Arith ZArith Lia.
From Stdlib Require Import Numbers.DecimalString.
Import ListNotations.
Open Scope string_scope.
Set Warnings "-register-all".

(* ===================================================================== *)
(** ** JavaScript strings *)
(* ===================================================================== *)

Module JSString.

(** [s.startsWith(p)] *)
Definition startsWith (s p : string) : bool := String.prefix p s.

Fixpoint drop (n : nat) (s : string) : string :=
  match n, s with
  | O, _ => s
  | S _, EmptyString => EmptyString
  | S n', String _ s' => drop n' s'
  end.

(** [s.substring(0, n)] *)
Fixpoint take (n : nat) (s : string) : string :=
  match n, s with
  | O, _ => EmptyString
  | S _, EmptyString => EmptyString
  | S n', String c s' => String c (take n' s')
  end.

(** [s.substring(a, b)] for [a <= b] (the only use in the sources). *)
Definition substring (s : string) (a b : nat) : string :=
  take (b - a) (drop a s).

(** [s.replace(pat, rep)] with a string pattern: only the first
    occurrence is replaced.  [rep] is taken literally (the sources only
    pass the empty replacement). *)
Fixpoint replace (s pat rep : string) : string :=
  if String.prefix pat s then rep ++ drop (String.length pat) s
  else match s with
       | EmptyString => EmptyString
       | String c s' => String c (replace s' pat rep)
       end.

(** [s.replace(/^[...]/, '')]: removes the first character when it lies
    in the class. *)
Definition stripLeading (cls : ascii -> bool) (s : string) : string :=
  match s with
  | String c s' => if cls c then s' else s
  | EmptyString => EmptyString
  end.

Definition isChar (a : ascii) : ascii -> bool := Ascii.eqb a.

(** [s.includes(c)] for a one-character needle. *)
Fixpoint includesChar (c : ascii) (s : string) : bool :=
  match s with
  | EmptyString => false
  | String d s' => Ascii.eqb c d || includesChar c s'
  end.

(** White space and line terminators removed by [trim], among the code
    units 0..255: TAB, LF, VT, FF, CR, SPACE, NBSP. *)
Definition isWhiteSpace (c : ascii) : bool :=
  let n := nat_of_ascii c in
  ((9 <=? n)%nat && (n <=? 13)%nat) || (n =? 32)%nat || (n =? 160)%nat.

Fixpoint trimStart (s : string) : string :=
  match s with
  | EmptyString => EmptyString
  | String c s' => if isWhiteSpace c then trimStart s' else s
  end.

Fixpoint trimEnd (s : string) : string :=
  match s with
  | EmptyString => EmptyString
  | String c s' =>
      match trimEnd s' with
      | EmptyString => if isWhiteSpace c then EmptyString else String c EmptyString
      | t => String c t
      end
  end.

Definition trim (s : string) : string := trimEnd (trimStart s).

(** Line terminators excluded by the regular-expression dot, among the
    code units 0..255: LF and CR. *)
Definition isLineTerminator (c : ascii) : bool :=
  let n := nat_of_ascii c in (n =? 10)%nat || (n =? 13)%nat.

Fixpoint forallChar (p : ascii -> bool) (s : string) : bool :=
  match s with
  | EmptyString => true
  | String c s' => p c && forallChar p s'
  end.

Definition nonEmpty (s : string) : bool :=
  match s with EmptyString => false | _ => true end.

Definition digitValue (c : ascii) : option N :=
  let n := nat_of_ascii c in
  if ((48 <=? n)%nat && (n <=? 57)%nat) then Some (N.of_nat (n - 48)) else None.

(** The number a run of decimal digits denotes. *)
Fixpoint digits (acc : N) (s : string) : option N :=
  match s with
  | EmptyString => Some acc
  | String c s' =>
      match digitValue c with
      | Some d => digits (acc * 10 + d) s'
      | None => None
      end
  end.

End JSString.

(* ===================================================================== *)
(** ** JavaScript values and exceptions *)
(* ===================================================================== *)

(** The values the code handles: those [JSON.parse] returns, [undefined],
    and the built-in objects a property read can reach through a
    prototype (a built-in function, [Object.prototype] itself).

    A number is carried as the text [String(n)] gives for it; JSON has no
    NaN and no infinity, and zero is the number whose text is [0].  The
    properties of a [VObj] are its own properties in the order of
    [Object.keys]; they and the elements of a [VArr] are parsed JSON, and
    the prototype of a [VObj] is [Object.prototype]. *)
Inductive value : Type :=
| VUndef
| VNull
| VBool (b : bool)
| VNum (text : string)
| VStr (s : string)
| VArr (elems : list value)
| VObj (props : list (string * value))
| VFun (name : string)
| VObjectPrototype.

(** Thrown objects, kept by kind; [exn_to_string] is what a template
    literal [`${error}`] renders.  [HostError] carries the rendering of an
    error produced by the host (file system, child process, JSON.parse). *)
Inductive exn : Type :=
| TypeError (msg : string)
| Error (msg : string)
| HostError (rendered : string).

Definition exn_to_string (e : exn) : string :=
  match e with
  | TypeError m => "TypeError: " ++ m
  | Error m => "Error: " ++ m
  | HostError r => r
  end.

Module JS.

(** Own properties: association lists in the order of [Object.keys]. *)
Definition dict (V : Type) := list (string * V).

Fixpoint lookup {V} (k : string) (d : dict V) : option V :=
  match d with
  | [] => None
  | (k', v) :: d' => if String.eqb k k' then Some v else lookup k d'
  end.

Definition keys {V} (d : dict V) : list string := map fst d.

(** An array index: a canonical decimal numeral below 2^32 - 1. *)
Definition arrayIndex (k : string) : option N :=
  match k with
  | EmptyString => None
  | String "0"%char (String _ _) => None
  | _ =>
      match JSString.digits 0 k with
      | Some n => if (n <? 4294967295)%N then Some n else None
      | None => None
      end
  end.

Definition isArrayIndex (k : string) : bool :=
  match arrayIndex k with Some _ => true | None => false end.

(** The order in which an object lists its own keys: a key comes before
    [k'] when it is an array index and [k'] is none or a larger one;
    names that are no array index follow in the order of creation. *)
Definition precedes (k k' : string) : bool :=
  match arrayIndex k, arrayIndex k' with
  | Some i, Some j => (i <=? j)%N
  | Some _, None => true
  | None, Some _ => false
  | None, None => true
  end.

Fixpoint ordered (ks : list string) : bool :=
  match ks with
  | [] => true
  | k :: ks' => forallb (precedes k) ks' && ordered ks'
  end.

(** The value of an existing own property is replaced where it stands. *)
Fixpoint update {V} (k : string) (v : V) (d : dict V) : dict V :=
  match d with
  | [] => []
  | (k', v') :: d' =>
      if String.eqb k k' then (k', v) :: d' else (k', v') :: update k v d'
  end.

(** A new array index goes after the indices that are not larger. *)
Fixpoint insertIndex {V} (i : N) (k : string) (v : V) (d : dict V) : dict V :=
  match d with
  | [] => [(k, v)]
  | (k', v') :: d' =>
      match arrayIndex k' with
      | Some j =>
          if (j <=? i)%N then (k', v') :: insertIndex i k v d'
          else (k, v) :: d
      | None => (k, v) :: d
      end
  end.

(** Defining the own property [k] (object literals, spread): an existing
    key keeps its position, a new array index goes among the indices, any
    other new key goes last. *)
Definition set {V} (k : string) (v : V) (d : dict V) : dict V :=
  match lookup k d with
  | Some _ => update k v d
  | None =>
      match arrayIndex k with
      | Some i => insertIndex i k v d
      | None => (d ++ [(k, v)])%list
      end
  end.

Definition indexKey (i : nat) : string :=
  NilEmpty.string_of_uint (Nat.to_uint i).

Fixpoint indexed {V} (i : nat) (l : list V) : dict V :=
  match l with
  | [] => []
  | x :: l' => (indexKey i, x) :: indexed (S i) l'
  end.

Fixpoint chars (s : string) : list value :=
  match s with
  | EmptyString => []
  | String c s' => VStr (String c EmptyString) :: chars s'
  end.

(** Own enumerable properties, in the order of [Object.keys]. *)
Definition ownEntries (v : value) : dict value :=
  match v with
  | VObj props => props
  | VArr elems => indexed 0 elems
  | VStr s => indexed 0 (chars s)
  | _ => []
  end.

(** [!!v] *)
Definition truthy (v : value) : bool :=
  match v with
  | VUndef | VNull => false
  | VBool b => b
  | VNum text => negb (String.eqb text "0")
  | VStr s => JSString.nonEmpty s
  | VArr _ | VObj _ | VFun _ | VObjectPrototype => true
  end.

(** The methods of [Object.prototype]; [constructor] and the accessor
    [__proto__] are treated apart. *)
Definition objectPrototypeMethods : list string :=
  ["hasOwnProperty"; "isPrototypeOf"; "propertyIsEnumerable";
   "toLocaleString"; "toString"; "valueOf";
   "__defineGetter__"; "__defineSetter__";
   "__lookupGetter__"; "__lookupSetter__"].

(** [Object.prototype[k]] for a name other than [__proto__]. *)
Definition fromObjectPrototype (k : string) : value :=
  if String.eqb k "constructor" then VFun "Object"
  else if existsb (String.eqb k) objectPrototypeMethods then VFun k
  else VUndef.

(** [d[k]] on a plain object whose prototype is [Object.prototype]: the
    own property, else what the prototype holds. *)
Definition at_ (d : dict value) (k : string) : value :=
  match lookup k d with
  | Some v => v
  | None =>
      if String.eqb k "__proto__" then VObjectPrototype
      else fromObjectPrototype k
  end.

(** [v.k] for the names the sources read from parsed JSON ([data],
    [trees], [name], [version], [dependencies], [devDependencies]), none
    of which a built-in prototype holds: throws on [undefined] and
    [null], gives the own property or [undefined] otherwise. *)
Definition getProp (v : value) (k : string) : exn + value :=
  match v with
  | VUndef =>
      inl (TypeError ("Cannot read properties of undefined (reading '" ++ k ++ "')"))
  | VNull =>
      inl (TypeError ("Cannot read properties of null (reading '" ++ k ++ "')"))
  | _ =>
      inr (match lookup k (ownEntries v) with
           | Some x => x
           | None => VUndef
           end)
  end.

(** An object the code builds by assignments, starting from [{}]: its
    own properties and, once an assignment to [__proto__] has replaced
    its prototype, what it inherits from: a parsed object or array, or
    [null] (nothing at all).  [None]: it still inherits from
    [Object.prototype]. *)
Record object : Type := {
  own : dict value;
  parent : option value
}.

Definition plain (d : dict value) : object := {| own := d; parent := None |}.

(** [{}] *)
Definition emptyObject : object := plain [].

(** [o[k]]: the own property, else the first one found along the
    prototypes.  The accessor [__proto__] of [Object.prototype] gives the
    prototype of [o].  [arrayPrototype] is what the engine's
    [Array.prototype] holds. *)
Definition get (arrayPrototype : string -> value) (o : object) (k : string) : value :=
  match lookup k (own o) with
  | Some v => v
  | None =>
      match parent o with
      | Some VNull => VUndef
      | Some (VObj props) =>
          match lookup k props with
          | Some v => v
          | None =>
              if String.eqb k "__proto__" then VObj props
              else fromObjectPrototype k
          end
      | Some (VArr elems) =>
          match lookup k (indexed 0 elems) with
          | Some v => v
          | None =>
              if String.eqb k "length" then VNum (indexKey (length elems))
              else if String.eqb k "__proto__" then VArr elems
              else match arrayPrototype k with
                   | VUndef => fromObjectPrototype k
                   | inherited => inherited
                   end
          end
      | _ =>
          if String.eqb k "__proto__" then VObjectPrototype
          else fromObjectPrototype k
      end
  end.

(** Whether an assignment to [__proto__] reaches the accessor of
    [Object.prototype]: it does unless the object inherits from nothing,
    or from a parsed object with a property of that name. *)
Definition reachesAccessor (o : object) : bool :=
  match parent o with
  | Some VNull => false
  | Some (VObj props) =>
      match lookup "__proto__" props with Some _ => false | None => true end
  | _ => true
  end.

(** [o[k] = v].  An own property is overwritten; a new name becomes an
    own property, except [__proto__] when it reaches the accessor of
    [Object.prototype]: that replaces the prototype when [v] is an
    object or [null] and does nothing otherwise.  (Of the objects, only
    parsed ones and arrays reach an assignment in the sources: the
    values assigned are read from parsed JSON.) *)
Definition assign (k : string) (v : value) (o : object) : object :=
  match lookup k (own o) with
  | Some _ => {| own := update k v (own o); parent := parent o |}
  | None =>
      if String.eqb k "__proto__" && reachesAccessor o
      then match v with
           | VObj _ | VArr _ | VNull => {| own := own o; parent := Some v |}
           | VObjectPrototype => {| own := own o; parent := None |}
           | _ => o
           end
      else {| own := set k v (own o); parent := parent o |}
  end.

(** [{...a, ...b}] *)
Definition spreadInto (acc : dict value) (v : value) : dict value :=
  fold_left (fun d kv => set (fst kv) (snd kv) d) (ownEntries v) acc.

Definition Z_to_string (z : Z) : string :=
  NilEmpty.string_of_int (Z.to_int z).

Fixpoint join (sep : string) (l : list string) : string :=
  match l with
  | [] => EmptyString
  | [x] => x
  | x :: l' => x ++ sep ++ join sep l'
  end.

(** [String(v)], as used by template literals.  A parsed object with an
    own [toString] cannot be rendered: its [toString] is no function, and
    [valueOf] gives the object back. *)
Fixpoint toString (v : value) : exn + string :=
  match v with
  | VUndef => inr "undefined"
  | VNull => inr "null"
  | VBool true => inr "true"
  | VBool false => inr "false"
  | VNum text => inr text
  | VStr s => inr s
  | VArr elems =>
      let fix each (l : list value) : exn + list string :=
        match l with
        | [] => inr []
        | e :: l' =>
            match (match e with
                   | VUndef | VNull => inr EmptyString
                   | _ => toString e
                   end) with
            | inl x => inl x
            | inr s =>
                match each l' with
                | inl x => inl x
                | inr ss => inr (s :: ss)
                end
            end
        end in
      match each elems with
      | inl x => inl x
      | inr ss => inr (join "," ss)
      end
  | VObj props =>
      match lookup "toString" props with
      | Some _ => inl (TypeError "Cannot convert object to primitive value")
      | None => inr "[object Object]"
      end
  | VFun name => inr ("function " ++ name ++ "() { [native code] }")
  | VObjectPrototype => inr "[object Object]"
  end.

(** A loop over a list whose body may throw ([forEach], [for ... of]):
    the state keeps what the turns before the exception did. *)
Fixpoint forEach {S A} (body : S -> A -> exn + S) (l : list A) (s : S)
  : S * option exn :=
  match l with
  | [] => (s, None)
  | x :: l' =>
      match body s x with
      | inl e => (s, Some e)
      | inr s' => forEach body l' s'
      end
  end.

End JS.

(* ===================================================================== *)
(** ** The host and the effect monad *)
(* ===================================================================== *)

(** What the extension asks of its host.  Each oracle answers as the host
    would at the time of the call. *)
Record Runtime : Type := {
  (** the stored [nodeDepsWatcher.preferredPackageManager], if any *)
  preferredPackageManager : option string;
  (** [fs.existsSync(path)] *)
  existsSync : string -> bool;
  (** [fs.readFileSync(path, 'utf8')] *)
  readFileSync : string -> exn + string;
  (** [execAsync(command, { cwd })]: the captured stdout, or a rejection *)
  execAsync : string -> option string -> exn + string;
  (** [JSON.parse(text)] *)
  JSON_parse : string -> exn + value;
  (** [path.join(...segments)] *)
  path_join : list string -> string;
  (** [semver.satisfies(version, range)] of the semver dependency *)
  semver_satisfies : string -> string -> exn + bool;
  (** [Array.prototype[name]] in the host's engine, for a name other than
      [__proto__]; [VUndef] when there is none *)
  Array_prototype : string -> value
}.

(** Host calls, in the order they are made. *)
Inductive Event : Type :=
| EvConfigGet (key : string)
| EvExists (path : string)
| EvRead (path : string)
| EvExec (command : string) (cwd : option string).

Definition Eff (A : Type) : Type := Runtime -> (exn + A) * list Event.

Module Eff.

Definition ret {A} (a : A) : Eff A := fun _ => (inr a, []).

Definition bind {A B} (m : Eff A) (f : A -> Eff B) : Eff B :=
  fun w =>
    match m w with
    | (inl e, t) => (inl e, t)
    | (inr a, t) => let (r, t') := f a w in (r, (t ++ t')%list)
    end.

Definition raise {A} (e : exn) : Eff A := fun _ => (inl e, []).

(** [try { m } catch (e) { h e }] *)
Definition tryCatch {A} (m : Eff A) (h : exn -> Eff A) : Eff A :=
  fun w =>
    match m w with
    | (inl e, t) => let (r, t') := h e w in (r, (t ++ t')%list)
    | (inr a, t) => (inr a, t)
    end.

Definition lift {A} (r : exn + A) : Eff A := fun _ => (r, []).

Definition configGetPreferred (default : string) : Eff string :=
  fun w =>
    (inr (match preferredPackageManager w with
          | Some p => p
          | None => default
          end),
     [EvConfigGet "preferredPackageManager"]).

Definition fsExistsSync (p : string) : Eff bool :=
  fun w => (inr (existsSync w p), [EvExists p]).

Definition fsReadFileSync (p : string) : Eff string :=
  fun w => (readFileSync w p, [EvRead p]).

Definition exec (cmd : string) (cwd : option string) : Eff string :=
  fun w => (execAsync w cmd cwd, [EvExec cmd cwd]).

Definition jsonParse (text : string) : Eff value :=
  fun w => (JSON_parse w text, []).

Definition pathJoin (segs : list string) : Eff string :=
  fun w => (inr (path_join w segs), []).

(** The host itself, for the pure library functions it carries. *)
Definition host : Eff Runtime := fun w => (inr w, []).

End Eff.

Declare Scope eff_scope.
Delimit Scope eff_scope with eff.
Notation "'do' x <- m ; k" := (Eff.bind m (fun x => k))
  (at level 10, x name, m at level 100, k at level 200) : eff_scope.
Open Scope eff_scope.

(* ===================================================================== *)
(** ** GitMonitor *)
(* ===================================================================== *)

Module GitMonitor.

Definition refPrefix : string := "ref: refs/heads/".

(** [getCurrentBranch(workspacePath)]: the body of the [try] block. *)
Definition getCurrentBranch_try (workspacePath : string) : Eff string :=
  do gitHeadPath <- Eff.pathJoin [workspacePath; ".git"; "HEAD"];
  do present <- Eff.fsExistsSync gitHeadPath;
  if negb present then Eff.ret ""
  else
    do raw <- Eff.fsReadFileSync gitHeadPath;
    let headContent := JSString.trim raw in
    if JSString.startsWith headContent refPrefix
    then Eff.ret (JSString.replace headContent refPrefix "")
    else Eff.ret (JSString.substring headContent 0 7).

Definition getCurrentBranch (workspacePath : string) : Eff string :=
  Eff.tryCatch (getCurrentBranch_try workspacePath)
               (fun _ => Eff.ret "").

(** The monitor's mutable field together with what it has fired on
    [branchChangeEmitter]. *)
Record state : Type := {
  currentBranch : string;
  fired : list string
}.

Definition initial : state := {| currentBranch := ""; fired := [] |}.

(** The guarded update of [checkBranchChange], given the value
    [getCurrentBranch] returned. *)
Definition update (st : state) (newBranch : string) : state :=
  if JSString.nonEmpty newBranch
     && negb (String.eqb newBranch (currentBranch st))
  then {| currentBranch := newBranch; fired := (fired st ++ [newBranch])%list |}
  else st.

(** [checkBranchChange(workspacePath)] *)
Definition checkBranchChange (workspacePath : string) (st : state) : Eff state :=
  do newBranch <- getCurrentBranch workspacePath;
  Eff.ret (update st newBranch).

(** A sequence of change notifications, each handled against the host
    as it is at that moment. *)
Fixpoint handle (workspacePath : string) (hosts : list Runtime) (st : state) : state :=
  match hosts with
  | [] => st
  | w :: hosts' =>
      match fst (checkBranchChange workspacePath st w) with
      | inr st' => handle workspacePath hosts' st'
      | inl _ => st
      end
  end.

End GitMonitor.

(* ===================================================================== *)
(** ** PackageManagerDetector *)
(* ===================================================================== *)

Module PackageManagerDetector.

Record PackageManagerInfo : Type := {
  name : string;
  lockFile : string;
  installCommand : string;
  cleanInstallCommand : string;
  listCommand : string
}.

Definition packageManagers : list PackageManagerInfo :=
  [ {| name := "pnpm";
       lockFile := "pnpm-lock.yaml";
       installCommand := "pnpm install";
       cleanInstallCommand := "pnpm install --frozen-lockfile";
       listCommand := "pnpm list --depth=0 --silent --json" |};
    {| name := "yarn";
       lockFile := "yarn.lock";
       installCommand := "yarn install";
       cleanInstallCommand := "yarn install --frozen-lockfile";
       listCommand := "yarn list --depth=0 --silent --json" |};
    {| name := "npm";
       lockFile := "package-lock.json";
       installCommand := "npm install";
       cleanInstallCommand := "npm ci";
       listCommand := "npm list --depth=0 --silent --json" |} ].

(** The first [for] loop of [detectPackageManager]: returns from the
    method at the first lock file found. *)
Fixpoint lockFileLoop (workspacePath : string) (pms : list PackageManagerInfo)
  : Eff (option string) :=
  match pms with
  | [] => Eff.ret None
  | pm :: rest =>
      do lockFilePath <- Eff.pathJoin [workspacePath; lockFile pm];
      do found <- Eff.fsExistsSync lockFilePath;
      if found then Eff.ret (Some (name pm))
      else lockFileLoop workspacePath rest
  end.

(** The second [for] loop: a failed probe is caught and the loop goes
    on. *)
Fixpoint availabilityLoop (pms : list PackageManagerInfo) : Eff (option string) :=
  match pms with
  | [] => Eff.ret None
  | pm :: rest =>
      do ok <- Eff.tryCatch
                 (do _ <- Eff.exec (name pm ++ " --version") None; Eff.ret true)
                 (fun _ => Eff.ret false);
      if ok then Eff.ret (Some (name pm))
      else availabilityLoop rest
  end.

Definition detectPackageManager (workspacePath : string) : Eff string :=
  do preferred <- Eff.configGetPreferred "auto";
  if negb (String.eqb preferred "auto") then Eff.ret preferred
  else
    do byLock <- lockFileLoop workspacePath packageManagers;
    match byLock with
    | Some n => Eff.ret n
    | None =>
        do byProbe <- availabilityLoop packageManagers;
        match byProbe with
        | Some n => Eff.ret n
        | None => Eff.ret "npm"
        end
    end.

Definition getPackageManagerInfo (n : string) : exn + PackageManagerInfo :=
  match find (fun p => String.eqb (name p) n) packageManagers with
  | Some pm => inr pm
  | None => inl (Error ("Unsupported package manager: " ++ n))
  end.

(** The regular expression of the yarn branch matched against [s]:
    anchored at both ends, a greedy run of characters other than line
    terminators (first group), a literal [@], one or more characters
    other than [@] (second group).  Written as the backtracking matcher
    runs it: the greedy run takes the next character whenever the rest
    can still match, and only otherwise is that character tried as the
    literal [@].  Returns the two capture groups. *)
Fixpoint matchNameVersion (s : string) : option (string * string) :=
  match s with
  | EmptyString => None
  | String c s' =>
      match (if JSString.isLineTerminator c then None else matchNameVersion s') with
      | Some (n, v) => Some (String c n, v)
      | None =>
          if Ascii.eqb c "@"%char
             && JSString.nonEmpty s'
             && JSString.forallChar (fun d => negb (Ascii.eqb d "@"%char)) s'
          then Some (EmptyString, s')
          else None
      end
  end.

(** [tree.name.includes('@')] *)
Definition includesAt (v : value) : exn + bool :=
  match v with
  | VStr s => inr (JSString.includesChar "@"%char s)
  | VArr elems =>
      inr (existsb (fun e => match e with
                             | VStr s => String.eqb s "@"
                             | _ => false
                             end) elems)
  | _ => inl (TypeError "tree.name.includes is not a function")
  end.

(** [tree.name.match(re)] with the regular expression above *)
Definition matchAt (v : value) : exn + option (string * string) :=
  match v with
  | VStr s => inr (matchNameVersion s)
  | _ => inl (TypeError "tree.name.match is not a function")
  end.

(** The object [packages], built by assignments from [{}]. *)
Definition InstalledSet := JS.object.

(** The callback given to [result.data.trees.forEach]. *)
Definition yarnTree (packages : InstalledSet) (tree : value) : exn + InstalledSet :=
  match JS.getProp tree "name" with
  | inl e => inl e
  | inr treeName =>
      if negb (JS.truthy treeName) then inr packages
      else
        match includesAt treeName with
        | inl e => inl e
        | inr false => inr packages
        | inr true =>
            match matchAt treeName with
            | inl e => inl e
            | inr (Some (n, version)) => inr (JS.assign n (VStr version) packages)
            | inr None => inr packages
            end
        end
  end.

(** The callback given to [Object.keys(result.dependencies).forEach];
    [n] is one of those keys. *)
Definition npmDependency (dependencies : value) (packages : InstalledSet) (n : string)
  : exn + InstalledSet :=
  match JS.getProp (JS.at_ (JS.ownEntries dependencies) n) "version" with
  | inl e => inl e
  | inr version =>
      if JS.truthy version then inr (JS.assign n version packages)
      else inr packages
  end.

Definition parseYarn (result : value) (packages : InstalledSet)
  : InstalledSet * option exn :=
  match JS.getProp result "data" with
  | inl e => (packages, Some e)
  | inr data =>
      if negb (JS.truthy data) then (packages, None)
      else
        match JS.getProp data "trees" with
        | inl e => (packages, Some e)
        | inr trees =>
            if negb (JS.truthy trees) then (packages, None)
            else
              match trees with
              | VArr elems => JS.forEach yarnTree elems packages
              | _ => (packages,
                      Some (TypeError "result.data.trees.forEach is not a function"))
              end
        end
  end.

Definition parseNpm (result : value) (packages : InstalledSet)
  : InstalledSet * option exn :=
  match JS.getProp result "dependencies" with
  | inl e => (packages, Some e)
  | inr dependencies =>
      if negb (JS.truthy dependencies) then (packages, None)
      else JS.forEach (npmDependency dependencies)
                      (JS.keys (JS.ownEntries dependencies)) packages
  end.

(** The [switch (packageManager)] *)
Definition parseResult (packageManager : string) (result : value)
           (packages : InstalledSet) : InstalledSet * option exn :=
  if String.eqb packageManager "yarn" then parseYarn result packages
  else if String.eqb packageManager "pnpm" || String.eqb packageManager "npm"
       then parseNpm result packages
       else (packages, None).

(** The [try { ... } catch { log } finally { return packages }] block:
    whatever happens, the method returns [packages] as it stands. *)
Definition parseInstalled (packageManager commandOutput : string) : Eff InstalledSet :=
  fun w =>
    let packages : InstalledSet := JS.emptyObject in
    match JSON_parse w commandOutput with
    | inl _ => (inr packages, [])
    | inr result => (inr (fst (parseResult packageManager result packages)), [])
    end.

Definition dquote : string := String "034"%char EmptyString.

(** The shell form used when the list command exits with an error. *)
Definition fallbackCommand (listCmd : string) : string :=
  "output=$(" ++ listCmd ++ " 2>&1) || echo " ++ dquote ++ "$output" ++ dquote.

Definition getInstalledPackages (workspacePath packageManager : string)
  : Eff InstalledSet :=
  do pmInfo <- Eff.lift (getPackageManagerInfo packageManager);
  do commandOutput <-
    Eff.tryCatch
      (Eff.exec (listCommand pmInfo) (Some workspacePath))
      (fun _ => Eff.exec (fallbackCommand (listCommand pmInfo)) (Some workspacePath));
  parseInstalled packageManager commandOutput.

End PackageManagerDetector.

(* ===================================================================== *)
(** ** DependencyChecker *)
(* ===================================================================== *)

Module DependencyChecker.

Record DependencyCheckResult : Type := {
  isValid : bool;
  missingPackages : list string;
  extraPackages : list string;
  outdatedPackages : list string;
  errors : list string
}.

Definition pushError (msg : string) (r : DependencyCheckResult) :=
  {| isValid := isValid r;
     missingPackages := missingPackages r;
     extraPackages := extraPackages r;
     outdatedPackages := outdatedPackages r;
     errors := (errors r ++ [msg])%list |}.

Definition pushMissing (n : string) (r : DependencyCheckResult) :=
  {| isValid := isValid r;
     missingPackages := (missingPackages r ++ [n])%list;
     extraPackages := extraPackages r;
     outdatedPackages := outdatedPackages r;
     errors := errors r |}.

Definition pushExtra (n : string) (r : DependencyCheckResult) :=
  {| isValid := isValid r;
     missingPackages := missingPackages r;
     extraPackages := (extraPackages r ++ [n])%list;
     outdatedPackages := outdatedPackages r;
     errors := errors r |}.

Definition pushOutdated (line : string) (r : DependencyCheckResult) :=
  {| isValid := isValid r;
     missingPackages := missingPackages r;
     extraPackages := extraPackages r;
     outdatedPackages := (outdatedPackages r ++ [line])%list;
     errors := errors r |}.

Definition setInvalid (r : DependencyCheckResult) :=
  {| isValid := false;
     missingPackages := missingPackages r;
     extraPackages := extraPackages r;
     outdatedPackages := outdatedPackages r;
     errors := errors r |}.

Definition fresh : DependencyCheckResult :=
  {| isValid := true;
     missingPackages := [];
     extraPackages := [];
     outdatedPackages := [];
     errors := [] |}.

Definition isCaretOrTilde (c : ascii) : bool :=
  Ascii.eqb c "^"%char || Ascii.eqb c "~"%char.

(** The body of the [try] block of [isVersionCompatible].  The two
    parameters are typed [string] in the source but hold whatever the
    manifest and the installed set held; a method call on a non-string
    throws. *)
Definition isVersionCompatible_try
           (satisfies : string -> string -> exn + bool)
           (required installed : value) : exn + bool :=
  match required with
  | VStr required =>
      if JSString.startsWith required "file:" || JSString.startsWith required "git+"
      then inr true
      else
        let cleanRequired := JSString.stripLeading isCaretOrTilde required in
        match installed with
        | VStr installed =>
            let cleanInstalled :=
              JSString.stripLeading (JSString.isChar "v"%char) installed in
            if JSString.startsWith required "^"
            then satisfies cleanInstalled ("^" ++ cleanRequired)
            else if JSString.startsWith required "~"
            then satisfies cleanInstalled ("~" ++ cleanRequired)
            else satisfies cleanInstalled cleanRequired
        | VUndef =>
            inl (TypeError "Cannot read properties of undefined (reading 'replace')")
        | VNull =>
            inl (TypeError "Cannot read properties of null (reading 'replace')")
        | _ => inl (TypeError "installed.replace is not a function")
        end
  | VUndef =>
      inl (TypeError "Cannot read properties of undefined (reading 'startsWith')")
  | VNull =>
      inl (TypeError "Cannot read properties of null (reading 'startsWith')")
  | _ => inl (TypeError "required.startsWith is not a function")
  end.

(** [`Version comparison failed for ${required} vs ${installed}: ${error}`],
    the line the [catch] block logs. *)
Definition comparisonFailed (required installed : value) (error : exn) : exn + string :=
  match JS.toString required with
  | inl e => inl e
  | inr requiredText =>
      match JS.toString installed with
      | inl e => inl e
      | inr installedText =>
          inr ("Version comparison failed for " ++ requiredText ++ " vs "
                 ++ installedText ++ ": " ++ exn_to_string error)
      end
  end.

(** [isVersionCompatible(required, installed)]: the [catch] block builds
    its log line and returns [false]; what building the line throws
    leaves the method. *)
Definition isVersionCompatible
           (satisfies : string -> string -> exn + bool)
           (required installed : value) : exn + bool :=
  match isVersionCompatible_try satisfies required installed with
  | inr b => inr b
  | inl error =>
      match comparisonFailed required installed error with
      | inl e => inl e
      | inr _ => inr false
      end
  end.

(** [`${name}@${installedVersion} (required: ${version})`] *)
Definition outdatedLine (n : string) (installedVersion version : value) : exn + string :=
  match JS.toString installedVersion with
  | inl e => inl e
  | inr installedText =>
      match JS.toString version with
      | inl e => inl e
      | inr versionText =>
          inr (n ++ "@" ++ installedText ++ " (required: " ++ versionText ++ ")")
      end
  end.

(** [{ ...packageJson.dependencies, ...packageJson.devDependencies }] *)
Definition requiredDependencies (packageJson : value) : exn + JS.dict value :=
  match JS.getProp packageJson "dependencies" with
  | inl e => inl e
  | inr dependencies =>
      match JS.getProp packageJson "devDependencies" with
      | inl e => inl e
      | inr devDependencies =>
          inr (JS.spreadInto (JS.spreadInto [] dependencies) devDependencies)
      end
  end.

(** One turn of the loop over [Object.entries(requiredDependencies)].
    A turn that throws does so before it has touched [result]. *)
Definition checkRequired (w : Runtime) (installedPackages : PackageManagerDetector.InstalledSet)
           (result : DependencyCheckResult) (entry : string * value)
  : exn + DependencyCheckResult :=
  let (n, version) := entry in
  if negb (JS.truthy (JS.get (Array_prototype w) installedPackages n))
  then inr (setInvalid (pushMissing n result))
  else
    let installedVersion := JS.get (Array_prototype w) installedPackages n in
    match isVersionCompatible (semver_satisfies w) version installedVersion with
    | inl e => inl e
    | inr true => inr result
    | inr false =>
        match outdatedLine n installedVersion version with
        | inl e => inl e
        | inr line => inr (setInvalid (pushOutdated line result))
        end
    end.

(** One turn of the loop over [Object.keys(installedPackages)]. *)
Definition checkExtra (required : JS.dict value)
           (result : DependencyCheckResult) (n : string) : DependencyCheckResult :=
  if negb (JS.truthy (JS.at_ required n)) then pushExtra n result else result.

(** The two loops of [checkDependencies]: the result as they leave it,
    and the exception the first one left by, if any (the second one
    cannot throw). *)
Definition reconcile (w : Runtime)
           (required : JS.dict value)
           (installedPackages : PackageManagerDetector.InstalledSet)
           (result : DependencyCheckResult) : DependencyCheckResult * option exn :=
  match JS.forEach (checkRequired w installedPackages) required result with
  | (result, Some e) => (result, Some e)
  | (result, None) =>
      (fold_left (checkExtra required) (JS.keys (JS.own installedPackages)) result,
       None)
  end.

(** The body of the [try] block of [checkDependencies]: the result
    object as the block leaves it, and the exception the loops left by,
    if any.  An exception raised before the loops is raised here; the
    result object is then as it was created. *)
Definition checkDependencies_try (workspacePath : string)
           (result : DependencyCheckResult)
  : Eff (DependencyCheckResult * option exn) :=
  do packageJsonPath <- Eff.pathJoin [workspacePath; "package.json"];
  do present <- Eff.fsExistsSync packageJsonPath;
  if negb present
  then Eff.ret (setInvalid (pushError "package.json not found" result), None)
  else
    do text <- Eff.fsReadFileSync packageJsonPath;
    do packageJson <- Eff.jsonParse text;
    do required <- Eff.lift (requiredDependencies packageJson);
    do packageManager <- PackageManagerDetector.detectPackageManager workspacePath;
    do installedPackages <-
      PackageManagerDetector.getInstalledPackages workspacePath packageManager;
    do w <- Eff.host;
    Eff.ret (reconcile w required installedPackages result).

(** The [catch] block of [checkDependencies], on the result object as it
    stands. *)
Definition failed (error : exn) (result : DependencyCheckResult) : DependencyCheckResult :=
  setInvalid (pushError ("Failed to check dependencies: " ++ exn_to_string error)
                        result).

(** [checkDependencies(workspacePath)] *)
Definition checkDependencies (workspacePath : string) : Eff DependencyCheckResult :=
  let result := fresh in
  do outcome <-
    Eff.tryCatch
      (checkDependencies_try workspacePath result)
      (fun error => Eff.ret (result, Some error));
  match outcome with
  | (result, None) => Eff.ret result
  | (result, Some error) => Eff.ret (failed error result)
  end.

End DependencyChecker.

(* ===================================================================== *)
(** ** The semver dependency *)
(* ===================================================================== *)

(** [semver.satisfies] belongs to the semver package, which the extension
    imports and whose code is not part of the repository.  The methods
    above take it from the host.  This module gives the caret-range and
    tilde-range semantics the specification names, on a fragment. *)
Module Semver.

(** The largest component a version may have. *)
Definition maxSafeInteger : N := 9007199254740991.

(** A numeric identifier: non-empty, digits only, no leading zero, at
    most the largest safe integer. *)
Definition numeric (s : string) : option N :=
  match s with
  | EmptyString => None
  | String "0"%char (String _ _) => None
  | _ =>
      match JSString.digits 0 s with
      | Some n => if (n <=? maxSafeInteger)%N then Some n else None
      | None => None
      end
  end.

(** Splits at every dot. *)
Fixpoint fields (s : string) : list string :=
  match s with
  | EmptyString => [EmptyString]
  | String c s' =>
      if Ascii.eqb c "."%char then EmptyString :: fields s'
      else match fields s' with
           | f :: fs => String c f :: fs
           | [] => [String c EmptyString]
           end
  end.

Definition version : Type := N * N * N.

Definition parse (s : string) : option version :=
  match fields s with
  | [a; b; c] =>
      match numeric a, numeric b, numeric c with
      | Some x, Some y, Some z => Some (x, y, z)
      | _, _, _ => None
      end
  | _ => None
  end.

(** Precedence: [v] is at least [b]. *)
Definition geq (v b : version) : bool :=
  let '(x, y, z) := v in
  let '(p, q, r) := b in
  (p <? x)%N || ((p =? x)%N && ((q <? y)%N || ((q =? y)%N && (r <=? z)%N))).

Definition eq (v b : version) : bool :=
  let '(x, y, z) := v in
  let '(p, q, r) := b in
  (p =? x)%N && (q =? y)%N && (r =? z)%N.

(** The caret: changes that leave the left-most non-zero component
    alone. *)
Definition caret (b v : version) : bool :=
  let '(x, y, z) := v in
  let '(p, q, r) := b in
  if negb (p =? 0)%N then geq v b && (x =? p)%N
  else if negb (q =? 0)%N then geq v b && (x =? 0)%N && (y =? q)%N
  else eq v b.

(** The tilde: patch-level changes. *)
Definition tilde (b v : version) : bool :=
  let '(x, y, z) := v in
  let '(p, q, r) := b in
  geq v b && (x =? p)%N && (y =? q)%N.

(** The component a range raises by one to form its upper bound: the
    left-most non-zero one for the caret, the minor one for the tilde. *)
Definition caretRaised (b : version) : N :=
  let '(p, q, r) := b in
  if negb (p =? 0)%N then p else if negb (q =? 0)%N then q else r.

Definition tildeRaised (b : version) : N :=
  let '(p, q, r) := b in q.

(** A range whose upper bound would pass the largest safe integer is no
    range, and no version satisfies it. *)
Definition bounded (raised : N) (answer : bool) : bool :=
  (raised <? maxSafeInteger)%N && answer.

(** Modelled from the spec: [semver.satisfies(version, range)], absent
    from the repository, on plain [MAJOR.MINOR.PATCH] versions and
    requirements of the forms [^X.Y.Z] (caret range), [~X.Y.Z] (tilde
    range) and [X.Y.Z] (that version).  The answer is [None] outside
    this fragment. *)
Definition satisfies (v range : string) : option bool :=
  match parse v with
  | None => None
  | Some ver =>
      match range with
      | String c rest =>
          if Ascii.eqb c "^"%char
          then option_map (fun b => bounded (caretRaised b) (caret b ver)) (parse rest)
          else if Ascii.eqb c "~"%char
          then option_map (fun b => bounded (tildeRaised b) (tilde b ver)) (parse rest)
          else option_map (fun b => eq ver b) (parse range)
      | EmptyString => None
      end
  end.

(** A host whose semver answers as the model does on the fragment. *)
Definition agrees (sat : string -> string -> exn + bool) : Prop :=
  forall v range b, satisfies v range = Some b -> sat v range = inr b.

(** A sample semver for concrete runs: the model, with [false] outside
    the fragment. *)
Definition reference (v range : string) : exn + bool :=
  match satisfies v range with
  | Some b => inr b
  | None => inr false
  end.

End Semver.

(* ===================================================================== *)
(** ** The specification's vocabulary *)
(* ===================================================================== *)

(** Definitions that follow the words of the specification; the
    properties below relate them to the code. *)
Module Spec.

Import PackageManagerDetector.

(** A run of notifications that never repeats the value before it and
    never carries the empty string. *)
Fixpoint noRepeat (previous : string) (l : list string) : Prop :=
  match l with
  | [] => True
  | x :: l' => x <> previous /\ x <> EmptyString /\ noRepeat x l'
  end.

(** The precedence in the specification's words. *)
Definition lockFilePresent (w : Runtime) (ws file : string) : bool :=
  existsSync w (path_join w [ws; file]).

Definition answersVersion (w : Runtime) (manager : string) : bool :=
  match execAsync w (manager ++ " --version") None with
  | inr _ => true
  | inl _ => false
  end.

Definition firstMatch (w : Runtime) (ws : string) : string :=
  if lockFilePresent w ws "pnpm-lock.yaml" then "pnpm"
  else if lockFilePresent w ws "yarn.lock" then "yarn"
  else if lockFilePresent w ws "package-lock.json" then "npm"
  else if answersVersion w "pnpm" then "pnpm"
  else if answersVersion w "yarn" then "yarn"
  else if answersVersion w "npm" then "npm"
  else "npm".

Definition configured (w : Runtime) : string :=
  match preferredPackageManager w with
  | Some p => p
  | None => "auto"
  end.

Definition notAt (c : ascii) : bool := negb (Ascii.eqb c "@"%char).
Definition notLineTerminator (c : ascii) : bool := negb (JSString.isLineTerminator c).

(** The output the method goes on to parse: that of the list command,
    or that of the shell form when the list command failed. *)
Definition capturedOutput (w : Runtime) (ws pm : string) : option string :=
  match getPackageManagerInfo pm with
  | inl _ => None
  | inr info =>
      match execAsync w (listCommand info) (Some ws) with
      | inr out => Some out
      | inl _ =>
          match execAsync w (fallbackCommand (listCommand info)) (Some ws) with
          | inr out => Some out
          | inl _ => None
          end
      end
  end.


(** The relation between [isValid] and the lists that the loops and the
    handlers of [checkDependencies] maintain. *)
Definition consistent (r : DependencyChecker.DependencyCheckResult) : Prop :=
  DependencyChecker.isValid r = true
  <-> DependencyChecker.missingPackages r = []
      /\ DependencyChecker.outdatedPackages r = []
      /\ DependencyChecker.errors r = [].

(** The three lists in closed form: which declared names are missing,
    which declared entries are outdated, which installed names are
    extra. *)
Definition installedVersion (w : Runtime) (installed : InstalledSet) (n : string) : value :=
  JS.get (Array_prototype w) installed n.

Definition isMissing (w : Runtime) (installed : InstalledSet)
           (entry : string * value) : bool :=
  negb (JS.truthy (installedVersion w installed (fst entry))).

Definition isOutdated (w : Runtime) (installed : InstalledSet)
           (entry : string * value) : bool :=
  JS.truthy (installedVersion w installed (fst entry))
  && match DependencyChecker.isVersionCompatible
             (semver_satisfies w) (snd entry)
             (installedVersion w installed (fst entry)) with
     | inr false => true
     | _ => false
     end.

Definition isExtra (required : JS.dict value) (n : string) : bool :=
  negb (JS.truthy (JS.at_ required n)).

Definition allTruthy (d : JS.dict value) : Prop :=
  forall n v, In (n, v) d -> JS.truthy v = true.

(** Every value is a non-empty string: what the types of the source
    promise of a requirement and of an installed version. *)
Definition textual (d : JS.dict value) : Prop :=
  forall n v, In (n, v) d -> exists s, v = VStr s /\ JSString.nonEmpty s = true.

(** The names every object inherits from [Object.prototype]. *)
Definition inheritedNames : list string :=
  ["__proto__"; "constructor"; "hasOwnProperty"; "isPrototypeOf";
   "propertyIsEnumerable"; "toLocaleString"; "toString"; "valueOf";
   "__defineGetter__"; "__defineSetter__";
   "__lookupGetter__"; "__lookupSetter__"].

Definition inheritedName (n : string) : bool :=
  existsb (String.eqb n) inheritedNames.

(** No name of the dictionary is one every object inherits. *)
Definition ordinaryNames (d : JS.dict value) : Prop :=
  forall n, In n (JS.keys d) -> inheritedName n = false.

(** The operator a requirement starts with, if any. *)
Definition operatorOf (required : string) : string :=
  match required with
  | String "^"%char _ => "^"
  | String "~"%char _ => "~"
  | _ => EmptyString
  end.

(** The requirement without its leading operator. *)
Definition withoutOperator (required : string) : string :=
  match required with
  | String "^"%char rest => rest
  | String "~"%char rest => rest
  | _ => required
  end.

(** The installed version without a leading [v]. *)
Definition withoutV (installed : string) : string :=
  match installed with
  | String "v"%char rest => rest
  | _ => installed
  end.

(** A requirement that is a local path ([file:...]) or a git reference
    ([git+...]). *)
Definition isLocalOrGit (required : string) : Prop :=
  exists rest, required = "file:" ++ rest \/ required = "git+" ++ rest.


End Spec.

(* ===================================================================== *)
(** ** Concrete hosts *)
(* ===================================================================== *)

(** Hosts built from tables, for running the methods on explicit inputs.
    A JSON document is given as the value it denotes; its text is
    [stringify] of that value, and the host's [JSON.parse] recognises
    exactly the texts of the documents it was given. *)
Module Scenario.

Definition quoted (s : string) : string :=
  PackageManagerDetector.dquote ++ s ++ PackageManagerDetector.dquote.

(** [JSON.stringify], for strings that need no escaping. *)
Fixpoint stringify (v : value) : string :=
  match v with
  | VUndef => "undefined"
  | VNull => "null"
  | VBool true => "true"
  | VBool false => "false"
  | VNum text => text
  | VStr s => quoted s
  | VArr elems => "[" ++ JS.join "," (map stringify elems) ++ "]"
  | VObj props =>
      "{" ++ JS.join ","
               (map (fun kv => match kv with
                               | (k, x) => quoted k ++ ":" ++ stringify x
                               end) props)
          ++ "}"
  | VFun _ | VObjectPrototype => "undefined"
  end.

Definition parseAmong (documents : list value) (text : string) : exn + value :=
  match find (fun d => String.eqb (stringify d) text) documents with
  | Some d => inr d
  | None => inl (HostError "SyntaxError: Unexpected token in JSON")
  end.

(** Some methods every engine's [Array.prototype] has. *)
Definition arrayPrototype (k : string) : value :=
  if String.eqb k "constructor" then VFun "Array"
  else if existsb (String.eqb k)
            ["concat"; "every"; "filter"; "forEach"; "indexOf"; "join";
             "lastIndexOf"; "map"; "pop"; "push"; "reduce"; "reduceRight";
             "reverse"; "shift"; "slice"; "some"; "sort"; "splice";
             "toLocaleString"; "toString"; "unshift"]
       then VFun k
       else VUndef.

Definition host (preferred : option string)
           (files commands : list (string * string))
           (documents : list value)
           (satisfies : string -> string -> exn + bool) : Runtime :=
  {| preferredPackageManager := preferred;
     existsSync := fun p =>
       match JS.lookup p files with Some _ => true | None => false end;
     readFileSync := fun p =>
       match JS.lookup p files with
       | Some text => inr text
       | None => inl (HostError "Error: ENOENT: no such file or directory")
       end;
     execAsync := fun command _ =>
       match JS.lookup command commands with
       | Some out => inr out
       | None => inl (HostError ("Error: Command failed: " ++ command))
       end;
     JSON_parse := parseAmong documents;
     path_join := JS.join "/";
     semver_satisfies := satisfies;
     Array_prototype := arrayPrototype |}.

(** A workspace without a manifest. *)
Definition noManifest : Runtime :=
  host None [] [] [] Semver.reference.




(** The manifest declares lodash with the empty requirement (any
    version); lodash is installed. *)
Definition anyVersionManifest : value :=
  VObj [("dependencies", VObj [("lodash", VStr "")])].

Definition lodashListing (version : string) : value :=
  VObj [("dependencies", VObj [("lodash", VObj [("version", VStr version)])])].

Definition anyVersion (version : string)
           (satisfies : string -> string -> exn + bool) : Runtime :=
  host (Some "npm")
       [("/ws/package.json", stringify anyVersionManifest)]
       [("npm list --depth=0 --silent --json", stringify (lodashListing version))]
       [anyVersionManifest; lodashListing version] satisfies.

(** The manifest declares lodash; lodash and an undeclared package are
    installed. *)
Definition lodashManifest : value :=
  VObj [("dependencies", VObj [("lodash", VStr "^4.0.0")])].

Definition twoInstalled : value :=
  VObj [("dependencies",
         VObj [("lodash", VObj [("version", VStr "4.17.21")]);
               ("rimraf", VObj [("version", VStr "5.0.5")])])].

Definition oneExtra : Runtime :=
  host (Some "npm")
       [("/ws/package.json", stringify lodashManifest)]
       [("npm list --depth=0 --silent --json", stringify twoInstalled)]
       [lodashManifest; twoInstalled] Semver.reference.

(** The manifest declares lodash and chalk; only lodash is installed. *)
Definition twoDeclared : value :=
  VObj [("dependencies",
         VObj [("lodash", VStr "^4.0.0"); ("chalk", VStr "^5.0.0")])].

Definition chalkMissing : Runtime :=
  host (Some "npm")
       [("/ws/package.json", stringify twoDeclared)]
       [("npm list --depth=0 --silent --json", stringify (lodashListing "4.17.21"))]
       [twoDeclared; lodashListing "4.17.21"] Semver.reference.

(** A repository whose head pointer file holds [content]. *)
Definition gitHead (content : string) : Runtime :=
  host None [("/ws/.git/HEAD", content)] [] [] Semver.reference.

Definition newline : string := String "010"%char EmptyString.

(** The preference is yarn; the only lock file is pnpm's. *)
Definition prefersYarn : Runtime :=
  host (Some "yarn") [("/ws/pnpm-lock.yaml", "lockfileVersion: 9")] [] []
       Semver.reference.

(** No preference, no lock file; only yarn answers a version query. *)
Definition onlyYarnInstalled : Runtime :=
  host None [] [("yarn --version", "1.22.22")] [] Semver.reference.

(** The same package in both sections of the manifest. *)
Definition bothSections : value :=
  VObj [("dependencies", VObj [("typescript", VStr "^4.9.0")]);
        ("devDependencies", VObj [("typescript", VStr "^5.4.0")])].

End Scenario.

(* ===================================================================== *)
(** ** Installing, watching and the editor's commands *)
(* ===================================================================== *)

(** Effects over any host and any kind of recorded step; [Eff] is the
    instance over [Runtime] and [Event]. *)
Definition Run (H E A : Type) : Type := H -> (exn + A) * list E.

Module Run.

Section Ops.

Context {H E : Type}.

Definition ret {A} (a : A) : Run H E A := fun _ => (inr a, []).

Definition bind {A B} (m : Run H E A) (f : A -> Run H E B) : Run H E B :=
  fun h =>
    match m h with
    | (inl e, t) => (inl e, t)
    | (inr a, t) => let (r, t') := f a h in (r, (t ++ t')%list)
    end.

(** [try { m } catch (e) { handler e }] *)
Definition tryCatch {A} (m : Run H E A) (handler : exn -> Run H E A) : Run H E A :=
  fun h =>
    match m h with
    | (inl e, t) => let (r, t') := handler e h in (r, (t ++ t')%list)
    | (inr a, t) => (inr a, t)
    end.

Definition lift {A} (r : exn + A) : Run H E A := fun _ => (r, []).

Definition emit (e : E) : Run H E unit := fun _ => (inr tt, [e]).

End Ops.

(** A computation over a smaller host, run inside a larger one. *)
Definition embed {H E H' E' A} (proj : H' -> H) (inj : E -> E')
           (m : Run H E A) : Run H' E' A :=
  fun h => let (r, t) := m (proj h) in (r, map inj t).

End Run.

Declare Scope run_scope.
Delimit Scope run_scope with run.
Notation "'step' x <- m ; k" := (Run.bind m (fun x => k))
  (at level 10, x name, m at level 100, k at level 200) : run_scope.
Open Scope run_scope.

(** What a clean install asks of the host beyond [Runtime]. *)
Record InstallHost : Type := {
  runtime : Runtime;
  (** the stored [nodeDepsWatcher.deleteNodeModulesOnCleanInstall], if any *)
  deleteNodeModulesOnCleanInstall : option bool;
  (** [fs.rm(path, { recursive: true, force: true }, callback)]: the error
      handed to the callback, if any *)
  fs_rm : string -> option exn;
  (** [exec(command, { cwd })]: the code handed to the [close] listener;
      [None] is [null] (the process was ended by a signal) *)
  closeCode : string -> string -> option Z
}.

Inductive Action : Type :=
| AHost (e : Event)
| AConfigGet (key : string)
| ARemove (path : string)
| ASpawn (command : string) (cwd : string).

(** [PackageManagerDetector.executeCommand] and
    [DependencyChecker.cleanInstall], [DependencyChecker.deleteDirectory]. *)
Module Installer.

Definition Act (A : Type) : Type := Run InstallHost Action A.

Definition ofEff {A} (m : Eff A) : Act A := Run.embed runtime AHost m.

Definition configGetDelete (default : bool) : Act bool :=
  fun h =>
    (inr (match deleteNodeModulesOnCleanInstall h with
          | Some b => b
          | None => default
          end),
     [AConfigGet "deleteNodeModulesOnCleanInstall"]).

(** [`${code}`] *)
Definition codeText (code : option Z) : string :=
  match code with
  | Some z => JS.Z_to_string z
  | None => "null"
  end.

(** [executeCommand(command, workspacePath)]: the promise settles in the
    [close] listener. *)
Definition executeCommand (command workspacePath : string) : Act unit :=
  fun h =>
    let code := closeCode h command workspacePath in
    (match code with
     | Some 0%Z => inr tt
     | _ => inl (Error ("Command failed with code " ++ codeText code))
     end,
     [ASpawn command workspacePath]).

(** [deleteDirectory(dirPath)] *)
Definition deleteDirectory (dirPath : string) : Act unit :=
  fun h =>
    (match fs_rm h dirPath with
     | Some err => inl err
     | None => inr tt
     end,
     [ARemove dirPath]).

(** [cleanInstall(workspacePath, packageManager)] *)
Definition cleanInstall (workspacePath packageManager : string) : Act unit :=
  step pmInfo <-
    Run.lift (PackageManagerDetector.getPackageManagerInfo packageManager);
  step deleteFirst <- configGetDelete false;
  step _ <-
    (if deleteFirst
     then
       step nodeModulesPath <- ofEff (Eff.pathJoin [workspacePath; "node_modules"]);
       step present <- ofEff (Eff.fsExistsSync nodeModulesPath);
       if present then deleteDirectory nodeModulesPath else Run.ret tt
     else Run.ret tt);
  executeCommand (PackageManagerDetector.cleanInstallCommand pmInfo) workspacePath.

End Installer.

(** [GitMonitor.setupGitMonitoring], run by the constructor. *)
Module GitSetup.

(** The monitor after construction: its state and the glob patterns it
    watches. *)
Record monitor : Type := {
  tracking : GitMonitor.state;
  watching : list string
}.

Definition dormant : monitor :=
  {| tracking := GitMonitor.initial; watching := [] |}.

(** [workspaceFolders] is [undefined] ([None]) or the list of the open
    folders' paths; the code reads folder 0. *)
Definition setupGitMonitoring (workspaceFolders : option (list string)) : Eff monitor :=
  match workspaceFolders with
  | None => Eff.ret dormant
  | Some [] =>
      Eff.raise (TypeError "Cannot read properties of undefined (reading 'uri')")
  | Some (workspacePath :: _) =>
      do gitPath <- Eff.pathJoin [workspacePath; ".git"];
      do present <- Eff.fsExistsSync gitPath;
      if negb present then Eff.ret dormant
      else
        do branch <- GitMonitor.getCurrentBranch workspacePath;
        Eff.ret {| tracking := {| GitMonitor.currentBranch := branch;
                                  GitMonitor.fired := [] |};
                   watching := ["**/.git/HEAD"; "**/.git/refs/heads/*"] |}
  end.

End GitSetup.

(** The editor around the extension: the open folders, the status-bar
    setting and what the user picks when a warning offers choices. *)
Record Editor : Type := {
  installHost : InstallHost;
  workspaceFolders : option (list string);
  (** the stored [nodeDepsWatcher.showStatusBarItem], if any *)
  showStatusBarItem : option bool;
  (** [showWarningMessage(message, ...items)]: the item picked, [None]
      when the message is dismissed *)
  pickWarning : string -> list string -> option string
}.

Inductive Step : Type :=
| SAction (a : Action)
| SStatusBar (shown : option string)
| SInformation (message : string)
| SWarning (message : string) (items : list string)
| SError (message : string).

(** The commands of [extension.ts]. *)
Module Extension.

Definition Cmd (A : Type) : Type := Run Editor Step A.

Definition ofEff {A} (m : Eff A) : Cmd A :=
  Run.embed (fun ed => runtime (installHost ed)) (fun e => SAction (AHost e)) m.

Definition ofAct {A} (m : Installer.Act A) : Cmd A :=
  Run.embed installHost SAction m.

(** [updateStatusBar(text)]: the item shows [text], or is hidden when the
    setting is off. *)
Definition updateStatusBar (text : string) : Cmd unit :=
  fun ed =>
    (inr tt,
     [SStatusBar (if match showStatusBarItem ed with
                     | Some b => b
                     | None => true
                     end
                  then Some text else None)]).

Definition showInformationMessage (message : string) : Cmd unit :=
  Run.emit (SInformation message).

Definition showErrorMessage (message : string) : Cmd unit :=
  Run.emit (SError message).

Definition showWarningMessage (message : string) (items : list string)
  : Cmd (option string) :=
  fun ed => (inr (pickWarning ed message items), [SWarning message items]).

(** [vscode.workspace.workspaceFolders[0].uri.fsPath] *)
Definition firstFolder : Cmd string :=
  fun ed =>
    match workspaceFolders ed with
    | Some (folder :: _) => (inr folder, [])
    | Some [] =>
        (inl (TypeError "Cannot read properties of undefined (reading 'uri')"), [])
    | None =>
        (inl (TypeError "Cannot read properties of undefined (reading '0')"), [])
    end.

Definition hasWorkspaceFolders : Cmd bool :=
  fun ed =>
    (inr (match workspaceFolders ed with Some _ => true | None => false end), []).

(** The command [nodeDepsWatcher.cleanInstall] *)
Definition cleanInstall : Cmd unit :=
  step open <- hasWorkspaceFolders;
  if negb open then showErrorMessage "No workspace folder found"
  else
    step _ <- updateStatusBar "$(sync~spin) Installing dependencies...";
    Run.tryCatch
      (step workspacePath <- firstFolder;
       step packageManager <-
         ofEff (PackageManagerDetector.detectPackageManager workspacePath);
       step _ <- ofAct (Installer.cleanInstall workspacePath packageManager);
       step _ <- updateStatusBar "$(check) Dependencies installed";
       showInformationMessage "Dependencies successfully installed!")
      (fun error =>
         step _ <- updateStatusBar "$(error) Install failed";
         showErrorMessage ("Failed to install dependencies: " ++ exn_to_string error)).

(** One [if (list.length > 0) messages.push(...)]. *)
Definition detail (label : string) (names : list string) : list string :=
  match names with
  | [] => []
  | _ => [label ++ JS.join ", " names]
  end.

(** The lines pushed to [messages], in order. *)
Definition detailLines (result : DependencyChecker.DependencyCheckResult) : list string :=
  (detail "Missing: " (DependencyChecker.missingPackages result)
   ++ detail "Extra: " (DependencyChecker.extraPackages result)
   ++ detail "Outdated: " (DependencyChecker.outdatedPackages result))%list.

(** [`Dependencies out of sync. ${messages.join('. ')}`] *)
Definition outOfSyncMessage (result : DependencyChecker.DependencyCheckResult) : string :=
  "Dependencies out of sync. " ++ JS.join ". " (detailLines result).

(** The command [nodeDepsWatcher.checkDependencies] *)
Definition checkDependencies : Cmd unit :=
  step open <- hasWorkspaceFolders;
  if negb open then updateStatusBar "$(warning) No workspace"
  else
    step _ <- updateStatusBar "$(sync~spin) Checking dependencies...";
    Run.tryCatch
      (step workspacePath <- firstFolder;
       step result <- ofEff (DependencyChecker.checkDependencies workspacePath);
       if DependencyChecker.isValid result
       then
         step _ <- updateStatusBar "$(check) Dependencies OK";
         showInformationMessage "Dependencies are up to date!"
       else
         step _ <- updateStatusBar "$(warning) Dependencies out of sync";
         step action <-
           showWarningMessage (outOfSyncMessage result) ["Clean Install"; "Ignore"];
         match action with
         | Some choice =>
             if String.eqb choice "Clean Install" then cleanInstall else Run.ret tt
         | None => Run.ret tt
         end)
      (fun error =>
         step _ <- updateStatusBar "$(error) Check failed";
         showErrorMessage ("Failed to check dependencies: " ++ exn_to_string error)).

(** The command [nodeDepsWatcher.detectPackageManager] *)
Definition detectPackageManager : Cmd unit :=
  step open <- hasWorkspaceFolders;
  if negb open then showErrorMessage "No workspace folder found"
  else
    Run.tryCatch
      (step workspacePath <- firstFolder;
       step packageManager <-
         ofEff (PackageManagerDetector.detectPackageManager workspacePath);
       showInformationMessage ("Detected package manager: " ++ packageManager))
      (fun error =>
         showErrorMessage ("Failed to detect package manager: " ++ exn_to_string error)).

End Extension.

(* ===================================================================== *)
(** ** Vocabulary and hosts for the further properties *)
(* ===================================================================== *)

Module Terms.

Import PackageManagerDetector.

(** The names [getPackageManagerInfo] knows. *)
Definition supported : list string := ["pnpm"; "yarn"; "npm"].

(** The commands a trace of host calls ran, in order. *)
Definition commandsRun (trace : list Event) : list string :=
  flat_map (fun e => match e with
                     | EvExec command _ => [command]
                     | _ => []
                     end) trace.

(** Some lock file of a known manager is present. *)
Definition anyLockFile (w : Runtime) (ws : string) : bool :=
  existsb (fun pm => Spec.lockFilePresent w ws (lockFile pm)) packageManagers.

(** A well-formed entry of an npm or pnpm listing: an object whose
    [version] is a non-empty string. *)
Definition npmEntry (listed : string * value) (entry : string * string) : Prop :=
  fst listed = fst entry
  /\ JS.getProp (snd listed) "version" = inr (VStr (snd entry))
  /\ JSString.nonEmpty (snd entry) = true.

(** A well-formed tree of a yarn listing: an object whose [name] is
    [name@version], the version non-empty and free of [@], the name free
    of line terminators. *)
Definition yarnEntry (tree : value) (entry : string * string) : Prop :=
  JS.getProp tree "name" = inr (VStr (fst entry ++ "@" ++ snd entry))
  /\ JSString.nonEmpty (snd entry) = true
  /\ JSString.forallChar Spec.notAt (snd entry) = true
  /\ JSString.forallChar Spec.notLineTerminator (fst entry) = true.

(** The given names with their versions, as own properties. *)
Definition installedOf (entries : list (string * string)) : JS.dict value :=
  map (fun e => (fst e, VStr (snd e))) entries.

(** An entry an assignment can store: its name is not [__proto__]. *)
Definition storable (entry : string * string) : bool :=
  negb (String.eqb (fst entry) "__proto__").

(** The own properties that assigning the storable entries one after
    the other, each version to its name, leaves on top of [acc]. *)
Definition assigned (entries : list (string * string)) (acc : JS.dict value)
  : JS.dict value :=
  fold_left (fun d e => JS.set (fst e) (VStr (snd e)) d) (filter storable entries) acc.

(** The names among [ks] that are no array index, in their order. *)
Definition namesOf (ks : list string) : list string :=
  filter (fun k => negb (JS.isArrayIndex k)) ks.

(** Whether a clean install removes [node_modules] first: the setting
    is on and the directory exists. *)
Definition nodeModules (h : InstallHost) (ws : string) : string :=
  path_join (runtime h) [ws; "node_modules"].

Definition deleteFirst (h : InstallHost) : bool :=
  match deleteNodeModulesOnCleanInstall h with
  | Some b => b
  | None => false
  end.

Definition removesFirst (h : InstallHost) (ws : string) : bool :=
  deleteFirst h && existsSync (runtime h) (nodeModules h ws).

(** A command started, with its working directory if it was given one. *)
Definition startedBy (e : Event) : list (string * option string) :=
  match e with
  | EvExec command cwd => [(command, cwd)]
  | _ => []
  end.

(** Every command an action started, through [execAsync] or [exec]. *)
Definition startedIn (a : Action) : list (string * option string) :=
  match a with
  | AHost e => startedBy e
  | ASpawn command cwd => [(command, Some cwd)]
  | _ => []
  end.

(** Every command the steps of a command of the extension started, in
    order. *)
Definition started (steps : list Step) : list (string * option string) :=
  flat_map (fun s => match s with
                     | SAction a => startedIn a
                     | _ => []
                     end) steps.

(** The paths the steps removed. *)
Definition removed (steps : list Step) : list string :=
  flat_map (fun s => match s with
                     | SAction (ARemove p) => [p]
                     | _ => []
                     end) steps.

(** The commands that only ask: a version query of a known manager,
    run without a working directory, or a known manager's list command
    or its shell form, run in [ws]. *)
Definition versionQueries : list string :=
  ["pnpm --version"; "yarn --version"; "npm --version"].

Definition listCommands : list string :=
  ["pnpm list --depth=0 --silent --json";
   "yarn list --depth=0 --silent --json";
   "npm list --depth=0 --silent --json"].

Definition asksOnly (ws : string) (c : string * option string) : Prop :=
  (In (fst c) versionQueries /\ snd c = None)
  \/ ((In (fst c) listCommands \/ In (fst c) (map fallbackCommand listCommands))
      /\ snd c = Some ws).

(** The commands that install. *)
Definition cleanInstallCommands : list string :=
  ["pnpm install --frozen-lockfile"; "yarn install --frozen-lockfile"; "npm ci"].

(** The removals and spawned commands among recorded actions. *)
Definition changesOf (trace : list Action) : list Action :=
  filter (fun a => match a with
                   | ARemove _ | ASpawn _ _ => true
                   | _ => false
                   end) trace.

(** The messages shown to the user among the steps of a command. *)
Definition messages (steps : list Step) : list Step :=
  filter (fun s => match s with
                   | SInformation _ | SWarning _ _ | SError _ => true
                   | _ => false
                   end) steps.

(** What a status-bar update leaves on screen. *)
Definition bar (ed : Editor) (text : string) : Step :=
  SStatusBar (if match showStatusBarItem ed with
                 | Some b => b
                 | None => true
                 end
              then Some text else None).

(** The items the out-of-sync warning offers. *)
Definition offered : list string := ["Clean Install"; "Ignore"].

(** The user answers the warning [message] with a clean install. *)
Definition picksCleanInstall (ed : Editor) (message : string) : bool :=
  match pickWarning ed message offered with
  | Some choice => String.eqb choice "Clean Install"
  | None => false
  end.

End Terms.

Module Cases.

(** pnpm's lock file is present; no preference is stored. *)
Definition pnpmLocked : Runtime :=
  Scenario.host None [("/ws/pnpm-lock.yaml", "lockfileVersion: 9")]
                [("pnpm --version", "9.1.0")] [] Semver.reference.


(** Two declared packages, one installed; one installed and not
    declared. *)
Definition declared : JS.dict value :=
  [("lodash", VStr "^4.0.0"); ("chalk", VStr "^5.0.0")].

Definition installed : PackageManagerDetector.InstalledSet :=
  JS.plain [("lodash", VStr "4.17.21"); ("rimraf", VStr "5.0.5")].

(** A manifest that declares a package named like a method every object
    inherits; nothing is installed. *)
Definition constructorManifest : value :=
  VObj [("dependencies", VObj [("constructor", VStr "^1.0.0")])].

Definition nothingListed : value := VObj [("dependencies", VObj [])].

Definition constructorDeclared : Runtime :=
  Scenario.host (Some "npm")
                [("/ws/package.json", Scenario.stringify constructorManifest)]
                [("npm list --depth=0 --silent --json", Scenario.stringify nothingListed)]
                [constructorManifest; nothingListed] Semver.reference.

(** A manifest whose second requirement is an object that cannot be
    rendered as text; neither package is installed, but the second is
    named like an inherited method. *)
Definition unprintableManifest : value :=
  VObj [("dependencies",
         VObj [("chalk", VStr "^5.0.0");
               ("valueOf", VObj [("toString", VNum "1")])])].

Definition unprintableRequirement : Runtime :=
  Scenario.host (Some "npm")
                [("/ws/package.json", Scenario.stringify unprintableManifest)]
                [("npm list --depth=0 --silent --json", Scenario.stringify nothingListed)]
                [unprintableManifest; nothingListed] Semver.reference.

(** yarn lists a package whose name is an array index after one whose
    name is not, and one named [__proto__]. *)
Definition yarnOddNames : value :=
  VObj [("data",
         VObj [("trees",
                VArr [VObj [("name", VStr "b@1.0.0")];
                      VObj [("name", VStr "__proto__@1.0.0")];
                      VObj [("name", VStr "1@2.0.0")]])])].

Definition yarnOddListing : Runtime :=
  Scenario.host (Some "yarn") []
                [("yarn list --depth=0 --silent --json", Scenario.stringify yarnOddNames)]
                [yarnOddNames] Semver.reference.

(** A repository on branch main. *)
Definition onMain : Runtime :=
  Scenario.host None
                [("/ws/.git", "");
                 ("/ws/.git/HEAD", "ref: refs/heads/main" ++ Scenario.newline)]
                [] [] Semver.reference.

(** An install host over [w]: the setting, what removing a path gives,
    and the exit code of every command. *)
Definition installer (w : Runtime) (deleteFirst : option bool)
           (removal : option exn) (code : option Z) : InstallHost :=
  {| runtime := w;
     deleteNodeModulesOnCleanInstall := deleteFirst;
     fs_rm := fun _ => removal;
     closeCode := fun _ _ => code |}.

(** An editor with folder [/ws] open, in which the user picks [choice]
    when a warning offers items. *)
Definition editor (h : InstallHost) (choice : option string) : Editor :=
  {| installHost := h;
     workspaceFolders := Some ["/ws"];
     showStatusBarItem := None;
     pickWarning := fun _ _ => choice |}.

End Cases.

(* ===================================================================== *)
(** ** Properties: strings and dictionaries *)
(* ===================================================================== *)

Section StringFacts.

Import JSString.

Lemma prefix_drop (p s : string) :
  String.prefix p s = true -> p ++ drop (String.length p) s = s.
Proof.
  revert s. induction p as [|c p IH]; intros s H.
  - reflexivity.
  - destruct s as [|d s]; simpl in H; [discriminate|].
    destruct (ascii_dec c d) as [->|]; [|discriminate].
    simpl. f_equal. now apply IH.
Qed.

Lemma replace_prefix (s pat rep : string) :
  String.prefix pat s = true ->
  replace s pat rep = rep ++ drop (String.length pat) s.
Proof.
  intros H. destruct s; cbn [replace]; rewrite H; reflexivity.
Qed.

Lemma take_length (n : nat) (s : string) :
  String.length (take n s) = Nat.min n (String.length s).
Proof.
  revert s. induction n as [|n IH]; intros [|c s]; simpl; auto.
Qed.

Lemma startsWith_char (a c : ascii) (s : string) :
  startsWith (String c s) (String a EmptyString) = Ascii.eqb a c.
Proof.
  unfold startsWith. cbn [String.prefix].
  destruct (ascii_dec a c) as [->|H].
  - rewrite Ascii.eqb_refl. destruct s; reflexivity.
  - symmetry. now apply Ascii.eqb_neq.
Qed.

Lemma prefix_app (p rest : string) : String.prefix p (p ++ rest) = true.
Proof.
  induction p as [|c p IH]; simpl; [destruct rest; reflexivity|].
  destruct (ascii_dec c c) as [_|H]; [exact IH|congruence].
Qed.

Lemma startsWith_iff (s p : string) :
  startsWith s p = true <-> exists rest, s = p ++ rest.
Proof.
  unfold startsWith. split.
  - intros H. exists (drop (String.length p) s). symmetry. now apply prefix_drop.
  - intros (rest & ->). apply prefix_app.
Qed.

Lemma stripLeading_v (s : string) :
  stripLeading (isChar "v"%char) s
  = match s with
    | String "v"%char rest => rest
    | _ => s
    end.
Proof.
  destruct s as [|c s]; [reflexivity|].
  destruct c as [[] [] [] [] [] [] [] []]; reflexivity.
Qed.

End StringFacts.

(* ===================================================================== *)
(** ** Properties: the effect monad *)
(* ===================================================================== *)

Section EffFacts.

Context {A B : Type}.

Lemma fst_bind (m : Eff A) (f : A -> Eff B) (w : Runtime) :
  fst (Eff.bind m f w)
  = match fst (m w) with
    | inl e => inl e
    | inr a => fst (f a w)
    end.
Proof.
  unfold Eff.bind. destruct (m w) as [[e|a] t]; simpl; [reflexivity|].
  destruct (f a w); reflexivity.
Qed.

Lemma fst_tryCatch (m : Eff A) (h : exn -> Eff A) (w : Runtime) :
  fst (Eff.tryCatch m h w)
  = match fst (m w) with
    | inl e => fst (h e w)
    | inr a => inr a
    end.
Proof.
  unfold Eff.tryCatch. destruct (m w) as [[e|a] t]; simpl; [|reflexivity].
  destruct (h e w); reflexivity.
Qed.

Lemma snd_bind (m : Eff A) (f : A -> Eff B) (w : Runtime) :
  snd (Eff.bind m f w)
  = (snd (m w) ++ match fst (m w) with
                  | inl _ => []
                  | inr a => snd (f a w)
                  end)%list.
Proof.
  unfold Eff.bind. destruct (m w) as [[e|a] t]; simpl; [now rewrite app_nil_r|].
  destruct (f a w); reflexivity.
Qed.

Lemma snd_tryCatch (m : Eff A) (h : exn -> Eff A) (w : Runtime) :
  snd (Eff.tryCatch m h w)
  = (snd (m w) ++ match fst (m w) with
                  | inl e => snd (h e w)
                  | inr _ => []
                  end)%list.
Proof.
  unfold Eff.tryCatch. destruct (m w) as [[e|a] t]; simpl; [|now rewrite app_nil_r].
  destruct (h e w); reflexivity.
Qed.

End EffFacts.

(* ===================================================================== *)
(** ** Properties: dictionaries *)
(* ===================================================================== *)

Section DictFacts.

Context {V : Type}.
Implicit Types (d : JS.dict V) (k : string).

Lemma lookup_In_keys k d : In k (JS.keys d) <-> JS.lookup k d <> None.
Proof.
  induction d as [|[k1 v1] d IH]; simpl.
  - split; [tauto|congruence].
  - destruct (String.eqb k k1) eqn:E.
    + apply String.eqb_eq in E. subst. split; [discriminate|auto].
    + apply String.eqb_neq in E. rewrite <- IH. split; [intros [?|?]|]; auto.
      congruence.
Qed.

Lemma lookup_not_In k d : ~ In k (JS.keys d) -> JS.lookup k d = None.
Proof.
  intros H. destruct (JS.lookup k d) eqn:E; [|reflexivity].
  exfalso. apply H, lookup_In_keys. congruence.
Qed.

Lemma lookup_None_not_In k d : JS.lookup k d = None -> ~ In k (JS.keys d).
Proof. intros H Hin. apply lookup_In_keys in Hin. congruence. Qed.

Lemma lookup_app k (a b : JS.dict V) :
  JS.lookup k (a ++ b)%list
  = match JS.lookup k a with
    | Some v => Some v
    | None => JS.lookup k b
    end.
Proof.
  induction a as [|[k1 v1] a IH]; simpl; [reflexivity|].
  destruct (String.eqb k k1); [reflexivity|exact IH].
Qed.

Lemma lookup_update k k' (v : V) d :
  JS.lookup k (JS.update k' v d)
  = if String.eqb k k'
    then match JS.lookup k' d with Some _ => Some v | None => None end
    else JS.lookup k d.
Proof.
  induction d as [|[k1 v1] d IH]; simpl.
  - destruct (String.eqb k k'); reflexivity.
  - destruct (String.eqb k' k1) eqn:E1; simpl.
    + apply String.eqb_eq in E1. subst k1.
      destruct (String.eqb k k'); reflexivity.
    + rewrite IH. destruct (String.eqb k k') eqn:E2; [|reflexivity].
      apply String.eqb_eq in E2. subst k'. now rewrite E1.
Qed.

Lemma lookup_insertIndex k k' (i : N) (v : V) d :
  JS.lookup k' d = None ->
  JS.lookup k (JS.insertIndex i k' v d)
  = if String.eqb k k' then Some v else JS.lookup k d.
Proof.
  induction d as [|[k1 v1] d IH]; simpl; intros H.
  - reflexivity.
  - destruct (String.eqb k' k1) eqn:E1; [discriminate|].
    destruct (JS.arrayIndex k1) as [j|]; [|reflexivity].
    destruct (j <=? i)%N; [|reflexivity].
    simpl. rewrite (IH H).
    destruct (String.eqb k k') eqn:E; [|reflexivity].
    apply String.eqb_eq in E. subst k'. now rewrite E1.
Qed.

Lemma lookup_set k k' (v : V) d :
  JS.lookup k (JS.set k' v d) = if String.eqb k k' then Some v else JS.lookup k d.
Proof.
  unfold JS.set. destruct (JS.lookup k' d) as [v0|] eqn:E.
  - rewrite lookup_update, E. reflexivity.
  - destruct (JS.arrayIndex k') as [i|].
    + now apply lookup_insertIndex.
    + rewrite lookup_app. simpl.
      destruct (String.eqb k k') eqn:E2.
      * apply String.eqb_eq in E2. subst k'. now rewrite E.
      * destruct (JS.lookup k d); reflexivity.
Qed.

Lemma keys_update k (v : V) d : JS.keys (JS.update k v d) = JS.keys d.
Proof.
  induction d as [|[k1 v1] d IH]; simpl; [reflexivity|].
  destruct (String.eqb k k1); simpl; [reflexivity|]. now rewrite IH.
Qed.

(** The keys of a dictionary after a new index went in: the old keys,
    split around the new one. *)
Lemma keys_insertIndex (i : N) k (v : V) d :
  exists before after,
    JS.keys d = (before ++ after)%list
    /\ JS.keys (JS.insertIndex i k v d) = (before ++ k :: after)%list
    /\ (forall x, In x before ->
                  exists j, JS.arrayIndex x = Some j /\ (j <= i)%N)
    /\ match after with
       | [] => True
       | x :: _ => match JS.arrayIndex x with
                   | Some j => (i < j)%N
                   | None => True
                   end
       end.
Proof.
  induction d as [|[k1 v1] d IH]; simpl.
  - exists [], []. simpl. repeat split; auto. tauto.
  - destruct (JS.arrayIndex k1) as [j|] eqn:Ej.
    + destruct (N.leb_spec j i) as [Hle|Hgt].
      * destruct IH as (before & after & H1 & H2 & H3 & H4).
        exists (k1 :: before), after. simpl. rewrite H1, H2.
        repeat split; auto.
        intros x [<-|Hx]; eauto.
      * exists [], (k1 :: JS.keys d). simpl. rewrite Ej.
        repeat split; auto. tauto.
    + exists [], (k1 :: JS.keys d). simpl. rewrite Ej.
      repeat split; auto. tauto.
Qed.

Lemma In_keys_set k x (v : V) d :
  In x (JS.keys (JS.set k v d)) <-> x = k \/ In x (JS.keys d).
Proof.
  unfold JS.set. destruct (JS.lookup k d) as [v0|] eqn:E.
  - rewrite keys_update. split; [auto|]. intros [->|H]; [|exact H].
    apply lookup_In_keys. congruence.
  - destruct (JS.arrayIndex k) as [i|].
    + destruct (keys_insertIndex i k v d) as (before & after & -> & -> & _).
      rewrite !in_app_iff. simpl. split; intros H; intuition auto.
    + unfold JS.keys. rewrite map_app, in_app_iff. simpl. intuition auto.
Qed.

Lemma NoDup_keys_set k (v : V) d : NoDup (JS.keys d) -> NoDup (JS.keys (JS.set k v d)).
Proof.
  intros H. unfold JS.set. destruct (JS.lookup k d) as [v0|] eqn:E.
  - now rewrite keys_update.
  - apply lookup_None_not_In in E.
    destruct (JS.arrayIndex k) as [i|].
    + destruct (keys_insertIndex i k v d) as (before & after & H1 & -> & _).
      rewrite H1 in H, E. apply NoDup_Add with (a := k) (l := (before ++ after)%list).
      * apply Add_app.
      * split; assumption.
    + unfold JS.keys. rewrite map_app. simpl.
      apply NoDup_app; [exact H | repeat constructor; simpl; tauto |].
      intros x Hx [Hk|[]]. subst x. exact (E Hx).
Qed.

Lemma In_update (k n : string) (v v' : V) d :
  In (n, v') (JS.update k v d) -> (n = k /\ v' = v) \/ In (n, v') d.
Proof.
  induction d as [|[k1 v1] d IH]; simpl; [tauto|].
  destruct (String.eqb k k1) eqn:E; simpl.
  - apply String.eqb_eq in E. subst k1.
    intros [[= <- <-]|H]; auto.
  - intros [H|H]; auto. destruct (IH H); auto.
Qed.

Lemma In_insertIndex (i : N) (k n : string) (v v' : V) d :
  In (n, v') (JS.insertIndex i k v d) -> (n = k /\ v' = v) \/ In (n, v') d.
Proof.
  induction d as [|[k1 v1] d IH]; simpl.
  - intros [[= <- <-]|[]]. auto.
  - destruct (JS.arrayIndex k1) as [j|].
    + destruct (j <=? i)%N; simpl.
      * intros [H|H]; auto. destruct (IH H); auto.
      * intros [[= <- <-]|H]; auto.
    + simpl. intros [[= <- <-]|H]; auto.
Qed.

Lemma In_set (k n : string) (v v' : V) d :
  In (n, v') (JS.set k v d) -> (n = k /\ v' = v) \/ In (n, v') d.
Proof.
  unfold JS.set. destruct (JS.lookup k d).
  - apply In_update.
  - destruct (JS.arrayIndex k).
    + apply In_insertIndex.
    + rewrite in_app_iff. simpl. intros [H|[[= <- <-]|[]]]; auto.
Qed.

(** Spreading entries with distinct keys: the last write to a key wins. *)
Lemma lookup_spread k (entries acc : JS.dict V) :
  NoDup (JS.keys entries) ->
  JS.lookup k (fold_left (fun d kv => JS.set (fst kv) (snd kv) d) entries acc)
  = match JS.lookup k entries with
    | Some v => Some v
    | None => JS.lookup k acc
    end.
Proof.
  revert acc. induction entries as [|[k1 v1] entries IH]; intros acc Hnd; simpl.
  - reflexivity.
  - inversion Hnd as [|? ? Hn Hnd']; subst.
    rewrite (IH _ Hnd'), lookup_set.
    destruct (String.eqb k k1) eqn:E.
    + apply String.eqb_eq in E. subst k1.
      now rewrite (lookup_not_In _ _ Hn).
    + reflexivity.
Qed.

Lemma NoDup_keys_spread (entries acc : JS.dict V) :
  NoDup (JS.keys acc) ->
  NoDup (JS.keys (fold_left (fun d kv => JS.set (fst kv) (snd kv) d) entries acc)).
Proof.
  revert acc. induction entries as [|[k1 v1] entries IH]; intros acc H; simpl.
  - exact H.
  - apply IH, NoDup_keys_set, H.
Qed.

Lemma lookup_Some_In k (v : V) d : JS.lookup k d = Some v -> In (k, v) d.
Proof.
  induction d as [|[k1 v1] d IH]; simpl; [discriminate|].
  destruct (String.eqb k k1) eqn:E.
  - apply String.eqb_eq in E. subst. intros [= ->]. auto.
  - auto.
Qed.

Lemma In_lookup k (v : V) d :
  NoDup (JS.keys d) -> In (k, v) d -> JS.lookup k d = Some v.
Proof.
  induction d as [|[k1 v1] d IH]; simpl; intros Hn H; [tauto|].
  destruct H as [H|H].
  - injection H as -> ->. now rewrite String.eqb_refl.
  - inversion Hn as [|? ? Hk Hn']; subst.
    destruct (String.eqb_spec k k1) as [->|_]; [|now apply IH].
    exfalso. apply Hk. apply in_map_iff. exists (k1, v). auto.
Qed.

End DictFacts.

(* ===================================================================== *)
(** ** Properties: loops that may throw *)
(* ===================================================================== *)

Section LoopFacts.

Context {S A : Type}.
Implicit Types (f : S -> A -> exn + S) (l : list A) (s : S).

(** A loop that throws has run cleanly over the entries before the one
    that threw. *)
Lemma forEach_prefix f l s :
  exists done rest,
    l = (done ++ rest)%list
    /\ JS.forEach f done s = (fst (JS.forEach f l s), None)
    /\ match snd (JS.forEach f l s) with
       | None => rest = []
       | Some e =>
           exists x rest', rest = x :: rest'
                           /\ f (fst (JS.forEach f l s)) x = inl e
       end.
Proof.
  revert s. induction l as [|x l IH]; intros s.
  - exists [], []. simpl. auto.
  - cbn [JS.forEach]. destruct (f s x) as [e|s'] eqn:Hf.
    + exists [], (x :: l). simpl. split; [reflexivity|]. split; [reflexivity|].
      exists x, l. auto.
    + destruct (IH s') as (done & rest & -> & Hd & Hs).
      exists (x :: done), rest. split; [reflexivity|]. split; [|exact Hs].
      cbn [JS.forEach]. rewrite Hf. exact Hd.
Qed.

Lemma forEach_invariant (P : S -> Prop) f l s :
  (forall s0 x s1, P s0 -> f s0 x = inr s1 -> P s1) ->
  P s -> P (fst (JS.forEach f l s)).
Proof.
  intros Hf. revert s. induction l as [|x l IH]; intros s H; simpl.
  - exact H.
  - destruct (f s x) as [e|s'] eqn:E; simpl; [exact H|].
    apply IH. eapply Hf; eauto.
Qed.

Lemma forEach_app f (l l' : list A) s :
  JS.forEach f (l ++ l')%list s
  = match JS.forEach f l s with
    | (s', None) => JS.forEach f l' s'
    | (s', Some e) => (s', Some e)
    end.
Proof.
  revert s. induction l as [|x l IH]; intros s; simpl; [reflexivity|].
  destruct (f s x) as [e|s']; [reflexivity|apply IH].
Qed.

End LoopFacts.

(* ===================================================================== *)
(** ** Properties: the order of own keys *)
(* ===================================================================== *)

Section OrderFacts.

Context {V : Type}.
Implicit Types (d : JS.dict V) (k : string) (ks : list string).

Lemma ordered_app ks ks' :
  JS.ordered (ks ++ ks') = true
  <-> JS.ordered ks = true /\ JS.ordered ks' = true
      /\ forall x y, In x ks -> In y ks' -> JS.precedes x y = true.
Proof.
  induction ks as [|k ks IH]; simpl.
  - split; [intros H; repeat split; auto; tauto|tauto].
  - rewrite !andb_true_iff, forallb_app, andb_true_iff, IH, !forallb_forall.
    split.
    + intros ((H1 & H2) & H3 & H4 & H5). repeat split; auto.
      intros x y [<-|Hx] Hy; auto.
    + intros ((H1 & H2) & H3 & H4). repeat split; auto.
Qed.

Lemma ordered_filter (p : string -> bool) ks :
  JS.ordered ks = true -> JS.ordered (filter p ks) = true.
Proof.
  induction ks as [|k ks IH]; simpl; [auto|].
  rewrite andb_true_iff, forallb_forall. intros [H1 H2].
  destruct (p k); simpl; [|auto].
  rewrite andb_true_iff, forallb_forall. split; [|auto].
  intros x Hx. apply filter_In in Hx as [Hx _]. auto.
Qed.

Lemma In_keys_insertIndex (i : N) k x (v : V) d :
  In x (JS.keys (JS.insertIndex i k v d)) <-> x = k \/ In x (JS.keys d).
Proof.
  destruct (keys_insertIndex i k v d) as (before & after & -> & -> & _).
  rewrite !in_app_iff. simpl. intuition congruence.
Qed.

Lemma ordered_insertIndex (i : N) k (v : V) d :
  JS.arrayIndex k = Some i ->
  JS.ordered (JS.keys d) = true ->
  JS.ordered (JS.keys (JS.insertIndex i k v d)) = true.
Proof.
  intros Hk. induction d as [|[k1 v1] d IH]; [reflexivity|].
  cbn [JS.keys map fst JS.ordered JS.insertIndex]. fold (JS.keys d).
  rewrite andb_true_iff, forallb_forall. intros [H1 H2].
  assert (Hd : JS.ordered (k1 :: JS.keys d) = true).
  { cbn [JS.ordered]. rewrite andb_true_iff, forallb_forall. auto. }
  assert (Hfront : JS.precedes k k1 = true ->
                   (forall x, In x (JS.keys d) -> JS.precedes k x = true) ->
                   JS.ordered (k :: k1 :: JS.keys d) = true).
  { intros P1 P2. change (JS.ordered (k :: k1 :: JS.keys d))
      with (forallb (JS.precedes k) (k1 :: JS.keys d) && JS.ordered (k1 :: JS.keys d)).
    rewrite andb_true_iff, forallb_forall. split; [|exact Hd].
    intros x [<-|Hx]; auto. }
  destruct (JS.arrayIndex k1) as [j|] eqn:Ej.
  - destruct (N.leb_spec j i) as [Hle|Hgt].
    + cbn [JS.keys map fst JS.ordered]. fold (JS.keys (JS.insertIndex i k v d)).
      rewrite andb_true_iff, forallb_forall. split; [|auto].
      intros x Hx. apply In_keys_insertIndex in Hx as [->|Hx]; [|auto].
      unfold JS.precedes. rewrite Ej, Hk. now apply N.leb_le.
    + apply Hfront.
      * unfold JS.precedes. rewrite Hk, Ej. apply N.leb_le. lia.
      * intros x Hx. specialize (H1 x Hx). unfold JS.precedes in *.
        rewrite Ej in H1. rewrite Hk.
        destruct (JS.arrayIndex x) as [m|]; [|reflexivity].
        apply N.leb_le in H1. apply N.leb_le. lia.
  - apply Hfront.
    + unfold JS.precedes. now rewrite Hk, Ej.
    + intros x Hx. specialize (H1 x Hx). unfold JS.precedes in *.
      rewrite Ej in H1. rewrite Hk.
      destruct (JS.arrayIndex x) as [m|]; [discriminate|reflexivity].
Qed.

(** Defining a property keeps the keys in the order of [Object.keys]. *)
Lemma ordered_set k (v : V) d :
  JS.ordered (JS.keys d) = true -> JS.ordered (JS.keys (JS.set k v d)) = true.
Proof.
  intros H. unfold JS.set. destruct (JS.lookup k d).
  - now rewrite keys_update.
  - destruct (JS.arrayIndex k) as [i|] eqn:Ek.
    + now apply ordered_insertIndex.
    + unfold JS.keys. rewrite map_app. cbn [map fst]. apply ordered_app.
      split; [exact H|]. split; [reflexivity|].
      intros x y _ [E|[]]. subst y. unfold JS.precedes. rewrite Ek.
      destruct (JS.arrayIndex x); reflexivity.
Qed.

Lemma insertIndex_last (i : N) k (v : V) d :
  (forall x, In x (JS.keys d) -> JS.precedes x k = true) ->
  JS.arrayIndex k = Some i ->
  JS.insertIndex i k v d = (d ++ [(k, v)])%list.
Proof.
  intros H Hk. induction d as [|[k1 v1] d IH]; simpl; [reflexivity|].
  pose proof (H k1 (or_introl eq_refl)) as H1. unfold JS.precedes in H1.
  rewrite Hk in H1. destruct (JS.arrayIndex k1) as [j|]; [|discriminate].
  rewrite H1. f_equal. apply IH. intros x Hx. apply H. now right.
Qed.

(** A new key that every present key precedes goes last. *)
Lemma set_last k (v : V) d :
  ~ In k (JS.keys d) ->
  (forall x, In x (JS.keys d) -> JS.precedes x k = true) ->
  JS.set k v d = (d ++ [(k, v)])%list.
Proof.
  intros Hn H. unfold JS.set. rewrite (lookup_not_In _ _ Hn).
  destruct (JS.arrayIndex k) as [i|] eqn:Ek; [|reflexivity].
  now apply insertIndex_last.
Qed.

(** The names that are no array index stay in the order they came. *)
Lemma namesOf_set k (v : V) d :
  Terms.namesOf (JS.keys (JS.set k v d))
  = if existsb (String.eqb k) (JS.keys d) then Terms.namesOf (JS.keys d)
    else (Terms.namesOf (JS.keys d) ++ Terms.namesOf [k])%list.
Proof.
  unfold JS.set.
  destruct (existsb (String.eqb k) (JS.keys d)) eqn:Ex.
  - apply existsb_exists in Ex as (x & Hx & E). apply String.eqb_eq in E. subst x.
    apply lookup_In_keys in Hx. destruct (JS.lookup k d); [|congruence].
    now rewrite keys_update.
  - assert (Hn : ~ In k (JS.keys d)).
    { intros Hin. assert (existsb (String.eqb k) (JS.keys d) = true); [|congruence].
      apply existsb_exists. exists k. split; [exact Hin|apply String.eqb_refl]. }
    rewrite (lookup_not_In _ _ Hn).
    destruct (JS.arrayIndex k) as [i|] eqn:Ek.
    + destruct (keys_insertIndex i k v d) as (before & after & -> & -> & _).
      unfold Terms.namesOf. rewrite !filter_app. simpl.
      unfold JS.isArrayIndex. rewrite Ek. simpl. now rewrite app_nil_r.
    + unfold JS.keys. rewrite map_app. unfold Terms.namesOf. now rewrite filter_app.
Qed.

End OrderFacts.

(* ===================================================================== *)
(** ** Properties: GitMonitor *)
(* ===================================================================== *)

Module GitMonitorFacts.

Import GitMonitor Spec.

Lemma getCurrentBranch_trace (ws : string) (w : Runtime) :
  exists b t, getCurrentBranch ws w = (inr b, t).
Proof.
  unfold getCurrentBranch, getCurrentBranch_try, Eff.tryCatch, Eff.bind,
    Eff.pathJoin, Eff.fsExistsSync, Eff.fsReadFileSync, Eff.ret.
  destruct (existsSync w _); simpl; [|eauto].
  destruct (readFileSync w _); simpl; [eauto|].
  destruct (JSString.startsWith _ _); simpl; eauto.
Qed.

(** C8: [getCurrentBranch] always returns a string.  It is empty when
    the head file is absent or cannot be read; when the trimmed head
    content starts with the branch-reference prefix it is that content
    without the prefix; otherwise it is the first seven characters of
    the trimmed head content, exactly seven when the content has at
    least that many (a 40-character hash included). *)
Theorem getCurrentBranch_spec (ws : string) (w : Runtime) :
  let headPath := path_join w [ws; ".git"; "HEAD"] in
  exists branch,
    fst (getCurrentBranch ws w) = inr branch
    /\ (existsSync w headPath = false -> branch = EmptyString)
    /\ (forall e, existsSync w headPath = true ->
                  readFileSync w headPath = inl e -> branch = EmptyString)
    /\ (forall raw, existsSync w headPath = true ->
                    readFileSync w headPath = inr raw ->
          let headContent := JSString.trim raw in
          (JSString.startsWith headContent "ref: refs/heads/" = true ->
             branch = JSString.drop 16 headContent
             /\ "ref: refs/heads/" ++ branch = headContent)
          /\ (JSString.startsWith headContent "ref: refs/heads/" = false ->
                branch = JSString.substring headContent 0 7
                /\ String.length branch = Nat.min 7 (String.length headContent)
                /\ (String.length headContent = 40 -> String.length branch = 7))).
Proof.
  intros headPath.
  unfold getCurrentBranch, getCurrentBranch_try, Eff.tryCatch, Eff.bind,
    Eff.pathJoin, Eff.fsExistsSync, Eff.fsReadFileSync, Eff.ret.
  fold headPath.
  destruct (existsSync w headPath) eqn:Hex; simpl.
  - destruct (readFileSync w headPath) as [e|raw] eqn:Hrd; simpl.
    + exists EmptyString. repeat split; try discriminate; auto.
    + destruct (JSString.startsWith (JSString.trim raw) refPrefix) eqn:Hp; simpl.
      * exists (JSString.replace (JSString.trim raw) refPrefix EmptyString).
        split; [reflexivity|]. split; [discriminate|]. split; [discriminate|].
        intros raw' _ Heq. injection Heq as <-. simpl.
        unfold refPrefix in *. split.
        -- intros _. rewrite (replace_prefix _ _ _ Hp). simpl String.length.
           split; [reflexivity|]. apply (prefix_drop _ _ Hp).
        -- unfold JSString.startsWith in Hp. unfold JSString.startsWith.
           rewrite Hp. discriminate.
      * exists (JSString.substring (JSString.trim raw) 0 7).
        split; [reflexivity|]. split; [discriminate|]. split; [discriminate|].
        intros raw' _ Heq. injection Heq as <-. simpl.
        unfold refPrefix in *. split.
        -- unfold JSString.startsWith in *. rewrite Hp. discriminate.
        -- intros _. split; [reflexivity|].
           unfold JSString.substring. simpl JSString.drop.
           rewrite take_length. split; [reflexivity|].
           intros ->. reflexivity.
  - exists EmptyString. repeat split; try discriminate; auto.
Qed.

Lemma update_same (st : state) (b : string) :
  update (update st b) b = update st b.
Proof.
  unfold update.
  destruct (JSString.nonEmpty b && negb (String.eqb b (currentBranch st))) eqn:H.
  - simpl. rewrite String.eqb_refl, andb_false_r. reflexivity.
  - rewrite H. reflexivity.
Qed.

Lemma checkBranchChange_update (ws : string) (st : state) (w : Runtime) :
  exists b t, getCurrentBranch ws w = (inr b, t)
              /\ checkBranchChange ws st w = (inr (update st b), t).
Proof.
  destruct (getCurrentBranch_trace ws w) as (b & t & H).
  exists b, t. split; [exact H|].
  unfold checkBranchChange, Eff.bind, Eff.ret. rewrite H. simpl.
  now rewrite app_nil_r.
Qed.

Lemma last_cons_default (l : list string) (x d d' : string) :
  last (x :: l) d = last (x :: l) d'.
Proof.
  revert x. induction l as [|y l IH]; intros x; [reflexivity|].
  change (last (y :: l) d = last (y :: l) d'). apply IH.
Qed.

Lemma handle_fired (ws : string) (hosts : list Runtime) (st : state) :
  exists news,
    fired (handle ws hosts st) = (fired st ++ news)%list
    /\ noRepeat (currentBranch st) news
    /\ currentBranch (handle ws hosts st) = last news (currentBranch st).
Proof.
  revert st. induction hosts as [|w hosts IH]; intros st; simpl.
  - exists []. rewrite app_nil_r. simpl. auto.
  - destruct (checkBranchChange_update ws st w) as (b & t & _ & ->). simpl.
    destruct (IH (update st b)) as (news & Hf & Hn & Hc).
    unfold update in *.
    destruct (JSString.nonEmpty b) eqn:Hne; simpl in *.
    + destruct (String.eqb b (currentBranch st)) eqn:He; simpl in *.
      * exists news. auto.
      * exists (b :: news). rewrite Hf, <- app_assoc. simpl.
        split; [reflexivity|]. split.
        -- split; [now apply String.eqb_neq|]. split; [|exact Hn].
           intros ->. discriminate.
        -- rewrite Hc. destruct news as [|x news]; [reflexivity|].
           change (last (x :: news) b = last (x :: news) (currentBranch st)).
           apply last_cons_default.
    + exists news. auto.
Qed.

(** C9: the change-detection step leaves the monitor untouched, firing
    nothing, when the recomputed branch is empty or equal to the stored
    one; otherwise it stores the new value and fires exactly one
    notification carrying it.  Hence handling the same head state a
    second time changes and fires nothing, and over any sequence of
    notifications no fired value repeats the one before it. *)
Theorem checkBranchChange_spec (ws : string) (st : state) (w : Runtime) :
  exists newBranch st',
    fst (getCurrentBranch ws w) = inr newBranch
    /\ fst (checkBranchChange ws st w) = inr st'
    /\ (newBranch = EmptyString \/ newBranch = currentBranch st -> st' = st)
    /\ (newBranch <> EmptyString -> newBranch <> currentBranch st ->
          currentBranch st' = newBranch
          /\ fired st' = (fired st ++ [newBranch])%list)
    /\ fst (checkBranchChange ws st' w) = inr st'
    /\ (forall hosts, exists news,
           fired (handle ws hosts st) = (fired st ++ news)%list
           /\ noRepeat (currentBranch st) news).
Proof.
  destruct (checkBranchChange_update ws st w) as (b & t & Hg & Hc).
  exists b, (update st b). rewrite Hg, Hc. simpl.
  split; [reflexivity|]. split; [reflexivity|]. split; [|split; [|split]].
  - intros [-> | ->]; unfold update; simpl; [reflexivity|].
    rewrite String.eqb_refl, andb_false_r. reflexivity.
  - intros Hne Hd. unfold update.
    destruct b as [|c b]; [congruence|]. simpl JSString.nonEmpty.
    apply String.eqb_neq in Hd. rewrite Hd. simpl. auto.
  - destruct (checkBranchChange_update ws (update st b) w) as (b' & t' & Hg' & ->).
    rewrite Hg in Hg'. injection Hg' as <- <-. simpl. f_equal. apply update_same.
  - intros hosts. destruct (handle_fired ws hosts st) as (news & H1 & H2 & _).
    exists news. auto.
Qed.

Example getCurrentBranch_named_branch :
  getCurrentBranch "/ws"
    (Scenario.gitHead ("ref: refs/heads/feature/x" ++ Scenario.newline))
  = (inr "feature/x", [EvExists "/ws/.git/HEAD"; EvRead "/ws/.git/HEAD"]).
Proof. reflexivity. Qed.

Example getCurrentBranch_detached :
  fst (getCurrentBranch "/ws"
         (Scenario.gitHead ("4b825dc642cb6eb9a060e54bf8d69288fbee4904"
                              ++ Scenario.newline)))
  = inr "4b825dc".
Proof. reflexivity. Qed.

Example getCurrentBranch_no_head :
  fst (getCurrentBranch "/ws" Scenario.noManifest) = inr EmptyString.
Proof. reflexivity. Qed.

End GitMonitorFacts.

(* ===================================================================== *)
(** ** Properties: PackageManagerDetector *)
(* ===================================================================== *)

Module DetectorFacts.

Import PackageManagerDetector Spec.

Lemma lockFileLoop_find (ws : string) (pms : list PackageManagerInfo) (w : Runtime) :
  fst (lockFileLoop ws pms w)
  = inr (option_map name
           (find (fun pm => lockFilePresent w ws (lockFile pm)) pms)).
Proof.
  induction pms as [|pm pms IH]; [reflexivity|].
  cbn [lockFileLoop find]. rewrite fst_bind. simpl. rewrite fst_bind. simpl.
  unfold lockFilePresent at 1.
  destruct (existsSync w _); [reflexivity|exact IH].
Qed.

Lemma availabilityLoop_find (pms : list PackageManagerInfo) (w : Runtime) :
  fst (availabilityLoop pms w)
  = inr (option_map name (find (fun pm => answersVersion w (name pm)) pms)).
Proof.
  induction pms as [|pm pms IH]; [reflexivity|].
  cbn [availabilityLoop find]. rewrite fst_bind.
  unfold Eff.tryCatch at 1. rewrite (surjective_pairing (Eff.bind _ _ w)).
  rewrite fst_bind. unfold Eff.exec at 1. simpl fst at 2.
  unfold answersVersion at 1.
  destruct (execAsync w _ None); simpl; [exact IH|reflexivity].
Qed.

Lemma configGet_value (w : Runtime) :
  Eff.configGetPreferred "auto" w
  = (inr (configured w), [EvConfigGet "preferredPackageManager"]).
Proof. reflexivity. Qed.

(** C2: a configured preference other than [auto] is returned as it is,
    after nothing but the configuration read (no file or executable is
    looked at); with [auto] the answer is the first of pnpm, yarn, npm
    whose lock file exists, else the first whose executable answers a
    version query, else npm. *)
Theorem detectPackageManager_precedence (ws : string) (w : Runtime) :
  (configured w <> "auto" ->
     detectPackageManager ws w
     = (inr (configured w), [EvConfigGet "preferredPackageManager"]))
  /\ (configured w = "auto" ->
        fst (detectPackageManager ws w) = inr (firstMatch w ws)).
Proof.
  unfold detectPackageManager. split; intros H.
  - unfold Eff.bind, Eff.configGetPreferred. fold (configured w).
    apply String.eqb_neq in H. rewrite H. reflexivity.
  - rewrite fst_bind, configGet_value. cbn [fst].
    rewrite H, String.eqb_refl. cbn [negb].
    rewrite fst_bind, lockFileLoop_find. unfold firstMatch, packageManagers.
    cbn [find lockFile name option_map].
    destruct (lockFilePresent w ws "pnpm-lock.yaml"); [reflexivity|].
    destruct (lockFilePresent w ws "yarn.lock"); [reflexivity|].
    destruct (lockFilePresent w ws "package-lock.json"); [reflexivity|].
    cbn [option_map]. rewrite fst_bind, availabilityLoop_find.
    cbn [find lockFile name option_map].
    destruct (answersVersion w "pnpm"); [reflexivity|].
    destruct (answersVersion w "yarn"); [reflexivity|].
    destruct (answersVersion w "npm"); reflexivity.
Qed.

Example detectPackageManager_preference_over_lock_file :
  detectPackageManager "/ws" Scenario.prefersYarn
  = (inr "yarn", [EvConfigGet "preferredPackageManager"]).
Proof. reflexivity. Qed.

Example detectPackageManager_by_probe :
  detectPackageManager "/ws" Scenario.onlyYarnInstalled
  = (inr "yarn",
     [EvConfigGet "preferredPackageManager";
      EvExists "/ws/pnpm-lock.yaml"; EvExists "/ws/yarn.lock";
      EvExists "/ws/package-lock.json";
      EvExec "pnpm --version" None; EvExec "yarn --version" None]).
Proof. reflexivity. Qed.

(** *** The yarn entry pattern *)

Lemma matchNameVersion_no_at (s : string) :
  JSString.forallChar notAt s = true -> matchNameVersion s = None.
Proof.
  induction s as [|c s IH]; [reflexivity|].
  cbn [JSString.forallChar matchNameVersion]. intros H.
  apply andb_prop in H as [Hc Hs]. rewrite (IH Hs).
  unfold notAt in Hc. apply negb_true_iff in Hc. rewrite Hc.
  destruct (JSString.isLineTerminator c); reflexivity.
Qed.

Lemma matchNameVersion_complete (n v : string) :
  JSString.nonEmpty v = true ->
  JSString.forallChar notAt v = true ->
  JSString.forallChar notLineTerminator n = true ->
  matchNameVersion (n ++ "@" ++ v) = Some (n, v).
Proof.
  intros Hne Hv. induction n as [|c n IH]; intros Hn.
  - change (EmptyString ++ "@" ++ v) with (String "@"%char v).
    cbn [matchNameVersion]. rewrite (matchNameVersion_no_at v Hv).
    change (JSString.isLineTerminator "@") with false. cbv iota.
    rewrite Hne. fold notAt. rewrite Hv. reflexivity.
  - cbn [JSString.forallChar] in Hn. apply andb_prop in Hn as [Hc Hn].
    change (String c n ++ "@" ++ v) with (String c (n ++ "@" ++ v)).
    cbn [matchNameVersion].
    unfold notLineTerminator in Hc. apply negb_true_iff in Hc. rewrite Hc.
    rewrite (IH Hn). reflexivity.
Qed.

Lemma matchNameVersion_sound (s n v : string) :
  matchNameVersion s = Some (n, v) ->
  s = n ++ "@" ++ v
  /\ JSString.nonEmpty v = true
  /\ JSString.forallChar notAt v = true
  /\ JSString.forallChar notLineTerminator n = true.
Proof.
  revert n v. induction s as [|c s IH]; intros n v; [discriminate|].
  cbn [matchNameVersion].
  destruct (JSString.isLineTerminator c) eqn:Hlt.
  - destruct (Ascii.eqb c "@") eqn:Hc; [|discriminate].
    destruct (JSString.nonEmpty s) eqn:Hne; [|discriminate].
    fold notAt. destruct (JSString.forallChar notAt s) eqn:Hs; [|discriminate].
    simpl. intros [= <- <-]. apply Ascii.eqb_eq in Hc. subst c. auto.
  - destruct (matchNameVersion s) as [[n' v']|] eqn:Hm.
    + intros [= <- <-]. destruct (IH _ _ eq_refl) as (-> & Hne & Hv & Hn).
      repeat split; auto.
      cbn [JSString.forallChar]. unfold notLineTerminator at 1.
      rewrite Hlt, Hn. reflexivity.
    + destruct (Ascii.eqb c "@") eqn:Hc; [|discriminate].
      destruct (JSString.nonEmpty s) eqn:Hne; [|discriminate].
      fold notAt. destruct (JSString.forallChar notAt s) eqn:Hs; [|discriminate].
      simpl. intros [= <- <-]. apply Ascii.eqb_eq in Hc. subst c. auto.
Qed.

Lemma includesChar_app (c : ascii) (n v : string) :
  JSString.includesChar c (n ++ String c v) = true.
Proof.
  induction n as [|d n IH]; simpl.
  - now rewrite Ascii.eqb_refl.
  - rewrite IH. apply orb_true_r.
Qed.

Lemma nonEmpty_app (n : string) (c : ascii) (v : string) :
  JSString.nonEmpty (n ++ String c v) = true.
Proof. destruct n; reflexivity. Qed.

Lemma lookup_assign (k : string) (v : value) (o : JS.object) :
  k <> "__proto__" -> JS.lookup k (JS.own (JS.assign k v o)) = Some v.
Proof.
  intros Hk. apply String.eqb_neq in Hk. unfold JS.assign.
  destruct (JS.lookup k (JS.own o)) eqn:E; cbn [JS.own].
  - now rewrite lookup_update, String.eqb_refl, E.
  - rewrite Hk. cbn [andb JS.own]. now rewrite lookup_set, String.eqb_refl.
Qed.

(** An entry the pattern matches: the version is assigned to the name. *)
Lemma yarnTree_run (tree : value) (n version : string) (packages : InstalledSet) :
  JS.getProp tree "name" = inr (VStr (n ++ "@" ++ version)) ->
  JSString.nonEmpty version = true ->
  JSString.forallChar notAt version = true ->
  JSString.forallChar notLineTerminator n = true ->
  yarnTree packages tree = inr (JS.assign n (VStr version) packages).
Proof.
  intros Hname Hne Hv Hn. unfold yarnTree. rewrite Hname.
  change (n ++ "@" ++ version) with (n ++ String "@"%char version).
  cbn [JS.truthy includesAt matchAt].
  rewrite nonEmpty_app, includesChar_app. cbn [negb].
  change (n ++ String "@"%char version) with (n ++ "@" ++ version).
  rewrite (matchNameVersion_complete n version Hne Hv Hn). reflexivity.
Qed.

(** C5 (as amended): for an entry whose text after its last [@] is not
    empty, and whose text before it holds no line terminator, the
    pattern captures the text before the last [@] as the name and the
    text after it as the version, and the version is assigned to the
    name in [packages]; for every name but [__proto__] the version is
    then the own property of that name.  So [@scope/pkg@2.3.4] gives the
    name [@scope/pkg] and the version [2.3.4]. *)
Theorem yarnTree_splits_on_last_at
        (tree : value) (n version : string) (packages : InstalledSet) :
  JS.getProp tree "name" = inr (VStr (n ++ "@" ++ version)) ->
  JSString.nonEmpty version = true ->
  JSString.forallChar notAt version = true ->
  JSString.forallChar notLineTerminator n = true ->
  matchNameVersion (n ++ "@" ++ version) = Some (n, version)
  /\ yarnTree packages tree = inr (JS.assign n (VStr version) packages)
  /\ (n <> "__proto__" ->
      exists packages',
        yarnTree packages tree = inr packages'
        /\ JS.lookup n (JS.own packages') = Some (VStr version)).
Proof.
  intros Hname Hne Hv Hn.
  pose proof (yarnTree_run tree n version packages Hname Hne Hv Hn) as Hy.
  split; [now apply matchNameVersion_complete|]. split; [exact Hy|].
  intros Hp. eexists. split; [exact Hy|]. now apply lookup_assign.
Qed.

Lemma yarnTree_splits_on_last_at_witness :
  matchNameVersion "@scope/pkg@2.3.4" = Some ("@scope/pkg", "2.3.4")
  /\ yarnTree JS.emptyObject (VObj [("name", VStr "@scope/pkg@2.3.4")])
     = inr (JS.plain [("@scope/pkg", VStr "2.3.4")]).
Proof.
  destruct (yarnTree_splits_on_last_at
              (VObj [("name", VStr "@scope/pkg@2.3.4")]) "@scope/pkg" "2.3.4"
              JS.emptyObject eq_refl eq_refl eq_refl eq_refl) as (Hm & Hy & _).
  split; [exact Hm|exact Hy].
Defined.

(** C5, as first stated, fails on an entry that ends in [@]: it holds an
    [@], yet nothing is stored for it. *)
Lemma yarnTree_trailing_at_skipped :
  JSString.includesChar "@"%char "lodash@" = true
  /\ matchNameVersion "lodash@" = None
  /\ yarnTree JS.emptyObject (VObj [("name", VStr "lodash@")]) = inr JS.emptyObject.
Proof. repeat split. Qed.

(** An entry named [__proto__] is split like any other, but assigning
    its version reaches the accessor of [Object.prototype], which ignores
    a string: nothing is stored. *)
Example yarnTree_proto_not_stored :
  matchNameVersion "__proto__@1.0.0" = Some ("__proto__", "1.0.0")
  /\ yarnTree JS.emptyObject (VObj [("name", VStr "__proto__@1.0.0")])
     = inr JS.emptyObject.
Proof. split; reflexivity. Qed.

(** *** Parsing the list command's output *)

Lemma getInstalledPackages_value (ws pm out : string) (w : Runtime) :
  capturedOutput w ws pm = Some out ->
  fst (getInstalledPackages ws pm w) = fst (parseInstalled pm out w).
Proof.
  unfold capturedOutput, getInstalledPackages. intros H.
  rewrite fst_bind. unfold Eff.lift at 1. cbn [fst].
  destruct (getPackageManagerInfo pm) as [e|info]; [discriminate|].
  rewrite fst_bind. unfold Eff.tryCatch, Eff.exec.
  destruct (execAsync w (listCommand info) (Some ws)) as [e|o].
  - destruct (execAsync w (fallbackCommand (listCommand info)) (Some ws)) as [e'|o'];
      [discriminate|].
    injection H as ->. reflexivity.
  - injection H as ->. reflexivity.
Qed.




(** Every version the method stores is a non-empty value. *)
Lemma assign_allTruthy (k : string) (v : value) (o : JS.object) :
  allTruthy (JS.own o) -> JS.truthy v = true -> allTruthy (JS.own (JS.assign k v o)).
Proof.
  intros Hd Hv n v'. unfold JS.assign.
  destruct (JS.lookup k (JS.own o)); cbn [JS.own].
  - intros H. destruct (In_update _ _ _ _ _ H) as [[_ ->]|H']; eauto.
  - destruct (String.eqb k "__proto__" && JS.reachesAccessor o).
    + destruct v; cbn [JS.own]; apply Hd.
    + cbn [JS.own]. intros H. destruct (In_set _ _ _ _ _ H) as [[_ ->]|H']; eauto.
Qed.

Lemma yarnTree_allTruthy (p : InstalledSet) (tree : value) (p' : InstalledSet) :
  allTruthy (JS.own p) -> yarnTree p tree = inr p' -> allTruthy (JS.own p').
Proof.
  intros H. unfold yarnTree.
  destruct (JS.getProp tree "name") as [e|treeName]; [discriminate|].
  destruct (negb (JS.truthy treeName)); [now intros [= <-]|].
  destruct (includesAt treeName) as [e|[|]]; [discriminate| |now intros [= <-]].
  destruct (matchAt treeName) as [e|[[n version]|]] eqn:Hm;
    [discriminate| |now intros [= <-]].
  intros [= <-]. apply assign_allTruthy; [exact H|].
  destruct treeName; try discriminate. injection Hm as Hm.
  now apply matchNameVersion_sound in Hm.
Qed.

Lemma npmDependency_allTruthy (dependencies : value) (p : InstalledSet)
      (n : string) (p' : InstalledSet) :
  allTruthy (JS.own p) -> npmDependency dependencies p n = inr p' ->
  allTruthy (JS.own p').
Proof.
  intros H. unfold npmDependency.
  destruct (JS.getProp _ "version") as [e|version]; [discriminate|].
  destruct (JS.truthy version) eqn:Ht; intros [= <-]; [|exact H].
  now apply assign_allTruthy.
Qed.

Lemma allTruthy_nil : allTruthy [].
Proof. intros n v []. Qed.

(** What holds of [{}] and is kept by both callbacks holds of the set
    the parsing step returns. *)
Lemma parseResult_invariant (P : InstalledSet -> Prop) (pm : string) (result : value) :
  P JS.emptyObject ->
  (forall p tree p', P p -> yarnTree p tree = inr p' -> P p') ->
  (forall dependencies p n p', P p -> npmDependency dependencies p n = inr p' -> P p') ->
  P (fst (parseResult pm result JS.emptyObject)).
Proof.
  intros H0 Hy Hn. unfold parseResult, parseYarn, parseNpm.
  repeat match goal with
         | |- context [if ?b then _ else _] => destruct b
         | |- context [match JS.getProp ?v ?k with _ => _ end] =>
             destruct (JS.getProp v k)
         | |- P (fst (match ?t with _ => _ end)) => destruct t
         end;
    try exact H0;
    apply forEach_invariant; eauto.
Qed.

Lemma getInstalledPackages_invariant (P : InstalledSet -> Prop)
      (ws pm : string) (w : Runtime) (packages : InstalledSet) :
  P JS.emptyObject ->
  (forall p tree p', P p -> yarnTree p tree = inr p' -> P p') ->
  (forall dependencies p n p', P p -> npmDependency dependencies p n = inr p' -> P p') ->
  fst (getInstalledPackages ws pm w) = inr packages -> P packages.
Proof.
  intros H0 Hy Hn. unfold getInstalledPackages. rewrite fst_bind.
  destruct (fst (Eff.lift (getPackageManagerInfo pm) w)) as [e|info]; [discriminate|].
  rewrite fst_bind.
  destruct (fst (Eff.tryCatch _ _ w)) as [e|out]; [discriminate|].
  unfold parseInstalled.
  destruct (JSON_parse w out) as [e|result]; simpl; intros [= <-].
  - exact H0.
  - now apply parseResult_invariant.
Qed.

Lemma getInstalledPackages_allTruthy (ws pm : string) (w : Runtime)
      (packages : InstalledSet) :
  fst (getInstalledPackages ws pm w) = inr packages -> allTruthy (JS.own packages).
Proof.
  apply (getInstalledPackages_invariant (fun p => allTruthy (JS.own p))).
  - apply allTruthy_nil.
  - apply yarnTree_allTruthy.
  - apply npmDependency_allTruthy.
Qed.



(** An entry with a line break before its last [@] is skipped too. *)
Example yarnTree_line_break_skipped :
  yarnTree JS.emptyObject
           (VObj [("name", VStr ("left" ++ Scenario.newline ++ "pad@1.3.0"))])
  = inr JS.emptyObject.
Proof. reflexivity. Qed.

End DetectorFacts.

(* ===================================================================== *)
(** ** Properties: DependencyChecker *)
(* ===================================================================== *)

Module CheckerFacts.

Import DependencyChecker Spec.

(** *** Validity *)

Lemma consistent_fresh : consistent fresh.
Proof. unfold consistent. simpl. tauto. Qed.

Lemma consistent_invalid (r : DependencyCheckResult) :
  missingPackages r <> [] \/ outdatedPackages r <> [] \/ errors r <> [] ->
  consistent (setInvalid r).
Proof.
  unfold consistent. simpl. intros H. split; [discriminate|].
  intros (H1 & H2 & H3). tauto.
Qed.

Lemma snoc_not_nil {X : Type} (l : list X) (x : X) : (l ++ [x])%list <> [].
Proof. destruct l; discriminate. Qed.

Lemma consistent_failed (e : exn) (r : DependencyCheckResult) : consistent (failed e r).
Proof. apply consistent_invalid. right. right. apply snoc_not_nil. Qed.

(** What one turn of the first loop can do to the result. *)
Lemma checkRequired_cases w installed r entry r' :
  checkRequired w installed r entry = inr r' ->
  (isMissing w installed entry = true
   /\ r' = setInvalid (pushMissing (fst entry) r))
  \/ (isMissing w installed entry = false
      /\ isVersionCompatible (semver_satisfies w) (snd entry)
           (installedVersion w installed (fst entry)) = inr true
      /\ r' = r)
  \/ (isOutdated w installed entry = true
      /\ exists line,
           outdatedLine (fst entry) (installedVersion w installed (fst entry))
                        (snd entry) = inr line
           /\ r' = setInvalid (pushOutdated line r)).
Proof.
  unfold checkRequired, isMissing, isOutdated, installedVersion.
  destruct entry as [n version]. cbn [fst snd].
  destruct (JS.truthy (JS.get (Array_prototype w) installed n)); cbn [negb andb].
  - destruct (isVersionCompatible _ _ _) as [e|[|]]; [discriminate| |].
    + intros [= <-]. right. left. auto.
    + destruct (outdatedLine _ _ _) as [e|line]; [discriminate|].
      intros [= <-]. right. right. eauto.
  - intros [= <-]. left. auto.
Qed.

Lemma checkRequired_consistent w installed r entry r' :
  consistent r -> checkRequired w installed r entry = inr r' -> consistent r'.
Proof.
  intros H Hc.
  destruct (checkRequired_cases _ _ _ _ _ Hc)
    as [(_ & ->)|[(_ & _ & ->)|(_ & line & _ & ->)]].
  - apply consistent_invalid. left. apply snoc_not_nil.
  - exact H.
  - apply consistent_invalid. right. left. apply snoc_not_nil.
Qed.

Lemma checkExtra_fields required r n :
  isValid (checkExtra required r n) = isValid r
  /\ missingPackages (checkExtra required r n) = missingPackages r
  /\ outdatedPackages (checkExtra required r n) = outdatedPackages r
  /\ errors (checkExtra required r n) = errors r.
Proof.
  unfold checkExtra. destruct (negb (JS.truthy (JS.at_ required n))); simpl; auto.
Qed.

Lemma checkExtra_loop_fields required names r :
  isValid (fold_left (checkExtra required) names r) = isValid r
  /\ missingPackages (fold_left (checkExtra required) names r) = missingPackages r
  /\ outdatedPackages (fold_left (checkExtra required) names r) = outdatedPackages r
  /\ errors (fold_left (checkExtra required) names r) = errors r.
Proof.
  revert r. induction names as [|n names IH]; intros r; simpl; [auto|].
  destruct (IH (checkExtra required r n)) as (-> & -> & -> & ->).
  apply checkExtra_fields.
Qed.

Lemma checkRequired_loop_consistent w installed entries r :
  consistent r ->
  consistent (fst (JS.forEach (checkRequired w installed) entries r)).
Proof.
  apply forEach_invariant. intros r0 e r1. apply checkRequired_consistent.
Qed.

(** The second loop runs only after a first loop that did not throw, and
    leaves everything but [extraPackages] as it found it. *)
Lemma reconcile_fields w required installed r :
  let first := JS.forEach (checkRequired w installed) required r in
  snd (reconcile w required installed r) = snd first
  /\ isValid (fst (reconcile w required installed r)) = isValid (fst first)
  /\ missingPackages (fst (reconcile w required installed r))
     = missingPackages (fst first)
  /\ outdatedPackages (fst (reconcile w required installed r))
     = outdatedPackages (fst first)
  /\ errors (fst (reconcile w required installed r)) = errors (fst first).
Proof.
  cbv zeta. unfold reconcile.
  destruct (JS.forEach (checkRequired w installed) required r) as [r1 [e|]];
    cbn [fst snd]; [auto|].
  split; [reflexivity|]. apply checkExtra_loop_fields.
Qed.

Lemma reconcile_consistent w required installed r :
  consistent r -> consistent (fst (reconcile w required installed r)).
Proof.
  intros H. unfold consistent.
  destruct (reconcile_fields w required installed r) as (_ & -> & -> & -> & ->).
  now apply checkRequired_loop_consistent.
Qed.

(** What the [try] block of [checkDependencies] can return. *)
Lemma checkDependencies_try_result (ws : string) (w : Runtime)
      (out : DependencyCheckResult * option exn) :
  fst (checkDependencies_try ws fresh w) = inr out ->
  out = (setInvalid (pushError "package.json not found" fresh), None)
  \/ exists required installed, out = reconcile w required installed fresh.
Proof.
  unfold checkDependencies_try.
  rewrite fst_bind. cbn [Eff.pathJoin fst].
  rewrite fst_bind. cbn [Eff.fsExistsSync fst].
  destruct (existsSync w (path_join w [ws; "package.json"])); cbn [negb].
  - rewrite fst_bind.
    destruct (fst (Eff.fsReadFileSync _ w)) as [e|text]; [discriminate|].
    rewrite fst_bind.
    destruct (fst (Eff.jsonParse text w)) as [e|packageJson]; [discriminate|].
    rewrite fst_bind.
    destruct (fst (Eff.lift (requiredDependencies packageJson) w))
      as [e|required]; [discriminate|].
    rewrite fst_bind.
    destruct (fst (PackageManagerDetector.detectPackageManager ws w))
      as [e|pm]; [discriminate|].
    rewrite fst_bind.
    destruct (fst (PackageManagerDetector.getInstalledPackages ws pm w))
      as [e|installed]; [discriminate|].
    rewrite fst_bind. cbn [Eff.host Eff.ret fst].
    intros [= <-]. right. eauto.
  - cbn [Eff.ret fst]. intros [= <-]. left. reflexivity.
Qed.

(** The result of [checkDependencies], from what its [try] block did. *)
Lemma checkDependencies_value (ws : string) (w : Runtime) :
  fst (checkDependencies ws w)
  = inr (match fst (checkDependencies_try ws fresh w) with
         | inl error => failed error fresh
         | inr (r, None) => r
         | inr (r, Some error) => failed error r
         end).
Proof.
  unfold checkDependencies. rewrite fst_bind, fst_tryCatch.
  destruct (fst (checkDependencies_try ws fresh w)) as [e|[r [e|]]]; reflexivity.
Qed.

(** C1 (as amended): [checkDependencies] always returns a result, and in
    it [isValid] is true exactly when [missingPackages],
    [outdatedPackages] and [errors] are all empty; the loop that fills
    [extraPackages] leaves [isValid] as it found it. *)
Theorem checkDependencies_isValid (ws : string) (w : Runtime) :
  exists r,
    fst (checkDependencies ws w) = inr r
    /\ (isValid r = true
        <-> missingPackages r = [] /\ outdatedPackages r = [] /\ errors r = [])
    /\ (forall w' required installed r0,
          isValid (fst (reconcile w' required installed r0))
          = isValid (fst (JS.forEach (checkRequired w' installed) required r0))).
Proof.
  rewrite checkDependencies_value. eexists. split; [reflexivity|]. split.
  - destruct (fst (checkDependencies_try ws fresh w)) as [e|[r [e|]]] eqn:Htry.
    + apply consistent_failed.
    + apply consistent_failed.
    + destruct (checkDependencies_try_result ws w _ Htry)
        as [[= ->] | (required & installed & H)].
      * apply consistent_invalid. right. right. apply snoc_not_nil.
      * replace r with (fst (reconcile w required installed fresh))
          by (now rewrite <- H).
        apply reconcile_consistent, consistent_fresh.
  - intros. apply reconcile_fields.
Qed.

(** C1, as first stated, fails when the manifest is absent: the result
    is invalid although nothing is missing and nothing is outdated. *)
Lemma checkDependencies_invalid_without_findings :
  exists r,
    fst (checkDependencies "/ws" Scenario.noManifest) = inr r
    /\ isValid r = false
    /\ missingPackages r = []
    /\ outdatedPackages r = [].
Proof. eexists. repeat split. Qed.

(** An installed package the manifest does not declare is listed as
    extra and the result stays valid. *)
Example checkDependencies_extra_is_valid :
  fst (checkDependencies "/ws" Scenario.oneExtra)
  = inr {| isValid := true;
           missingPackages := [];
           extraPackages := ["rimraf"];
           outdatedPackages := [];
           errors := [] |}.
Proof. reflexivity. Qed.

Example checkDependencies_chalk_missing :
  fst (checkDependencies "/ws" Scenario.chalkMissing)
  = inr {| isValid := false;
           missingPackages := ["chalk"];
           extraPackages := [];
           outdatedPackages := [];
           errors := [] |}.
Proof. reflexivity. Qed.

(** A declared package named like a method every object inherits is
    never missing: reading it from the installed set finds the method,
    which then fails the version check. *)
Example checkDependencies_inherited_name :
  fst (checkDependencies "/ws" Cases.constructorDeclared)
  = inr {| isValid := false;
           missingPackages := [];
           extraPackages := [];
           outdatedPackages :=
             ["constructor@function Object() { [native code] } (required: ^1.0.0)"];
           errors := [] |}.
Proof. reflexivity. Qed.

(** A requirement that cannot be rendered as text makes the first loop
    throw; the error joins what the loop had found before. *)
Example checkDependencies_error_after_findings :
  fst (checkDependencies "/ws" Cases.unprintableRequirement)
  = inr {| isValid := false;
           missingPackages := ["chalk"];
           extraPackages := [];
           outdatedPackages := [];
           errors := ["Failed to check dependencies: "
                        ++ "TypeError: Cannot convert object to primitive value"] |}.
Proof. reflexivity. Qed.

(** *** The missing manifest *)

(** C7: without a manifest the check returns at once: the result is
    invalid, its only error is the manifest's absence, the three lists
    are empty, and the host was asked nothing but whether the manifest
    exists (no configuration read, no lock file looked for, no command
    run). *)
Theorem checkDependencies_no_manifest (ws : string) (w : Runtime) :
  existsSync w (path_join w [ws; "package.json"]) = false ->
  checkDependencies ws w
  = (inr {| isValid := false;
            missingPackages := [];
            extraPackages := [];
            outdatedPackages := [];
            errors := ["package.json not found"] |},
     [EvExists (path_join w [ws; "package.json"])]).
Proof.
  intros H.
  unfold checkDependencies, checkDependencies_try, Eff.tryCatch, Eff.bind,
    Eff.pathJoin, Eff.fsExistsSync.
  rewrite H. reflexivity.
Qed.

Lemma checkDependencies_no_manifest_witness :
  existsSync Scenario.noManifest (path_join Scenario.noManifest ["/ws"; "package.json"])
  = false
  /\ checkDependencies "/ws" Scenario.noManifest
     = (inr {| isValid := false;
               missingPackages := [];
               extraPackages := [];
               outdatedPackages := [];
               errors := ["package.json not found"] |},
        [EvExists "/ws/package.json"]).
Proof.
  split; [reflexivity|].
  apply (checkDependencies_no_manifest "/ws" Scenario.noManifest). reflexivity.
Defined.

(** *** Merging the two sections of the manifest *)

(** C4 (as amended): the keys of the merged specification are those of
    the runtime section together with those of the development section;
    a name declared in both gets the development requirement (the last
    write wins), every other name keeps its only requirement, and no
    name occurs twice. *)
Theorem requiredDependencies_merge (packageJson dependencies devDependencies : value) :
  JS.getProp packageJson "dependencies" = inr dependencies ->
  JS.getProp packageJson "devDependencies" = inr devDependencies ->
  NoDup (JS.keys (JS.ownEntries dependencies)) ->
  NoDup (JS.keys (JS.ownEntries devDependencies)) ->
  exists required,
    requiredDependencies packageJson = inr required
    /\ (forall k, In k (JS.keys required)
                  <-> In k (JS.keys (JS.ownEntries dependencies))
                      \/ In k (JS.keys (JS.ownEntries devDependencies)))
    /\ (forall k, JS.lookup k required
                  = match JS.lookup k (JS.ownEntries devDependencies) with
                    | Some v => Some v
                    | None => JS.lookup k (JS.ownEntries dependencies)
                    end)
    /\ NoDup (JS.keys required).
Proof.
  intros Hd Hv Nd Nv. unfold requiredDependencies. rewrite Hd, Hv.
  eexists. split; [reflexivity|].
  assert (U : NoDup (JS.keys (JS.spreadInto (JS.spreadInto [] dependencies)
                                            devDependencies))).
  { unfold JS.spreadInto. apply NoDup_keys_spread, NoDup_keys_spread. constructor. }
  assert (L : forall k,
             JS.lookup k (JS.spreadInto (JS.spreadInto [] dependencies) devDependencies)
             = match JS.lookup k (JS.ownEntries devDependencies) with
               | Some v => Some v
               | None => JS.lookup k (JS.ownEntries dependencies)
               end).
  { intros k. unfold JS.spreadInto.
    rewrite (lookup_spread k _ _ Nv), (lookup_spread k _ _ Nd). simpl.
    destruct (JS.lookup k (JS.ownEntries devDependencies)); [reflexivity|].
    destruct (JS.lookup k (JS.ownEntries dependencies)); reflexivity. }
  split; [|split; [exact L|exact U]].
  intros k. rewrite !lookup_In_keys, L.
  destruct (JS.lookup k (JS.ownEntries devDependencies));
    destruct (JS.lookup k (JS.ownEntries dependencies));
    split; auto; try (intros [?|?]; congruence); intros; right; congruence.
Qed.

Lemma requiredDependencies_merge_witness :
  JS.getProp Scenario.bothSections "dependencies"
  = inr (VObj [("typescript", VStr "^4.9.0")])
  /\ JS.getProp Scenario.bothSections "devDependencies"
     = inr (VObj [("typescript", VStr "^5.4.0")])
  /\ exists required,
       requiredDependencies Scenario.bothSections = inr required
       /\ JS.lookup "typescript" required = Some (VStr "^5.4.0").
Proof.
  split; [reflexivity|]. split; [reflexivity|].
  destruct (requiredDependencies_merge Scenario.bothSections
              (VObj [("typescript", VStr "^4.9.0")])
              (VObj [("typescript", VStr "^5.4.0")]))
    as (required & Hr & _ & Hl & _);
    try reflexivity;
    try (repeat constructor; simpl; tauto).
  exists required. split; [exact Hr|]. rewrite Hl. reflexivity.
Defined.

(** C4, as first stated, fails when a name is declared in both sections:
    only the development requirement is left. *)
Lemma requiredDependencies_dev_overrides :
  JS.getProp Scenario.bothSections "dependencies"
  = inr (VObj [("typescript", VStr "^4.9.0")])
  /\ requiredDependencies Scenario.bothSections
     = inr [("typescript", VStr "^5.4.0")].
Proof. split; reflexivity. Qed.

(** *** Version compatibility *)

Lemma isLocalOrGit_startsWith (required : string) :
  JSString.startsWith required "file:" || JSString.startsWith required "git+" = true
  <-> isLocalOrGit required.
Proof.
  unfold isLocalOrGit. rewrite orb_true_iff, !startsWith_iff. split.
  - intros [(rest & ->)|(rest & ->)]; exists rest; auto.
  - intros (rest & [->| ->]); eauto.
Qed.

Lemma stripLeading_operator (required : string) :
  JSString.stripLeading isCaretOrTilde required = withoutOperator required.
Proof.
  destruct required as [|c s]; [reflexivity|].
  destruct c as [[] [] [] [] [] [] [] []]; reflexivity.
Qed.

(** The range the method hands to semver. *)
Lemma range_operator (required : string) (X : Type) (ask : string -> X) :
  (if JSString.startsWith required "^"
   then ask ("^" ++ JSString.stripLeading isCaretOrTilde required)
   else if JSString.startsWith required "~"
        then ask ("~" ++ JSString.stripLeading isCaretOrTilde required)
        else ask (JSString.stripLeading isCaretOrTilde required))
  = ask (operatorOf required ++ withoutOperator required).
Proof.
  destruct required as [|c s]; [reflexivity|].
  rewrite !startsWith_char.
  destruct c as [[] [] [] [] [] [] [] []]; reflexivity.
Qed.

(** Putting the stripped operator back gives the requirement itself. *)
Lemma operator_reapplied (required : string) :
  operatorOf required ++ withoutOperator required = required.
Proof.
  destruct required as [|c s]; [reflexivity|].
  destruct c as [[] [] [] [] [] [] [] []]; reflexivity.
Qed.

(** The method on two strings. *)
Lemma isVersionCompatible_strings
      (satisfies : string -> string -> exn + bool) (required installed : string) :
  isVersionCompatible satisfies (VStr required) (VStr installed)
  = inr (if JSString.startsWith required "file:" || JSString.startsWith required "git+"
         then true
         else match satisfies (withoutV installed)
                              (operatorOf required ++ withoutOperator required) with
              | inr answer => answer
              | inl _ => false
              end).
Proof.
  unfold isVersionCompatible, isVersionCompatible_try, comparisonFailed.
  destruct (JSString.startsWith required "file:" || JSString.startsWith required "git+");
    [reflexivity|].
  rewrite (range_operator required _ (satisfies _)), stripLeading_v.
  fold (withoutV installed).
  destruct (satisfies _ _) as [e|b]; reflexivity.
Qed.

Lemma reference_agrees : Semver.agrees Semver.reference.
Proof.
  intros v range b H. unfold Semver.reference. now rewrite H.
Qed.

(** C3: a requirement starting with [file:] or [git+] is compatible with
    anything.  Any other requirement is tested with semver on the
    installed version without a leading [v] against the requirement's
    operator followed by the requirement without it, and an exception
    from that test counts as incompatible; so on two strings the method
    always answers.  With a semver that follows the caret and tilde
    rules, [^1.2.0] accepts [1.9.0] and rejects [2.0.0] and [0.9.0], and
    [~1.2.0] accepts [1.2.9] and rejects [1.3.0], with or without a [v]
    before the installed version. *)
Theorem isVersionCompatible_spec :
  (forall satisfies required (installed : value),
     isLocalOrGit required ->
     isVersionCompatible satisfies (VStr required) installed = inr true)
  /\ (forall satisfies required (installed : string),
        ~ isLocalOrGit required ->
        isVersionCompatible satisfies (VStr required) (VStr installed)
        = inr match satisfies (withoutV installed)
                              (operatorOf required ++ withoutOperator required) with
              | inr answer => answer
              | inl _ => false
              end)
  /\ (forall satisfies (required installed : string),
        exists answer,
          isVersionCompatible satisfies (VStr required) (VStr installed) = inr answer)
  /\ (forall satisfies,
        Semver.agrees satisfies ->
        isVersionCompatible satisfies (VStr "^1.2.0") (VStr "1.9.0") = inr true
        /\ isVersionCompatible satisfies (VStr "^1.2.0") (VStr "2.0.0") = inr false
        /\ isVersionCompatible satisfies (VStr "^1.2.0") (VStr "0.9.0") = inr false
        /\ isVersionCompatible satisfies (VStr "~1.2.0") (VStr "1.2.9") = inr true
        /\ isVersionCompatible satisfies (VStr "~1.2.0") (VStr "1.3.0") = inr false
        /\ isVersionCompatible satisfies (VStr "^1.2.0") (VStr "v1.9.0") = inr true
        /\ isVersionCompatible satisfies (VStr "~1.2.0") (VStr "v1.3.0") = inr false).
Proof.
  split; [|split; [|split]].
  - intros satisfies required installed H.
    apply isLocalOrGit_startsWith in H.
    unfold isVersionCompatible, isVersionCompatible_try. rewrite H. reflexivity.
  - intros satisfies required installed H.
    rewrite isVersionCompatible_strings.
    destruct (JSString.startsWith required "file:" || JSString.startsWith required "git+")
      eqn:E; [|reflexivity].
    exfalso. now apply H, isLocalOrGit_startsWith.
  - intros satisfies required installed.
    rewrite isVersionCompatible_strings. eauto.
  - intros satisfies H.
    rewrite !isVersionCompatible_strings. cbn.
    rewrite (H "1.9.0" "^1.2.0" true eq_refl).
    rewrite (H "2.0.0" "^1.2.0" false eq_refl).
    rewrite (H "0.9.0" "^1.2.0" false eq_refl).
    rewrite (H "1.2.9" "~1.2.0" true eq_refl).
    rewrite (H "1.3.0" "~1.2.0" false eq_refl).
    repeat split.
Qed.

Example isVersionCompatible_local_path :
  isVersionCompatible Semver.reference (VStr "file:../shared") (VStr "0.0.0") = inr true.
Proof. reflexivity. Qed.

Example isVersionCompatible_v_prefix :
  isVersionCompatible Semver.reference (VStr "~1.2.0") (VStr "v1.2.9") = inr true.
Proof. reflexivity. Qed.

(** Only one [v] is removed. *)
Example isVersionCompatible_double_v :
  isVersionCompatible Semver.reference (VStr "~1.2.0") (VStr "vv1.2.9") = inr false.
Proof. reflexivity. Qed.

(** A range whose upper bound would pass the largest safe integer
    accepts nothing, not even the version it names. *)
Example satisfies_unbounded_caret :
  Semver.satisfies "9007199254740991.0.0" "^9007199254740991.0.0" = Some false
  /\ Semver.satisfies "9007199254740991.0.0" "9007199254740991.0.0" = Some true
  /\ Semver.satisfies "9007199254740990.5.0" "^9007199254740990.0.0" = Some true.
Proof. repeat split. Qed.

(** What the [catch] block logs is built from both arguments: when one
    of them cannot be rendered, the method throws instead of answering. *)
Example isVersionCompatible_throws :
  isVersionCompatible Semver.reference
                      (VObj [("toString", VNum "1")]) (VStr "1.0.0")
  = inl (TypeError "Cannot convert object to primitive value").
Proof. reflexivity. Qed.

(** *** The three lists *)

(** C10 fails on the code: a package declared with the empty requirement
    and installed is listed as extra, whatever semver answers; and when
    semver rejects the installed version it is listed as outdated as
    well. *)
Theorem checkDependencies_declared_listed_extra
        (satisfies : string -> string -> exn + bool) :
  requiredDependencies Scenario.anyVersionManifest = inr [("lodash", VStr "")]
  /\ fst (PackageManagerDetector.getInstalledPackages
            "/ws" "npm" (Scenario.anyVersion "4.17.21" satisfies))
     = inr (JS.plain [("lodash", VStr "4.17.21")])
  /\ (exists r,
        fst (checkDependencies "/ws" (Scenario.anyVersion "4.17.21" satisfies)) = inr r
        /\ missingPackages r = []
        /\ errors r = []
        /\ extraPackages r = ["lodash"])
  /\ (satisfies "1.0.0-beta.1" EmptyString = inr false ->
      fst (checkDependencies "/ws" (Scenario.anyVersion "1.0.0-beta.1" satisfies))
      = inr {| isValid := false;
               missingPackages := [];
               extraPackages := ["lodash"];
               outdatedPackages := ["lodash@1.0.0-beta.1 (required: )"];
               errors := [] |}).
Proof.
  split; [reflexivity|]. split; [reflexivity|]. split.
  - vm_compute.
    destruct (satisfies _ _) as [e|[|]]; eexists; repeat split.
  - intros H. vm_compute. vm_compute in H. rewrite H. reflexivity.
Qed.

End CheckerFacts.

(* ===================================================================== *)
(** ** Further properties: PackageManagerDetector *)
(* ===================================================================== *)

Module DetectorMore.

Import PackageManagerDetector Spec Terms.

(** X1: looking a manager up by name succeeds exactly for pnpm, yarn and
    npm, and then gives the profile carrying that name; any other name
    raises the unsupported-manager error that quotes it. *)
Theorem getPackageManagerInfo_lookup (n : string) :
  (In n supported ->
     exists info, getPackageManagerInfo n = inr info
                  /\ name info = n /\ In info packageManagers)
  /\ (~ In n supported ->
      getPackageManagerInfo n = inl (Error ("Unsupported package manager: " ++ n))).
Proof.
  split.
  - intros [<-|[<-|[<-|[]]]]; eexists; (split; [reflexivity|]); simpl; auto.
  - intros H. unfold getPackageManagerInfo, packageManagers. cbn [find name].
    destruct (String.eqb_spec "pnpm" n) as [<-|_]; [exfalso; apply H; simpl; auto|].
    destruct (String.eqb_spec "yarn" n) as [<-|_]; [exfalso; apply H; simpl; auto|].
    destruct (String.eqb_spec "npm" n) as [<-|_]; [exfalso; apply H; simpl; auto|].
    reflexivity.
Qed.

Lemma firstMatch_supported (w : Runtime) (ws : string) :
  In (firstMatch w ws) supported.
Proof.
  unfold firstMatch, supported.
  repeat match goal with
         | |- context [if ?b then _ else _] => destruct b
         end; simpl; auto.
Qed.

(** X2: detection never raises, and when no preference is configured
    its answer is always a manager whose profile can be looked up. *)
Theorem detectPackageManager_supported (ws : string) (w : Runtime) :
  exists n,
    fst (detectPackageManager ws w) = inr n
    /\ (configured w = "auto" ->
        In n supported
        /\ exists info, getPackageManagerInfo n = inr info /\ name info = n).
Proof.
  destruct (String.eqb_spec (configured w) "auto") as [Ha|Hn].
  - exists (firstMatch w ws). split.
    + unfold detectPackageManager.
      rewrite fst_bind, DetectorFacts.configGet_value. cbn [fst].
      rewrite Ha, String.eqb_refl. cbn [negb].
      rewrite fst_bind, DetectorFacts.lockFileLoop_find.
      unfold firstMatch, packageManagers. cbn [find lockFile name option_map].
      destruct (lockFilePresent w ws "pnpm-lock.yaml"); [reflexivity|].
      destruct (lockFilePresent w ws "yarn.lock"); [reflexivity|].
      destruct (lockFilePresent w ws "package-lock.json"); [reflexivity|].
      cbn [option_map].
      rewrite fst_bind, DetectorFacts.availabilityLoop_find.
      cbn [find lockFile name option_map].
      destruct (answersVersion w "pnpm"); [reflexivity|].
      destruct (answersVersion w "yarn"); [reflexivity|].
      destruct (answersVersion w "npm"); reflexivity.
    + intros _. pose proof (firstMatch_supported w ws) as Hs. split; [exact Hs|].
      destruct Hs as [<-|[<-|[<-|[]]]]; eexists; split; reflexivity.
  - exists (configured w). split; [|congruence].
    unfold detectPackageManager, Eff.bind, Eff.configGetPreferred.
    fold (configured w). apply String.eqb_neq in Hn. rewrite Hn. reflexivity.
Qed.


(** X3: with no preference configured and a lock file of a known
    manager present, detection runs no command at all. *)
Theorem detectPackageManager_lock_file_runs_nothing (ws : string) (w : Runtime) :
  configured w = "auto" ->
  anyLockFile w ws = true ->
  commandsRun (snd (detectPackageManager ws w)) = [].
Proof.
  intros Ha Hl.
  unfold anyLockFile, lockFilePresent, packageManagers in Hl.
  cbn [existsb lockFile] in Hl.
  unfold detectPackageManager, Eff.bind, Eff.configGetPreferred.
  fold (configured w). rewrite Ha. cbn [String.eqb Ascii.eqb Bool.eqb negb].
  unfold packageManagers. cbn [lockFileLoop lockFile name].
  unfold Eff.bind, Eff.pathJoin, Eff.fsExistsSync, Eff.ret.
  destruct (existsSync w (path_join w [ws; "pnpm-lock.yaml"])); [reflexivity|].
  destruct (existsSync w (path_join w [ws; "yarn.lock"])); [reflexivity|].
  destruct (existsSync w (path_join w [ws; "package-lock.json"])); [reflexivity|].
  discriminate.
Qed.

Lemma detectPackageManager_lock_file_runs_nothing_witness :
  configured Cases.pnpmLocked = "auto"
  /\ anyLockFile Cases.pnpmLocked "/ws" = true
  /\ commandsRun (snd (detectPackageManager "/ws" Cases.pnpmLocked)) = []
  /\ fst (detectPackageManager "/ws" Cases.pnpmLocked) = inr "pnpm".
Proof.
  split; [reflexivity|]. split; [reflexivity|]. split; [|reflexivity].
  apply (detectPackageManager_lock_file_runs_nothing "/ws" Cases.pnpmLocked);
    reflexivity.
Defined.

(** X4: for an unsupported manager [getInstalledPackages] raises without
    running anything.  Otherwise it runs the list command once; only when
    that fails does it run the shell form, and when the shell form fails
    too it is the shell form's error that is raised. *)
Theorem getInstalledPackages_commands (ws pm : string) (w : Runtime) :
  match getPackageManagerInfo pm with
  | inl e => getInstalledPackages ws pm w = (inl e, [])
  | inr info =>
      let listing := listCommand info in
      match execAsync w listing (Some ws) with
      | inr out =>
          getInstalledPackages ws pm w
          = (fst (parseInstalled pm out w), [EvExec listing (Some ws)])
      | inl _ =>
          match execAsync w (fallbackCommand listing) (Some ws) with
          | inr out =>
              getInstalledPackages ws pm w
              = (fst (parseInstalled pm out w),
                 [EvExec listing (Some ws);
                  EvExec (fallbackCommand listing) (Some ws)])
          | inl e =>
              getInstalledPackages ws pm w
              = (inl e,
                 [EvExec listing (Some ws);
                  EvExec (fallbackCommand listing) (Some ws)])
          end
      end
  end.
Proof.
  unfold getInstalledPackages, Eff.bind, Eff.lift, Eff.tryCatch, Eff.exec.
  destruct (getPackageManagerInfo pm) as [e|info]; [reflexivity|]. cbn zeta.
  destruct (execAsync w (listCommand info) (Some ws)) as [e|out].
  - destruct (execAsync w (fallbackCommand (listCommand info)) (Some ws)) as [e'|out'];
      [reflexivity|].
    unfold parseInstalled. destruct (JSON_parse w out'); reflexivity.
  - unfold parseInstalled. destruct (JSON_parse w out); reflexivity.
Qed.

Lemma assign_NoDup (k : string) (v : value) (o : JS.object) :
  NoDup (JS.keys (JS.own o)) -> NoDup (JS.keys (JS.own (JS.assign k v o))).
Proof.
  intros H. unfold JS.assign.
  destruct (JS.lookup k (JS.own o)); cbn [JS.own].
  - now rewrite keys_update.
  - destruct (String.eqb k "__proto__" && JS.reachesAccessor o).
    + destruct v; exact H.
    + cbn [JS.own]. now apply NoDup_keys_set.
Qed.

Lemma yarnTree_NoDup (p : InstalledSet) (tree : value) (p' : InstalledSet) :
  NoDup (JS.keys (JS.own p)) -> yarnTree p tree = inr p' -> NoDup (JS.keys (JS.own p')).
Proof.
  intros H. unfold yarnTree.
  destruct (JS.getProp tree "name") as [e|treeName]; [discriminate|].
  destruct (negb (JS.truthy treeName)); [now intros [= <-]|].
  destruct (includesAt treeName) as [e|[|]]; [discriminate| |now intros [= <-]].
  destruct (matchAt treeName) as [e|[[n version]|]];
    [discriminate| |now intros [= <-]].
  intros [= <-]. now apply assign_NoDup.
Qed.

Lemma npmDependency_NoDup (dependencies : value) (p : InstalledSet)
      (n : string) (p' : InstalledSet) :
  NoDup (JS.keys (JS.own p)) -> npmDependency dependencies p n = inr p' ->
  NoDup (JS.keys (JS.own p')).
Proof.
  intros H. unfold npmDependency.
  destruct (JS.getProp _ "version") as [e|version]; [discriminate|].
  destruct (JS.truthy version); intros [= <-]; [|exact H].
  now apply assign_NoDup.
Qed.

Lemma installed_NoDup (ws pm : string) (w : Runtime) (packages : InstalledSet) :
  fst (getInstalledPackages ws pm w) = inr packages ->
  NoDup (JS.keys (JS.own packages)).
Proof.
  apply (DetectorFacts.getInstalledPackages_invariant
           (fun p => NoDup (JS.keys (JS.own p)))).
  - constructor.
  - apply yarnTree_NoDup.
  - apply npmDependency_NoDup.
Qed.

(** X5: whatever the list command printed, the installed set that comes
    back names no package twice and holds no empty version. *)
Theorem getInstalledPackages_well_formed (ws pm : string) (w : Runtime)
        (packages : InstalledSet) :
  fst (getInstalledPackages ws pm w) = inr packages ->
  NoDup (JS.keys (JS.own packages)) /\ allTruthy (JS.own packages).
Proof.
  intros H. split.
  - exact (installed_NoDup _ _ _ _ H).
  - exact (DetectorFacts.getInstalledPackages_allTruthy _ _ _ _ H).
Qed.

Lemma getInstalledPackages_well_formed_witness :
  fst (getInstalledPackages "/ws" "npm" Scenario.oneExtra)
  = inr (JS.plain [("lodash", VStr "4.17.21"); ("rimraf", VStr "5.0.5")])
  /\ NoDup (JS.keys [("lodash", VStr "4.17.21"); ("rimraf", VStr "5.0.5")])
  /\ allTruthy [("lodash", VStr "4.17.21"); ("rimraf", VStr "5.0.5")].
Proof.
  split; [reflexivity|].
  apply (getInstalledPackages_well_formed
           "/ws" "npm" Scenario.oneExtra
           (JS.plain [("lodash", VStr "4.17.21"); ("rimraf", VStr "5.0.5")])).
  reflexivity.
Defined.

(** X6: the yarn entry pattern matches exactly the strings of the form
    name, [@], version in which the version is non-empty and holds no
    [@] and the name holds no line terminator; the two groups are that
    name and that version, so putting them back together gives the
    entry. *)
Theorem matchNameVersion_exact (s n v : string) :
  matchNameVersion s = Some (n, v)
  <-> s = n ++ "@" ++ v
      /\ JSString.nonEmpty v = true
      /\ JSString.forallChar notAt v = true
      /\ JSString.forallChar notLineTerminator n = true.
Proof.
  split.
  - apply DetectorFacts.matchNameVersion_sound.
  - intros (-> & Hne & Hv & Hn).
    now apply DetectorFacts.matchNameVersion_complete.
Qed.

(** *** Well-formed listings *)

(** Assigning a string to a name of an object that still inherits from
    [Object.prototype]. *)
Lemma assign_string (k s : string) (acc : JS.dict value) :
  ~ In "__proto__" (JS.keys acc) ->
  JS.assign k (VStr s) (JS.plain acc)
  = if String.eqb k "__proto__" then JS.plain acc
    else JS.plain (JS.set k (VStr s) acc).
Proof.
  intros Hp. unfold JS.assign, JS.plain, JS.reachesAccessor. cbn [JS.own JS.parent].
  destruct (String.eqb_spec k "__proto__") as [->|Hk].
  - now rewrite (lookup_not_In _ _ Hp).
  - cbn [andb]. unfold JS.set. destruct (JS.lookup k acc); reflexivity.
Qed.

Lemma assigned_cons (n v : string) (d : list (string * string)) (acc : JS.dict value) :
  assigned ((n, v) :: d) acc
  = if String.eqb n "__proto__" then assigned d acc
    else assigned d (JS.set n (VStr v) acc).
Proof.
  unfold assigned, storable. cbn [filter fst].
  destruct (String.eqb n "__proto__"); reflexivity.
Qed.

Lemma set_keeps_proto_out (k : string) (v : value) (acc : JS.dict value) :
  k <> "__proto__" ->
  ~ In "__proto__" (JS.keys acc) -> ~ In "__proto__" (JS.keys (JS.set k v acc)).
Proof.
  intros Hk Hp H. apply In_keys_set in H as [H|H]; [congruence|tauto].
Qed.

Lemma yarn_walk (elems : list value) (d : list (string * string))
      (acc : JS.dict value) :
  Forall2 yarnEntry elems d ->
  ~ In "__proto__" (JS.keys acc) ->
  JS.forEach yarnTree elems (JS.plain acc) = (JS.plain (assigned d acc), None).
Proof.
  intros Hf. revert acc.
  induction Hf as [|tree [n v] elems d (Hname & Hne & Hv & Hn) Hf IH];
    intros acc Hp; [reflexivity|].
  cbn [fst snd] in Hname, Hne, Hv, Hn. cbn [JS.forEach].
  rewrite (DetectorFacts.yarnTree_run tree n v (JS.plain acc) Hname Hne Hv Hn).
  rewrite (assign_string n v acc Hp), assigned_cons.
  destruct (String.eqb_spec n "__proto__") as [->|Hk].
  - now apply IH.
  - apply IH. now apply set_keeps_proto_out.
Qed.

Lemma npm_walk (deps rest : JS.dict value) (d : list (string * string))
      (acc : JS.dict value) :
  (forall k e, In (k, e) rest -> JS.lookup k deps = Some e) ->
  Forall2 npmEntry rest d ->
  ~ In "__proto__" (JS.keys acc) ->
  JS.forEach (npmDependency (VObj deps)) (JS.keys rest) (JS.plain acc)
  = (JS.plain (assigned d acc), None).
Proof.
  intros Hl Hf. revert acc Hl.
  induction Hf as [|[k e] [k' v] rest d (Hk & Hv & Hne) Hf IH];
    intros acc Hl Hp; [reflexivity|].
  cbn [fst snd] in Hk, Hv, Hne. subst k'.
  cbn [JS.keys map fst JS.forEach]. fold (JS.keys rest).
  unfold npmDependency at 1. unfold JS.at_. cbn [JS.ownEntries].
  rewrite (Hl k e (or_introl eq_refl)), Hv. cbn [JS.truthy]. rewrite Hne.
  rewrite (assign_string k v acc Hp), assigned_cons.
  assert (Hl' : forall k0 e0, In (k0, e0) rest -> JS.lookup k0 deps = Some e0).
  { intros k0 e0 H0. apply Hl. now right. }
  destruct (String.eqb_spec k "__proto__") as [->|Hk].
  - now apply IH.
  - apply IH; [exact Hl'|]. now apply set_keeps_proto_out.
Qed.

Lemma lookup_assigned (n : string) (d : list (string * string)) (acc : JS.dict value) :
  NoDup (map fst d) ->
  JS.lookup n (assigned d acc)
  = if String.eqb n "__proto__" then JS.lookup n acc
    else match JS.lookup n d with
         | Some v => Some (VStr v)
         | None => JS.lookup n acc
         end.
Proof.
  revert acc. induction d as [|[k v] d IH]; intros acc Hn.
  - cbn. destruct (String.eqb n "__proto__"); reflexivity.
  - inversion Hn as [|? ? Hk Hn']; subst. rewrite assigned_cons.
    cbn [JS.lookup].
    destruct (String.eqb_spec k "__proto__") as [->|Hkp].
    + rewrite (IH acc Hn').
      destruct (String.eqb_spec n "__proto__") as [->|Hnp]; [reflexivity|].
      destruct (String.eqb_spec n "__proto__"); [congruence|reflexivity].
    + rewrite (IH _ Hn'), lookup_set.
      destruct (String.eqb_spec n "__proto__") as [->|Hnp].
      * destruct (String.eqb_spec "__proto__" k); [congruence|reflexivity].
      * destruct (String.eqb_spec n k) as [->|Hnk]; [|reflexivity].
        rewrite (lookup_not_In k d); [reflexivity|exact Hk].
Qed.

Lemma assigned_invariant (P : JS.dict value -> Prop)
      (d : list (string * string)) (acc : JS.dict value) :
  (forall k v a, P a -> P (JS.set k v a)) -> P acc -> P (assigned d acc).
Proof.
  intros Hs. unfold assigned.
  generalize (filter storable d) as l. intros l. revert acc.
  induction l as [|e l IH]; intros acc H; simpl; [exact H|].
  apply IH, Hs, H.
Qed.

Lemma In_keys_assigned (x : string) (d : list (string * string)) (acc : JS.dict value) :
  In x (JS.keys (assigned d acc))
  <-> In x (map fst (filter storable d)) \/ In x (JS.keys acc).
Proof.
  unfold assigned. generalize (filter storable d) as l. intros l. revert acc.
  induction l as [|[k v] l IH]; intros acc; simpl; [tauto|].
  rewrite IH, In_keys_set. intuition congruence.
Qed.

Lemma namesOf_assigned (d : list (string * string)) (acc : JS.dict value) :
  NoDup (map fst d) ->
  (forall k, In k (map fst d) -> ~ In k (JS.keys acc)) ->
  namesOf (JS.keys (assigned d acc))
  = (namesOf (JS.keys acc) ++ namesOf (map fst (filter storable d)))%list.
Proof.
  revert acc. induction d as [|[k v] d IH]; intros acc Hn Hd.
  - cbn. now rewrite app_nil_r.
  - inversion Hn as [|? ? Hk Hn']; subst. rewrite assigned_cons.
    unfold storable at 1. cbn [filter fst].
    assert (Hd' : forall k0, In k0 (map fst d) -> ~ In k0 (JS.keys acc)).
    { intros k0 H0. apply Hd. now right. }
    destruct (String.eqb k "__proto__"); cbn [negb].
    + now apply IH.
    + rewrite IH; [|exact Hn'|].
      * rewrite namesOf_set.
        assert (existsb (String.eqb k) (JS.keys acc) = false) as ->.
        { destruct (existsb (String.eqb k) (JS.keys acc)) eqn:E; [|reflexivity].
          apply existsb_exists in E as (x & Hx & E). apply String.eqb_eq in E.
          subst x. exfalso. apply (Hd k); simpl; auto. }
        cbn [map fst]. unfold namesOf. cbn [filter].
        destruct (negb (JS.isArrayIndex k)); cbn [app];
          now rewrite <- ?app_assoc, ?app_nil_r.
      * intros k0 H0 H1. apply In_keys_set in H1 as [->|H1]; [tauto|].
        now apply (Hd' k0).
Qed.

Lemma ordered_remove (a : list string) (x : string) (b : list string) :
  JS.ordered (a ++ x :: b) = true -> JS.ordered (a ++ b) = true.
Proof.
  rewrite !ordered_app. cbn [JS.ordered]. rewrite andb_true_iff.
  intros (Ha & (_ & Hb) & Hab). repeat split; auto.
  intros y z Hy Hz. apply Hab; simpl; auto.
Qed.

(** Entries that come in the order of [Object.keys] are stored in the
    order they come. *)
Lemma assigned_in_order (d : list (string * string)) (acc : JS.dict value) :
  NoDup (JS.keys acc ++ map fst d) ->
  JS.ordered (JS.keys acc ++ map fst d) = true ->
  assigned d acc = (acc ++ installedOf (filter storable d))%list.
Proof.
  revert acc. induction d as [|[k v] d IH]; intros acc Hn Ho.
  - cbn. now rewrite app_nil_r.
  - rewrite assigned_cons. unfold storable at 1. cbn [filter fst map] in *.
    destruct (String.eqb k "__proto__"); cbn [negb].
    + apply IH.
      * now apply NoDup_remove_1 in Hn.
      * now apply ordered_remove in Ho.
    + assert (Hk : ~ In k (JS.keys acc)).
      { apply NoDup_remove_2 in Hn. intros H. apply Hn, in_or_app. auto. }
      assert (Hp : forall x, In x (JS.keys acc) -> JS.precedes x k = true).
      { apply ordered_app in Ho as (_ & _ & Ho). intros x Hx.
        apply Ho; simpl; auto. }
      rewrite (set_last k (VStr v) acc Hk Hp), IH.
      * cbn [installedOf map fst snd]. now rewrite <- app_assoc.
      * unfold JS.keys. rewrite map_app, <- app_assoc. exact Hn.
      * unfold JS.keys. rewrite map_app, <- app_assoc. exact Ho.
Qed.

Lemma npmEntry_keys (deps : JS.dict value) (d : list (string * string)) :
  Forall2 npmEntry deps d -> map fst d = JS.keys deps.
Proof.
  induction 1 as [|x y deps d (Hk & _) _ IH]; [reflexivity|].
  simpl. now rewrite IH, Hk.
Qed.

(** X7: on a well-formed npm or pnpm listing (an object under
    [dependencies] whose entries each carry a non-empty string
    [version]) the installed set still inherits from [Object.prototype]
    and its own properties are exactly the listed names with their
    versions, in the listing's order, but for an entry named [__proto__],
    which is not stored. *)
Theorem getInstalledPackages_npm_listing
        (ws pm out : string) (w : Runtime) (result : value)
        (deps : JS.dict value) (d : list (string * string)) :
  In pm ["pnpm"; "npm"] ->
  capturedOutput w ws pm = Some out ->
  JSON_parse w out = inr result ->
  JS.getProp result "dependencies" = inr (VObj deps) ->
  NoDup (JS.keys deps) ->
  JS.ordered (JS.keys deps) = true ->
  Forall2 npmEntry deps d ->
  fst (getInstalledPackages ws pm w)
  = inr (JS.plain (installedOf (filter storable d))).
Proof.
  intros Hpm Hout Hj Hd Hn Ho Hf.
  rewrite (DetectorFacts.getInstalledPackages_value ws pm out w Hout).
  unfold parseInstalled. rewrite Hj. cbn [fst]. f_equal.
  assert (parseResult pm result JS.emptyObject = parseNpm result JS.emptyObject) as ->.
  { unfold parseResult. destruct Hpm as [<-|[<-|[]]]; reflexivity. }
  unfold parseNpm. rewrite Hd. cbn [JS.truthy negb JS.ownEntries].
  unfold JS.emptyObject. rewrite (npm_walk deps deps d []); auto.
  - cbn [fst]. f_equal. rewrite assigned_in_order; [reflexivity| |];
      cbn [JS.keys map app]; now rewrite (npmEntry_keys deps d Hf).
  - intros k e H. now apply In_lookup.
Qed.

Lemma getInstalledPackages_npm_listing_witness :
  capturedOutput Scenario.oneExtra "/ws" "npm"
  = Some (Scenario.stringify Scenario.twoInstalled)
  /\ JSON_parse Scenario.oneExtra (Scenario.stringify Scenario.twoInstalled)
     = inr Scenario.twoInstalled
  /\ fst (getInstalledPackages "/ws" "npm" Scenario.oneExtra)
     = inr (JS.plain [("lodash", VStr "4.17.21"); ("rimraf", VStr "5.0.5")]).
Proof.
  split; [reflexivity|]. split; [reflexivity|].
  apply (getInstalledPackages_npm_listing
           "/ws" "npm" (Scenario.stringify Scenario.twoInstalled)
           Scenario.oneExtra Scenario.twoInstalled
           [("lodash", VObj [("version", VStr "4.17.21")]);
            ("rimraf", VObj [("version", VStr "5.0.5")])]
           [("lodash", "4.17.21"); ("rimraf", "5.0.5")]).
  - simpl. auto.
  - reflexivity.
  - reflexivity.
  - reflexivity.
  - repeat constructor; simpl; intuition discriminate.
  - reflexivity.
  - repeat constructor.
Defined.

(** X8: on a well-formed yarn listing (an array under [data.trees] whose
    trees are each named name, [@], version, no name listed twice) the
    installed set still inherits from [Object.prototype]; its own
    properties are exactly those names with their versions, but for a
    tree named [__proto__], which is not stored; scoped names keep their
    leading [@].  Its keys come in the order of [Object.keys]: the names
    that are array indices first, then the other names in the listing's
    order. *)
Theorem getInstalledPackages_yarn_listing
        (ws out : string) (w : Runtime) (result data : value)
        (elems : list value) (d : list (string * string)) :
  capturedOutput w ws "yarn" = Some out ->
  JSON_parse w out = inr result ->
  JS.getProp result "data" = inr data ->
  JS.truthy data = true ->
  JS.getProp data "trees" = inr (VArr elems) ->
  Forall2 yarnEntry elems d ->
  NoDup (map fst d) ->
  exists packages,
    fst (getInstalledPackages ws "yarn" w) = inr packages
    /\ JS.parent packages = None
    /\ (forall n, JS.lookup n (JS.own packages)
                  = if String.eqb n "__proto__" then None
                    else option_map VStr (JS.lookup n d))
    /\ NoDup (JS.keys (JS.own packages))
    /\ JS.ordered (JS.keys (JS.own packages)) = true
    /\ namesOf (JS.keys (JS.own packages)) = namesOf (map fst (filter storable d)).
Proof.
  intros Hout Hj Hd Ht He Hf Hn.
  rewrite (DetectorFacts.getInstalledPackages_value ws "yarn" out w Hout).
  unfold parseInstalled. rewrite Hj. cbn [fst].
  unfold parseResult, parseYarn. cbn [String.eqb Ascii.eqb Bool.eqb]. cbv iota.
  rewrite Hd, Ht, He. cbn [JS.truthy negb].
  unfold JS.emptyObject. rewrite (yarn_walk elems d []); auto.
  exists (JS.plain (assigned d [])). cbn [fst JS.plain JS.own JS.parent].
  split; [reflexivity|]. split; [reflexivity|]. split; [|split; [|split]].
  - intros n. rewrite (lookup_assigned n d [] Hn). cbn [JS.lookup].
    destruct (String.eqb n "__proto__"); [reflexivity|].
    destruct (JS.lookup n d); reflexivity.
  - apply (assigned_invariant (fun a => NoDup (JS.keys a))); [|constructor].
    intros k v a. apply NoDup_keys_set.
  - apply (assigned_invariant (fun a => JS.ordered (JS.keys a) = true)); [|reflexivity].
    intros k v a. apply ordered_set.
  - now rewrite (namesOf_assigned d [] Hn).
Qed.

Lemma getInstalledPackages_yarn_listing_witness :
  capturedOutput Cases.yarnOddListing "/ws" "yarn"
  = Some (Scenario.stringify Cases.yarnOddNames)
  /\ JSON_parse Cases.yarnOddListing (Scenario.stringify Cases.yarnOddNames)
     = inr Cases.yarnOddNames
  /\ fst (getInstalledPackages "/ws" "yarn" Cases.yarnOddListing)
     = inr (JS.plain [("1", VStr "2.0.0"); ("b", VStr "1.0.0")])
  /\ exists packages,
       fst (getInstalledPackages "/ws" "yarn" Cases.yarnOddListing) = inr packages
       /\ JS.lookup "__proto__" (JS.own packages) = None
       /\ JS.lookup "1" (JS.own packages) = Some (VStr "2.0.0")
       /\ namesOf (JS.keys (JS.own packages)) = ["b"].
Proof.
  split; [reflexivity|]. split; [reflexivity|]. split; [reflexivity|].
  destruct (getInstalledPackages_yarn_listing
              "/ws" (Scenario.stringify Cases.yarnOddNames)
              Cases.yarnOddListing Cases.yarnOddNames
              (VObj [("trees",
                      VArr [VObj [("name", VStr "b@1.0.0")];
                            VObj [("name", VStr "__proto__@1.0.0")];
                            VObj [("name", VStr "1@2.0.0")]])])
              [VObj [("name", VStr "b@1.0.0")];
               VObj [("name", VStr "__proto__@1.0.0")];
               VObj [("name", VStr "1@2.0.0")]]
              [("b", "1.0.0"); ("__proto__", "1.0.0"); ("1", "2.0.0")]
              eq_refl eq_refl eq_refl eq_refl eq_refl)
    as (packages & Hp & _ & Hl & _ & _ & Hnames).
  - repeat constructor.
  - repeat constructor; simpl; intuition discriminate.
  - exists packages. split; [exact Hp|]. split; [|split].
    + rewrite Hl. reflexivity.
    + rewrite Hl. reflexivity.
    + rewrite Hnames. reflexivity.
Defined.

End DetectorMore.

(* ===================================================================== *)
(** ** Further properties: DependencyChecker *)
(* ===================================================================== *)

Module CheckerMore.

Import DependencyChecker Spec Terms.

(** X9: on two strings the method always answers.  For a requirement
    that is a local path or a git reference the answer is yes; for any
    other, stripping the operator and putting it back changes nothing:
    semver is asked about the requirement exactly as the manifest wrote
    it, against the installed version without one leading [v], and an
    exception from semver counts as no. *)
Theorem isVersionCompatible_range_is_requirement
        (satisfies : string -> string -> exn + bool) (required installed : string) :
  (isLocalOrGit required ->
   isVersionCompatible satisfies (VStr required) (VStr installed) = inr true)
  /\ (~ isLocalOrGit required ->
      isVersionCompatible satisfies (VStr required) (VStr installed)
      = inr match satisfies (withoutV installed) required with
            | inr answer => answer
            | inl _ => false
            end).
Proof.
  rewrite CheckerFacts.isVersionCompatible_strings,
    CheckerFacts.operator_reapplied.
  destruct (JSString.startsWith required "file:" || JSString.startsWith required "git+")
    eqn:E.
  - split; [reflexivity|]. intros H. exfalso.
    now apply H, CheckerFacts.isLocalOrGit_startsWith.
  - split; [|reflexivity]. intros H.
    apply CheckerFacts.isLocalOrGit_startsWith in H. congruence.
Qed.

(** *** The first loop *)

Lemma isOutdated_not_missing w installed entry :
  isOutdated w installed entry = true -> isMissing w installed entry = false.
Proof.
  unfold isOutdated, isMissing. intros H. apply andb_prop in H as [-> _]. reflexivity.
Qed.

Lemma isMissing_not_outdated w installed entry :
  isMissing w installed entry = true -> isOutdated w installed entry = false.
Proof.
  unfold isOutdated, isMissing. intros H. apply negb_true_iff in H. now rewrite H.
Qed.

Lemma compatible_not_outdated w installed entry :
  isVersionCompatible (semver_satisfies w) (snd entry)
    (installedVersion w installed (fst entry)) = inr true ->
  isOutdated w installed entry = false.
Proof.
  unfold isOutdated. intros ->. apply andb_false_r.
Qed.

(** The first loop touches neither [errors] nor [extraPackages]. *)
Lemma requiredLoop_keeps w installed entries r :
  errors (fst (JS.forEach (checkRequired w installed) entries r)) = errors r
  /\ extraPackages (fst (JS.forEach (checkRequired w installed) entries r))
     = extraPackages r.
Proof.
  apply (forEach_invariant
           (fun r' => errors r' = errors r /\ extraPackages r' = extraPackages r));
    [|auto].
  intros r0 e r1 [H1 H2] Hc.
  destruct (CheckerFacts.checkRequired_cases _ _ _ _ _ Hc)
    as [(_ & ->)|[(_ & _ & ->)|(_ & line & _ & ->)]]; auto.
Qed.

(** A run of the first loop that did not throw, in closed form. *)
Lemma requiredLoop_clean w installed entries r r' :
  JS.forEach (checkRequired w installed) entries r = (r', None) ->
  missingPackages r'
  = (missingPackages r ++ map fst (filter (isMissing w installed) entries))%list
  /\ (forall line,
        In line (outdatedPackages r')
        <-> In line (outdatedPackages r)
            \/ exists e,
                 In e entries
                 /\ isOutdated w installed e = true
                 /\ outdatedLine (fst e) (installedVersion w installed (fst e)) (snd e)
                    = inr line).
Proof.
  revert r. induction entries as [|e entries IH]; intros r; cbn [JS.forEach].
  - intros [= <-]. cbn. rewrite app_nil_r. split; [reflexivity|].
    intros line. split; [auto|]. intros [H|(e & [] & _)]. exact H.
  - destruct (checkRequired w installed r e) as [x|r1] eqn:Hc; [discriminate|].
    intros Hl. destruct (IH r1 Hl) as (Hm & Ho). clear IH.
    destruct (CheckerFacts.checkRequired_cases _ _ _ _ _ Hc)
      as [(Hmiss & ->)|[(Hmiss & Hcomp & ->)|(Hout & line0 & Hline & ->)]].
    + pose proof (isMissing_not_outdated _ _ _ Hmiss) as Hno.
      cbn [filter]. rewrite Hmiss. cbn [map]. split.
      * rewrite Hm. cbn. now rewrite <- app_assoc.
      * intros line. rewrite Ho. cbn. split.
        -- intros [H|(e' & He' & H)]; [auto|]. right. exists e'. auto.
        -- intros [H|(e' & [<-|He'] & H1 & H2)]; [auto|congruence|].
           right. exists e'. auto.
    + pose proof (compatible_not_outdated _ _ _ Hcomp) as Hno.
      cbn [filter]. rewrite Hmiss. split; [exact Hm|].
      intros line. rewrite Ho. split.
      * intros [H|(e' & He' & H)]; [auto|]. right. exists e'. simpl. auto.
      * intros [H|(e' & [<-|He'] & H1 & H2)]; [auto|congruence|].
        right. exists e'. auto.
    + pose proof (isOutdated_not_missing _ _ _ Hout) as Hnm.
      cbn [filter]. rewrite Hnm. split; [exact Hm|].
      intros line. rewrite Ho. cbn. rewrite in_app_iff. cbn. split.
      * intros [[H|[<-|[]]]|(e' & He' & H)]; [auto| |].
        -- right. exists e. auto.
        -- right. exists e'. auto.
      * intros [H|(e' & [<-|He'] & H1 & H2)]; [auto| |].
        -- left. right. left. congruence.
        -- right. exists e'. auto.
Qed.

Lemma checkExtra_loop_list required names r :
  extraPackages (fold_left (checkExtra required) names r)
  = (extraPackages r ++ filter (isExtra required) names)%list.
Proof.
  revert r. induction names as [|n names IH]; intros r; simpl.
  - now rewrite app_nil_r.
  - rewrite IH. unfold checkExtra, isExtra.
    destruct (negb (JS.truthy (JS.at_ required n))); simpl;
      rewrite <- ?app_assoc; reflexivity.
Qed.

Lemma get_own (ap : string -> value) (o : JS.object) (n : string) (v : value) :
  JS.lookup n (JS.own o) = Some v -> JS.get ap o n = v.
Proof. unfold JS.get. now intros ->. Qed.

(** What the [try] block returns, with the shape of the two maps. *)
Lemma checkDependencies_try_maps (ws : string) (w : Runtime)
      (out : DependencyCheckResult * option exn) :
  fst (checkDependencies_try ws fresh w) = inr out ->
  out = (setInvalid (pushError "package.json not found" fresh), None)
  \/ exists required installed,
       NoDup (JS.keys required)
       /\ NoDup (JS.keys (JS.own installed))
       /\ allTruthy (JS.own installed)
       /\ out = reconcile w required installed fresh.
Proof.
  unfold checkDependencies_try.
  rewrite fst_bind. cbn [Eff.pathJoin fst].
  rewrite fst_bind. cbn [Eff.fsExistsSync fst].
  destruct (existsSync w (path_join w [ws; "package.json"])); cbn [negb].
  - rewrite fst_bind.
    destruct (fst (Eff.fsReadFileSync _ w)) as [e|text]; [discriminate|].
    rewrite fst_bind.
    destruct (fst (Eff.jsonParse text w)) as [e|packageJson]; [discriminate|].
    rewrite fst_bind.
    destruct (fst (Eff.lift (requiredDependencies packageJson) w))
      as [e|required] eqn:Hreq; [discriminate|].
    rewrite fst_bind.
    destruct (fst (PackageManagerDetector.detectPackageManager ws w))
      as [e|pm]; [discriminate|].
    rewrite fst_bind.
    destruct (fst (PackageManagerDetector.getInstalledPackages ws pm w))
      as [e|installed] eqn:Hinst; [discriminate|].
    rewrite fst_bind. cbn [Eff.host Eff.ret fst].
    intros [= <-]. right. exists required, installed.
    split; [|split; [|split]]; [| | |reflexivity].
    + unfold Eff.lift, requiredDependencies in Hreq. cbn [fst] in Hreq.
      destruct (JS.getProp packageJson "dependencies"); [discriminate|].
      destruct (JS.getProp packageJson "devDependencies"); [discriminate|].
      injection Hreq as <-. unfold JS.spreadInto.
      apply NoDup_keys_spread, NoDup_keys_spread. constructor.
    + exact (DetectorMore.installed_NoDup _ _ _ _ Hinst).
    + exact (DetectorFacts.getInstalledPackages_allTruthy _ _ _ _ Hinst).
  - cbn [Eff.ret fst]. intros [= <-]. left. reflexivity.
Qed.

(** X10: [checkDependencies] always returns a result, with at most one
    error in it; and when there is an error the result is invalid and
    lists no extra package: the loop over the installed packages runs
    only when everything before it went through.  (What the first loop
    found before it threw stays in the result, next to the error.) *)
Theorem checkDependencies_error_ends_check (ws : string) (w : Runtime) :
  exists r,
    fst (checkDependencies ws w) = inr r
    /\ length (errors r) <= 1
    /\ (errors r <> [] -> isValid r = false /\ extraPackages r = []).
Proof.
  rewrite CheckerFacts.checkDependencies_value. eexists. split; [reflexivity|].
  destruct (fst (checkDependencies_try ws fresh w)) as [e|[r oe]] eqn:Htry.
  - cbn. auto.
  - destruct (CheckerFacts.checkDependencies_try_result ws w _ Htry)
      as [[= -> ->] | (required & installed & H)].
    + cbn. auto.
    + destruct (CheckerFacts.reconcile_fields w required installed fresh)
        as (Hs & _ & _ & _ & He).
      pose proof (requiredLoop_keeps w installed required fresh) as [Hk1 Hk2].
      rewrite <- H in Hs, He. cbn [fst snd] in Hs, He. rewrite Hk1 in He.
      cbn [errors fresh] in He.
      destruct oe as [e|].
      * unfold failed. cbn. rewrite He. cbn. split; [lia|]. intros _.
        split; [reflexivity|].
        unfold reconcile in H.
        destruct (JS.forEach (checkRequired w installed) required fresh)
          as [r1 [e1|]]; [|discriminate].
        injection H as -> _. exact Hk2.
      * rewrite He. cbn. split; [lia|]. congruence.
Qed.

Lemma NoDup_map_filter {X Y : Type} (f : X -> Y) (p : X -> bool) (l : list X) :
  NoDup (map f l) -> NoDup (map f (filter p l)).
Proof.
  induction l as [|x l IH]; simpl; intros H; [constructor|].
  inversion H as [|? ? Hx Hl]; subst.
  destruct (p x); simpl; [|now apply IH].
  constructor; [|now apply IH].
  intros Hin. apply Hx. apply in_map_iff in Hin as (y & <- & Hy).
  apply filter_In in Hy as [Hy _]. now apply in_map.
Qed.

(** The lists of the two loops, whether or not the first one threw. *)
Lemma reconcile_lists w required installed :
  exists done rest,
    required = (done ++ rest)%list
    /\ missingPackages (fst (reconcile w required installed fresh))
       = map fst (filter (isMissing w installed) done)
    /\ (extraPackages (fst (reconcile w required installed fresh)) = []
        \/ extraPackages (fst (reconcile w required installed fresh))
           = filter (isExtra required) (JS.keys (JS.own installed))).
Proof.
  destruct (forEach_prefix (checkRequired w installed) required fresh)
    as (done & rest & Hsplit & Hclean & _).
  exists done, rest. split; [exact Hsplit|].
  destruct (requiredLoop_clean _ _ _ _ _ Hclean) as (Hm & _).
  pose proof (requiredLoop_keeps w installed required fresh) as [_ Hx].
  unfold reconcile.
  destruct (JS.forEach (checkRequired w installed) required fresh) as [r1 [e|]];
    cbn [fst] in *.
  - split; [exact Hm|]. left. exact Hx.
  - destruct (CheckerFacts.checkExtra_loop_fields
                required (JS.keys (JS.own installed)) r1) as (_ & -> & _).
    split; [exact Hm|]. right. rewrite checkExtra_loop_list, Hx. reflexivity.
Qed.

Lemma NoDup_app_l {X : Type} (a b : list X) : NoDup (a ++ b) -> NoDup a.
Proof.
  induction a as [|x a IH]; simpl; intros H; [constructor|].
  inversion H as [|? ? Hx Ha]; subst. constructor; [|auto].
  intros Hin. apply Hx, in_or_app. auto.
Qed.

(** X11: in the result of [checkDependencies] no name is listed twice
    as missing, none twice as extra, and no name is both missing and
    extra. *)
Theorem checkDependencies_lists_without_repeats (ws : string) (w : Runtime) :
  exists r,
    fst (checkDependencies ws w) = inr r
    /\ NoDup (missingPackages r)
    /\ NoDup (extraPackages r)
    /\ (forall n, In n (missingPackages r) -> ~ In n (extraPackages r)).
Proof.
  rewrite CheckerFacts.checkDependencies_value. eexists. split; [reflexivity|].
  assert (Hnil : forall r, missingPackages r = [] -> extraPackages r = [] ->
                           NoDup (missingPackages r) /\ NoDup (extraPackages r)
                           /\ (forall n, In n (missingPackages r) ->
                                         ~ In n (extraPackages r))).
  { intros r -> ->. repeat split; try constructor. tauto. }
  destruct (fst (checkDependencies_try ws fresh w)) as [e|[r oe]] eqn:Htry.
  - now apply Hnil.
  - assert (Hr : NoDup (missingPackages r) /\ NoDup (extraPackages r)
                 /\ (forall n, In n (missingPackages r) -> ~ In n (extraPackages r))).
    { destruct (checkDependencies_try_maps ws w _ Htry)
        as [[= -> ->] | (required & installed & Hreq & Hinst & Ht & H)].
      - now apply Hnil.
      - destruct (reconcile_lists w required installed)
          as (done & rest & Hsplit & Hm & Hx).
        rewrite <- H in Hm, Hx. cbn [fst] in Hm, Hx.
        rewrite Hm. split; [|split].
        + apply NoDup_map_filter. unfold JS.keys in Hreq. rewrite Hsplit, map_app in Hreq.
          now apply NoDup_app_l in Hreq.
        + destruct Hx as [-> | ->]; [constructor|now apply NoDup_filter].
        + intros n Hmiss Hext. destruct Hx as [Hx|Hx]; rewrite Hx in Hext; [exact Hext|].
          apply in_map_iff in Hmiss as ([n' v] & <- & Hmiss).
          apply filter_In in Hmiss as [_ Hmiss]. apply filter_In in Hext as [Hext _].
          cbn [fst] in *. unfold isMissing, installedVersion in Hmiss. cbn [fst] in Hmiss.
          apply negb_true_iff in Hmiss.
          apply lookup_In_keys in Hext.
          destruct (JS.lookup n' (JS.own installed)) as [v'|] eqn:El; [|congruence].
          rewrite (get_own _ _ _ _ El) in Hmiss.
          pose proof (Ht n' v' (lookup_Some_In _ _ _ El)). congruence. }
    destruct oe as [e|]; exact Hr.
Qed.

(** *** Names no object inherits, values that are strings *)

Lemma inherited_at (n : string) : JS.truthy (JS.at_ [] n) = inheritedName n.
Proof.
  unfold JS.at_, JS.fromObjectPrototype, inheritedName, inheritedNames,
    JS.objectPrototypeMethods.
  cbn [JS.lookup existsb].
  repeat match goal with
         | |- context [String.eqb n ?s] => destruct (String.eqb n s); cbn
         end; reflexivity.
Qed.

Lemma ordinary_at (d : JS.dict value) (n : string) :
  inheritedName n = false ->
  JS.at_ d n = match JS.lookup n d with Some v => v | None => VUndef end.
Proof.
  intros H. rewrite <- inherited_at in H. unfold JS.at_ in *. cbn [JS.lookup] in H.
  destruct (JS.lookup n d); [reflexivity|].
  destruct (String.eqb n "__proto__"); [discriminate|].
  unfold JS.fromObjectPrototype in *.
  destruct (String.eqb n "constructor"); [discriminate|].
  destruct (existsb (String.eqb n) JS.objectPrototypeMethods); [discriminate|].
  reflexivity.
Qed.

Lemma ordinary_get (ap : string -> value) (d : JS.dict value) (n : string) :
  inheritedName n = false ->
  JS.get ap (JS.plain d) n = match JS.lookup n d with Some v => v | None => VUndef end.
Proof.
  intros H. rewrite <- (ordinary_at d n H). reflexivity.
Qed.

Lemma textual_truthy (d : JS.dict value) (n : string) :
  textual d ->
  JS.truthy (match JS.lookup n d with Some v => v | None => VUndef end) = true
  <-> In n (JS.keys d).
Proof.
  intros H. rewrite lookup_In_keys.
  destruct (JS.lookup n d) as [v|] eqn:E.
  - destruct (H n v (lookup_Some_In _ _ _ E)) as (s & -> & Hs).
    split; [discriminate|]. intros _. exact Hs.
  - split; [discriminate|congruence].
Qed.

Lemma forEach_total {S A : Type} (f : S -> A -> exn + S) (l : list A) (s : S) :
  (forall s0 x, In x l -> exists s1, f s0 x = inr s1) ->
  exists s', JS.forEach f l s = (s', None).
Proof.
  revert s. induction l as [|x l IH]; intros s H; cbn [JS.forEach]; [eauto|].
  destruct (H s x (or_introl eq_refl)) as (s1 & ->).
  apply IH. intros s0 y Hy. apply H. now right.
Qed.

(** With requirements and versions that are strings the first loop
    never throws. *)
Lemma checkRequired_textual w (installed : JS.dict value) r entry :
  (exists req, snd entry = VStr req) ->
  textual installed ->
  inheritedName (fst entry) = false ->
  exists r', checkRequired w (JS.plain installed) r entry = inr r'.
Proof.
  destruct entry as [n version]. cbn [fst snd]. intros (req & ->) Ht Hn.
  unfold checkRequired. rewrite (ordinary_get _ installed n Hn).
  destruct (JS.lookup n installed) as [v|] eqn:E; [|cbn; eauto].
  destruct (Ht n v (lookup_Some_In _ _ _ E)) as (inst & -> & Hs).
  cbn [JS.truthy]. rewrite Hs. cbn [negb].
  destruct (isVersionCompatible (semver_satisfies w) (VStr req) (VStr inst))
    as [e|[|]] eqn:Ec; [|eauto|cbn; eauto].
  rewrite CheckerFacts.isVersionCompatible_strings in Ec. discriminate.
Qed.

(** X12: when every declared requirement and every installed version is
    a non-empty string and no name is one that every object inherits,
    the two loops run to their end and sort the names as intended:
    missing are the declared names that are not installed, extra the
    installed names that are not declared, and every outdated line is
    about a package both declared and installed. *)
Theorem reconcile_partition (w : Runtime) (required installed : JS.dict value) :
  textual required ->
  textual installed ->
  ordinaryNames required ->
  ordinaryNames installed ->
  exists r,
    reconcile w required (JS.plain installed) fresh = (r, None)
    /\ (forall n, In n (missingPackages r)
                  <-> In n (JS.keys required) /\ ~ In n (JS.keys installed))
    /\ (forall n, In n (extraPackages r)
                  <-> In n (JS.keys installed) /\ ~ In n (JS.keys required))
    /\ (forall line, In line (outdatedPackages r) ->
          exists n req inst,
            In (n, VStr req) required
            /\ In (n, VStr inst) installed
            /\ line = n ++ "@" ++ inst ++ " (required: " ++ req ++ ")").
Proof.
  intros Hr Hi Hor Hoi.
  destruct (forEach_total (checkRequired w (JS.plain installed)) required fresh)
    as (r1 & Hclean).
  { intros r0 [n v] Hin. apply checkRequired_textual; [|exact Hi|].
    - destruct (Hr n v Hin) as (s & -> & _). cbn. eauto.
    - apply Hor. apply in_map_iff. exists (n, v). auto. }
  destruct (requiredLoop_clean _ _ _ _ _ Hclean) as (Hm & Ho).
  pose proof (requiredLoop_keeps w (JS.plain installed) required fresh) as [_ Hx].
  rewrite Hclean in Hx. cbn [fst] in Hx.
  unfold reconcile. rewrite Hclean. eexists. split; [reflexivity|].
  destruct (CheckerFacts.checkExtra_loop_fields
              required (JS.keys (JS.own (JS.plain installed))) r1)
    as (_ & -> & -> & _).
  rewrite checkExtra_loop_list, Hx, Hm. cbn [fresh missingPackages extraPackages app
                                             JS.plain JS.own].
  split; [|split].
  - intros n. rewrite in_map_iff. split.
    + intros ([n' v] & <- & H). apply filter_In in H as [H1 H2]. cbn [fst].
      assert (In n' (JS.keys required)) by (apply in_map_iff; exists (n', v); auto).
      split; [assumption|].
      unfold isMissing, installedVersion in H2. cbn [fst] in H2.
      rewrite (ordinary_get _ installed n' (Hor n' H)) in H2.
      apply negb_true_iff in H2. rewrite <- (textual_truthy installed n' Hi).
      congruence.
    + intros [H1 H2]. pose proof H1 as H1'.
      apply in_map_iff in H1 as ([n' v] & <- & H1).
      exists (n', v). split; [reflexivity|]. apply filter_In. split; [exact H1|].
      unfold isMissing, installedVersion. cbn [fst] in *.
      rewrite (ordinary_get _ installed n' (Hor n' H1')).
      apply negb_true_iff.
      destruct (JS.truthy _) eqn:E; [|reflexivity].
      exfalso. apply H2. now apply (textual_truthy installed n' Hi).
  - intros n. rewrite filter_In. unfold isExtra. rewrite negb_true_iff.
    split; intros [H1 H2]; (split; [exact H1|]);
      rewrite (ordinary_at required n (Hoi n H1)) in *.
    + rewrite <- (textual_truthy required n Hr). congruence.
    + destruct (JS.truthy _) eqn:E; [|reflexivity].
      exfalso. apply H2. now apply (textual_truthy required n Hr).
  - intros line H. apply Ho in H as [[]|([n v] & Hin & Hout & Hline)].
    cbn [fst snd] in *.
    assert (Hk : In n (JS.keys required)) by (apply in_map_iff; exists (n, v); auto).
    destruct (Hr n v Hin) as (req & -> & _).
    unfold isOutdated, installedVersion in Hout. unfold installedVersion in Hline.
    cbn [fst snd] in Hout.
    rewrite (ordinary_get _ installed n (Hor n Hk)) in Hout, Hline.
    apply andb_prop in Hout as [Hout _].
    destruct (JS.lookup n installed) as [v'|] eqn:E; [|discriminate].
    apply lookup_Some_In in E. destruct (Hi n v' E) as (inst & -> & _).
    exists n, req, inst. split; [exact Hin|]. split; [exact E|].
    unfold outdatedLine in Hline. cbn [JS.toString] in Hline.
    now injection Hline.
Qed.

Lemma textual_declared : textual Cases.declared.
Proof. intros n v [H|[H|[]]]; injection H as <- <-; eexists; split; reflexivity. Qed.

Lemma textual_installed : textual (JS.own Cases.installed).
Proof. intros n v [H|[H|[]]]; injection H as <- <-; eexists; split; reflexivity. Qed.

Lemma ordinary_declared : ordinaryNames Cases.declared.
Proof. intros n [<-|[<-|[]]]; reflexivity. Qed.

Lemma ordinary_installed : ordinaryNames (JS.own Cases.installed).
Proof. intros n [<-|[<-|[]]]; reflexivity. Qed.

Lemma reconcile_partition_witness :
  exists r,
    reconcile Scenario.noManifest Cases.declared Cases.installed fresh = (r, None)
    /\ In "chalk" (missingPackages r)
    /\ In "rimraf" (extraPackages r).
Proof.
  destruct (reconcile_partition Scenario.noManifest Cases.declared
              (JS.own Cases.installed)
              textual_declared textual_installed
              ordinary_declared ordinary_installed) as (r & Hrun & Hm & He & _).
  exists r. split; [exact Hrun|]. split.
  - apply Hm. simpl. split; [auto|]. intros [H|[H|[]]]; discriminate.
  - apply He. simpl. split; [auto|]. intros [H|[H|[]]]; discriminate.
Defined.

(** *** Validity of the loops *)

Lemma requiredLoop_valid w installed entries r r' :
  JS.forEach (checkRequired w installed) entries r = (r', None) ->
  isValid r' = true ->
  isValid r = true
  /\ forall e, In e entries ->
       JS.truthy (installedVersion w installed (fst e)) = true
       /\ isVersionCompatible (semver_satisfies w) (snd e)
            (installedVersion w installed (fst e)) = inr true.
Proof.
  revert r. induction entries as [|e entries IH]; intros r; cbn [JS.forEach].
  - intros [= <-] H. split; [exact H|]. intros e [].
  - destruct (checkRequired w installed r e) as [x|r1] eqn:Hc; [discriminate|].
    intros Hl Hv. destruct (IH r1 Hl Hv) as (Hv1 & Hall).
    destruct (CheckerFacts.checkRequired_cases _ _ _ _ _ Hc)
      as [(_ & ->)|[(Hmiss & Hcomp & ->)|(_ & line & _ & ->)]];
      [discriminate| |discriminate].
    split; [exact Hv1|]. intros e' [<-|He']; [|auto].
    unfold isMissing in Hmiss. apply negb_false_iff in Hmiss. auto.
Qed.

Lemma requiredLoop_all_accepted w installed entries r :
  (forall e, In e entries ->
     JS.truthy (installedVersion w installed (fst e)) = true
     /\ isVersionCompatible (semver_satisfies w) (snd e)
          (installedVersion w installed (fst e)) = inr true) ->
  JS.forEach (checkRequired w installed) entries r = (r, None).
Proof.
  induction entries as [|[n v] entries IH]; intros H; cbn [JS.forEach]; [reflexivity|].
  destruct (H (n, v) (or_introl eq_refl)) as [Ht Hc]. cbn [fst snd] in Ht, Hc.
  unfold checkRequired. fold (installedVersion w installed n).
  rewrite Ht, Hc. cbn [negb]. apply IH. intros e He. apply H. now right.
Qed.

(** X13: the two loops run to their end and leave the result valid
    exactly when, for every declared package, reading its name from the
    installed set gives a non-empty value that [isVersionCompatible]
    accepts. *)
Theorem reconcile_valid_iff (w : Runtime) (required : JS.dict value)
        (installed : PackageManagerDetector.InstalledSet) :
  (exists r, reconcile w required installed fresh = (r, None) /\ isValid r = true)
  <-> forall e, In e required ->
        JS.truthy (installedVersion w installed (fst e)) = true
        /\ isVersionCompatible (semver_satisfies w) (snd e)
             (installedVersion w installed (fst e)) = inr true.
Proof.
  split.
  - intros (r & Hrun & Hv).
    destruct (CheckerFacts.reconcile_fields w required installed fresh)
      as (Hs & Hf & _).
    rewrite Hrun in Hs, Hf. cbn [fst snd] in Hs, Hf.
    destruct (JS.forEach (checkRequired w installed) required fresh)
      as [r1 oe] eqn:Hl. cbn [fst snd] in Hs, Hf. subst oe.
    apply (requiredLoop_valid _ _ _ _ _ Hl). congruence.
  - intros H. unfold reconcile.
    rewrite (requiredLoop_all_accepted w installed required fresh H).
    eexists. split; [reflexivity|].
    now destruct (CheckerFacts.checkExtra_loop_fields
                    required (JS.keys (JS.own installed)) fresh) as (-> & _).
Qed.



(** *** The two empty cases *)

Lemma allMissing_loop w (d : JS.dict value) (r : DependencyCheckResult) :
  ordinaryNames d ->
  JS.forEach (checkRequired w JS.emptyObject) d r
  = ({| isValid := match d with [] => isValid r | _ => false end;
        missingPackages := (missingPackages r ++ JS.keys d)%list;
        extraPackages := extraPackages r;
        outdatedPackages := outdatedPackages r;
        errors := errors r |},
     None).
Proof.
  revert r. induction d as [|[n v] d IH]; intros r Ho; cbn [JS.forEach].
  - destruct r. cbn. now rewrite app_nil_r.
  - assert (Hn : inheritedName n = false) by (apply Ho; simpl; auto).
    unfold checkRequired, JS.emptyObject. rewrite (ordinary_get _ [] n Hn).
    cbn [JS.lookup JS.truthy negb].
    rewrite IH by (intros k Hk; apply Ho; simpl; auto).
    cbn. rewrite <- app_assoc. destruct d; reflexivity.
Qed.

Lemma filter_ext_names (f g : string -> bool) (l : list string) :
  (forall n, f n = g n) -> filter f l = filter g l.
Proof.
  intros H. induction l as [|x l IH]; simpl; [reflexivity|]. now rewrite H, IH.
Qed.

(** X15: the two empty cases.  With nothing declared the result is valid
    and the extra packages are the installed names, but for those that
    every object inherits (such a name reads as declared).  With nothing
    installed, and no declared name among those that every object
    inherits, every declared package is missing, in the manifest's
    order, nothing is extra or outdated, and the result is valid only
    if nothing was declared. *)
Theorem reconcile_empty_cases (w : Runtime) (d : JS.dict value)
        (installed : PackageManagerDetector.InstalledSet) :
  reconcile w [] installed fresh
  = ({| isValid := true;
        missingPackages := [];
        extraPackages :=
          filter (fun n => negb (inheritedName n)) (JS.keys (JS.own installed));
        outdatedPackages := [];
        errors := [] |},
     None)
  /\ (ordinaryNames d ->
      reconcile w d JS.emptyObject fresh
      = ({| isValid := match d with [] => true | _ => false end;
            missingPackages := JS.keys d;
            extraPackages := [];
            outdatedPackages := [];
            errors := [] |},
         None)).
Proof.
  split.
  - unfold reconcile. cbn [JS.forEach]. f_equal.
    pose proof (checkExtra_loop_list [] (JS.keys (JS.own installed)) fresh) as He.
    destruct (CheckerFacts.checkExtra_loop_fields [] (JS.keys (JS.own installed)) fresh)
      as (Hv & Hm & Ho & Her).
    rewrite (filter_ext_names (isExtra []) (fun n => negb (inheritedName n))) in He
      by (intros n; unfold isExtra; now rewrite inherited_at).
    destruct (fold_left (checkExtra []) (JS.keys (JS.own installed)) fresh).
    cbn in *. now subst.
  - intros Ho. unfold reconcile. rewrite (allMissing_loop w d fresh Ho). reflexivity.
Qed.

End CheckerMore.

(* ===================================================================== *)
(** ** Further properties: GitMonitor *)
(* ===================================================================== *)

Module GitMore.

Import GitMonitor Spec.

Lemma noRepeat_nonEmpty (previous : string) (l : list string) :
  noRepeat previous l -> forall x, In x l -> x <> EmptyString.
Proof.
  revert previous. induction l as [|y l IH]; simpl; intros previous H x Hx; [tauto|].
  destruct H as (_ & Hy & Hl). destruct Hx as [<-|Hx]; [exact Hy|].
  exact (IH y Hl x Hx).
Qed.

Lemma last_In (l : list string) (x d : string) : In (last (x :: l) d) (x :: l).
Proof.
  revert x. induction l as [|y l IH]; intros x; [simpl; auto|].
  right. apply IH.
Qed.

(** X16: over any sequence of change notifications the stored branch is
    the value fired last, or the branch stored at the start when nothing
    was fired; once a branch is stored it never goes back to empty. *)
Theorem handle_tracks_last_fired (ws : string) (hosts : list Runtime) (st : state) :
  exists news,
    fired (handle ws hosts st) = (fired st ++ news)%list
    /\ currentBranch (handle ws hosts st) = last news (currentBranch st)
    /\ (currentBranch st <> EmptyString ->
        currentBranch (handle ws hosts st) <> EmptyString).
Proof.
  destruct (GitMonitorFacts.handle_fired ws hosts st) as (news & Hf & Hn & Hc).
  exists news. split; [exact Hf|]. split; [exact Hc|].
  intros Hs. rewrite Hc. destruct news as [|x news]; [exact Hs|].
  apply (noRepeat_nonEmpty _ _ Hn). apply last_In.
Qed.

(** X17: when the constructor found a repository and set up its
    watchers, it has fired nothing, and a change notification that
    arrives while the head is as it was then fires nothing either: the
    branch found at start-up is never announced. *)
Theorem setup_then_unchanged_head_is_quiet
        (ws : string) (others : list string) (w : Runtime) (m : GitSetup.monitor) :
  fst (GitSetup.setupGitMonitoring (Some (ws :: others)) w) = inr m ->
  GitSetup.watching m <> [] ->
  fired (GitSetup.tracking m) = []
  /\ fst (checkBranchChange ws (GitSetup.tracking m) w) = inr (GitSetup.tracking m).
Proof.
  unfold GitSetup.setupGitMonitoring.
  rewrite fst_bind. cbn [Eff.pathJoin fst].
  rewrite fst_bind. cbn [Eff.fsExistsSync fst].
  destruct (existsSync w (path_join w [ws; ".git"])); cbn [negb].
  - rewrite fst_bind.
    destruct (GitMonitorFacts.getCurrentBranch_trace ws w) as (b & t & Hb).
    rewrite Hb. cbn [fst Eff.ret]. intros [= <-] _. cbn [GitSetup.tracking fired].
    split; [reflexivity|].
    destruct (GitMonitorFacts.checkBranchChange_update
                ws {| currentBranch := b; fired := [] |} w) as (b' & t' & Hb' & ->).
    rewrite Hb in Hb'. injection Hb' as <- <-. cbn [fst]. f_equal.
    unfold update. cbn [currentBranch].
    now rewrite String.eqb_refl, andb_false_r.
  - cbn [Eff.ret fst]. intros [= <-]. simpl. congruence.
Qed.

Lemma setup_then_unchanged_head_is_quiet_witness :
  fst (GitSetup.setupGitMonitoring (Some ["/ws"]) Cases.onMain)
  = inr {| GitSetup.tracking := {| currentBranch := "main"; fired := [] |};
           GitSetup.watching := ["**/.git/HEAD"; "**/.git/refs/heads/*"] |}
  /\ fst (checkBranchChange "/ws" {| currentBranch := "main"; fired := [] |}
                            Cases.onMain)
     = inr {| currentBranch := "main"; fired := [] |}.
Proof.
  split; [reflexivity|].
  apply (setup_then_unchanged_head_is_quiet
           "/ws" [] Cases.onMain
           {| GitSetup.tracking := {| currentBranch := "main"; fired := [] |};
              GitSetup.watching := ["**/.git/HEAD"; "**/.git/refs/heads/*"] |}).
  - reflexivity.
  - discriminate.
Defined.

End GitMore.

(* ===================================================================== *)
(** ** Further properties: clean install *)
(* ===================================================================== *)

Module InstallerFacts.

Import PackageManagerDetector Installer Terms.

(** Every run of [cleanInstall], case by case. *)
Lemma cleanInstall_run (ws pm : string) (h : InstallHost) :
  cleanInstall ws pm h
  = match getPackageManagerInfo pm with
    | inl e => (inl e, [])
    | inr info =>
        let cfg := AConfigGet "deleteNodeModulesOnCleanInstall" in
        let probe := AHost (EvExists (nodeModules h ws)) in
        let spawn := ASpawn (cleanInstallCommand info) ws in
        let outcome := fst (executeCommand (cleanInstallCommand info) ws h) in
        if deleteFirst h
        then
          if existsSync (runtime h) (nodeModules h ws)
          then match fs_rm h (nodeModules h ws) with
               | Some err => (inl err, [cfg; probe; ARemove (nodeModules h ws)])
               | None => (outcome, [cfg; probe; ARemove (nodeModules h ws); spawn])
               end
          else (outcome, [cfg; probe; spawn])
        else (outcome, [cfg; spawn])
    end.
Proof.
  unfold cleanInstall, Run.bind, Run.lift, configGetDelete, deleteFirst, nodeModules.
  destruct (getPackageManagerInfo pm) as [e|info]; [reflexivity|].
  cbv beta iota zeta.
  destruct (deleteNodeModulesOnCleanInstall h) as [[|]|]; cbv beta iota zeta.
  - unfold Run.bind, ofEff, Run.embed, Eff.pathJoin, Eff.fsExistsSync, Run.ret,
      deleteDirectory, executeCommand.
    cbv beta iota zeta. cbn [map app].
    destruct (existsSync (runtime h) (path_join (runtime h) [ws; "node_modules"]));
      cbv beta iota zeta; cbn [map app].
    + destruct (fs_rm h (path_join (runtime h) [ws; "node_modules"]));
        reflexivity.
    + reflexivity.
  - reflexivity.
  - reflexivity.
Qed.

(** X18: a clean install succeeds exactly when the manager is known,
    the removal of [node_modules] (made only if the setting is on and
    the directory exists) did not fail, and the manager's clean-install
    command ended with exit code 0. *)
Theorem cleanInstall_succeeds_iff (ws pm : string) (h : InstallHost) :
  fst (cleanInstall ws pm h) = inr tt
  <-> exists info,
        getPackageManagerInfo pm = inr info
        /\ (removesFirst h ws = true -> fs_rm h (nodeModules h ws) = None)
        /\ closeCode h (cleanInstallCommand info) ws = Some 0%Z.
Proof.
  rewrite cleanInstall_run. unfold removesFirst.
  destruct (getPackageManagerInfo pm) as [e|info].
  - split; [discriminate|]. intros (info & H & _). discriminate.
  - cbv zeta.
    assert (Hout : fst (executeCommand (cleanInstallCommand info) ws h) = inr tt
                   <-> closeCode h (cleanInstallCommand info) ws = Some 0%Z).
    { unfold executeCommand. cbn [fst].
      destruct (closeCode h (cleanInstallCommand info) ws) as [[|c|c]|];
        cbv iota; split; intros H; try reflexivity; discriminate. }
    destruct (deleteFirst h); cbn [andb].
    + destruct (existsSync (runtime h) (nodeModules h ws)).
      * destruct (fs_rm h (nodeModules h ws)) as [err|]; cbn [fst].
        -- split; [discriminate|]. intros (info' & _ & H & _).
           specialize (H eq_refl). discriminate.
        -- rewrite Hout. split.
           ++ intros H. exists info. auto.
           ++ intros (info' & [= <-] & _ & H). exact H.
      * cbn [fst]. rewrite Hout. split.
        -- intros H. exists info. split; [reflexivity|]. split; [discriminate|exact H].
        -- intros (info' & [= <-] & _ & H). exact H.
    + cbn [fst]. rewrite Hout. split.
      * intros H. exists info. split; [reflexivity|]. split; [discriminate|exact H].
      * intros (info' & [= <-] & _ & H). exact H.
Qed.

(** X19: what a clean install changes on disk.  For an unknown manager
    nothing is removed and nothing is run.  Otherwise [node_modules] is
    removed only if the setting is on and the directory exists, and
    before anything is run; the only command ever run is the manager's
    own clean-install command, in the workspace, and it is not run when
    the removal failed. *)
Theorem cleanInstall_changes (ws pm : string) (h : InstallHost) :
  changesOf (snd (cleanInstall ws pm h))
  = match getPackageManagerInfo pm with
    | inl _ => []
    | inr info =>
        if removesFirst h ws
        then match fs_rm h (nodeModules h ws) with
             | Some _ => [ARemove (nodeModules h ws)]
             | None => [ARemove (nodeModules h ws);
                        ASpawn (cleanInstallCommand info) ws]
             end
        else [ASpawn (cleanInstallCommand info) ws]
    end.
Proof.
  rewrite cleanInstall_run. unfold removesFirst.
  destruct (getPackageManagerInfo pm) as [e|info]; [reflexivity|]. cbv zeta.
  destruct (deleteFirst h); cbn [andb]; [|reflexivity].
  destruct (existsSync (runtime h) (nodeModules h ws)); [|reflexivity].
  destruct (fs_rm h (nodeModules h ws)); reflexivity.
Qed.

End InstallerFacts.

(* ===================================================================== *)
(** ** Further properties: the commands *)
(* ===================================================================== *)

Module ExtensionFacts.

Import Terms.

Lemma messages_app (a b : list Step) :
  messages (a ++ b) = (messages a ++ messages b)%list.
Proof. apply filter_app. Qed.

Lemma messages_actions (t : list Action) : messages (map SAction t) = [].
Proof. induction t as [|a t IH]; simpl; auto. Qed.

Lemma messages_events (t : list Event) :
  messages (map (fun e => SAction (AHost e)) t) = [].
Proof. induction t as [|a t IH]; simpl; auto. Qed.

Lemma messages_bar (ed : Editor) (text : string) (l : list Step) :
  messages (bar ed text :: l) = messages l.
Proof. reflexivity. Qed.

Lemma started_app (a b : list Step) :
  started (a ++ b) = (started a ++ started b)%list.
Proof. apply flat_map_app. Qed.

Lemma started_events (t : list Event) :
  started (map (fun e => SAction (AHost e)) t) = flat_map startedBy t.
Proof. induction t as [|a t IH]; simpl; [reflexivity|]. now rewrite IH. Qed.

Lemma started_actions (t : list Action) :
  started (map SAction t) = flat_map startedIn t.
Proof. induction t as [|a t IH]; simpl; [reflexivity|]. now rewrite IH. Qed.

Lemma started_bar (ed : Editor) (text : string) (l : list Step) :
  started (bar ed text :: l) = started l.
Proof. reflexivity. Qed.

Lemma removed_app (a b : list Step) :
  removed (a ++ b) = (removed a ++ removed b)%list.
Proof. apply flat_map_app. Qed.

Lemma removed_events (t : list Event) :
  removed (map (fun e => SAction (AHost e)) t) = [].
Proof. induction t as [|a t IH]; simpl; auto. Qed.

Lemma removed_bar (ed : Editor) (text : string) (l : list Step) :
  removed (bar ed text :: l) = removed l.
Proof. reflexivity. Qed.

(** *** The commands each method starts *)

(** Detection starts nothing but version queries. *)
Lemma detect_asks (ws : string) (w : Runtime) (c : string * option string) :
  In c (flat_map startedBy
          (snd (PackageManagerDetector.detectPackageManager ws w))) ->
  In (fst c) versionQueries /\ snd c = None.
Proof.
  unfold PackageManagerDetector.detectPackageManager,
    PackageManagerDetector.packageManagers.
  cbn [PackageManagerDetector.lockFileLoop PackageManagerDetector.availabilityLoop
       PackageManagerDetector.lockFile PackageManagerDetector.name].
  unfold Eff.bind, Eff.tryCatch, Eff.configGetPreferred, Eff.pathJoin,
    Eff.fsExistsSync, Eff.exec, Eff.ret.
  cbv beta iota zeta.
  destruct (negb _); [simpl; tauto|]. cbv beta iota zeta.
  destruct (existsSync w _); [simpl; tauto|]. cbv beta iota zeta.
  destruct (existsSync w _); [simpl; tauto|]. cbv beta iota zeta.
  destruct (existsSync w _); [simpl; tauto|]. cbv beta iota zeta.
  unfold versionQueries.
  destruct (execAsync w _ None); cbv beta iota zeta;
    [|simpl; intros [<-|[]]; simpl; auto].
  destruct (execAsync w _ None); cbv beta iota zeta;
    [|simpl; intros [<-|[<-|[]]]; simpl; auto].
  destruct (execAsync w _ None); cbv beta iota zeta;
    simpl; intros [<-|[<-|[<-|[]]]]; simpl; auto.
Qed.

Lemma info_in_table (pm : string) (info : PackageManagerDetector.PackageManagerInfo) :
  PackageManagerDetector.getPackageManagerInfo pm = inr info ->
  In info PackageManagerDetector.packageManagers.
Proof.
  unfold PackageManagerDetector.getPackageManagerInfo.
  destruct (find _ _) as [found|] eqn:Hf; [|discriminate].
  intros [= <-]. now apply find_some in Hf.
Qed.

Lemma listCommand_known (info : PackageManagerDetector.PackageManagerInfo) :
  In info PackageManagerDetector.packageManagers ->
  In (PackageManagerDetector.listCommand info) listCommands
  /\ In (PackageManagerDetector.fallbackCommand
           (PackageManagerDetector.listCommand info))
        (map PackageManagerDetector.fallbackCommand listCommands)
  /\ In (PackageManagerDetector.cleanInstallCommand info) cleanInstallCommands.
Proof.
  intros [<-|[<-|[<-|[]]]]; repeat split; simpl; auto.
Qed.

(** Listing the installed packages starts nothing but a list command
    and its shell form, in the workspace. *)
Lemma installed_asks (ws pm : string) (w : Runtime) (c : string * option string) :
  In c (flat_map startedBy
          (snd (PackageManagerDetector.getInstalledPackages ws pm w))) ->
  (In (fst c) listCommands
   \/ In (fst c) (map PackageManagerDetector.fallbackCommand listCommands))
  /\ snd c = Some ws.
Proof.
  unfold PackageManagerDetector.getInstalledPackages, Eff.bind, Eff.lift,
    Eff.tryCatch, Eff.exec.
  destruct (PackageManagerDetector.getPackageManagerInfo pm) as [e|info] eqn:Hi;
    [simpl; tauto|].
  apply info_in_table, listCommand_known in Hi as (H1 & H2 & _).
  cbv beta iota zeta.
  assert (Hp : forall out, snd (PackageManagerDetector.parseInstalled pm out w) = []).
  { intros out. unfold PackageManagerDetector.parseInstalled.
    destruct (JSON_parse w out); reflexivity. }
  destruct (execAsync w (PackageManagerDetector.listCommand info) (Some ws)) as [e|out].
  - destruct (execAsync w _ (Some ws)) as [e'|out']; cbv beta iota zeta.
    + simpl. intros [<-|[<-|[]]]; simpl; auto.
    + rewrite (surjective_pairing (PackageManagerDetector.parseInstalled pm out' w)), Hp.
      simpl. intros [<-|[<-|[]]]; simpl; auto.
  - rewrite (surjective_pairing (PackageManagerDetector.parseInstalled pm out w)), Hp.
    simpl. intros [<-|[]]; simpl; auto.
Qed.

(** A check starts nothing but commands that only ask. *)
Lemma check_asks (ws : string) (w : Runtime) (c : string * option string) :
  In c (flat_map startedBy (snd (DependencyChecker.checkDependencies ws w))) ->
  asksOnly ws c.
Proof.
  unfold DependencyChecker.checkDependencies.
  rewrite snd_bind, snd_tryCatch, !flat_map_app, !in_app_iff.
  intros [[H|H]|H].
  - revert H. unfold DependencyChecker.checkDependencies_try.
    rewrite snd_bind. cbn [Eff.pathJoin fst snd app].
    rewrite snd_bind. cbn [Eff.fsExistsSync fst snd app flat_map startedBy].
    destruct (negb _); [simpl; tauto|].
    rewrite snd_bind. cbn [Eff.fsReadFileSync fst snd app flat_map startedBy].
    destruct (readFileSync w _) as [e|text]; [simpl; tauto|].
    rewrite snd_bind. cbn [Eff.jsonParse fst snd app].
    destruct (JSON_parse w text) as [e|packageJson]; [simpl; tauto|].
    rewrite snd_bind. cbn [Eff.lift fst snd app].
    destruct (DependencyChecker.requiredDependencies packageJson) as [e|required];
      [simpl; tauto|].
    rewrite snd_bind, flat_map_app, in_app_iff. intros [H|H].
    + left. now apply detect_asks in H.
    + destruct (fst (PackageManagerDetector.detectPackageManager ws w)) as [e|pm];
        [simpl in H; tauto|].
      rewrite snd_bind, flat_map_app, in_app_iff in H. destruct H as [H|H].
      * right. now apply installed_asks in H.
      * destruct (fst (PackageManagerDetector.getInstalledPackages ws pm w));
          simpl in H; tauto.
  - destruct (fst (DependencyChecker.checkDependencies_try _ _ w)); simpl in H; tauto.
  - rewrite fst_tryCatch in H.
    destruct (fst (DependencyChecker.checkDependencies_try _ _ w)) as [e|[r [e|]]];
      simpl in H; tauto.
Qed.

(** A clean install starts nothing but the manager's clean-install
    command, in the workspace, and removes nothing but [node_modules]
    there. *)
Lemma install_starts (ws pm : string) (h : InstallHost) (c : string * option string) :
  In c (flat_map startedIn (snd (Installer.cleanInstall ws pm h))) ->
  In (fst c) cleanInstallCommands /\ snd c = Some ws.
Proof.
  rewrite InstallerFacts.cleanInstall_run.
  destruct (PackageManagerDetector.getPackageManagerInfo pm) as [e|info] eqn:Hi;
    [simpl; tauto|].
  apply info_in_table, listCommand_known in Hi as (_ & _ & Hi). cbv zeta.
  destruct (deleteFirst h).
  - destruct (existsSync (runtime h) (nodeModules h ws)).
    + destruct (fs_rm h (nodeModules h ws)); simpl; [tauto|].
      intros [<-|[]]. auto.
    + simpl. intros [<-|[]]. auto.
  - simpl. intros [<-|[]]. auto.
Qed.

Lemma install_removes (ws pm : string) (h : InstallHost) (p : string) :
  In (SAction (ARemove p)) (map SAction (snd (Installer.cleanInstall ws pm h))) ->
  p = nodeModules h ws.
Proof.
  rewrite InstallerFacts.cleanInstall_run.
  destruct (PackageManagerDetector.getPackageManagerInfo pm) as [e|info];
    [simpl; tauto|].
  cbv zeta.
  destruct (deleteFirst h).
  - destruct (existsSync (runtime h) (nodeModules h ws)).
    + destruct (fs_rm h (nodeModules h ws)); simpl;
        intuition (try discriminate); congruence.
    + simpl. intuition (try discriminate).
  - simpl. intuition (try discriminate).
Qed.

Lemma removed_actions (t : list Action) (p : string) :
  In p (removed (map SAction t)) <-> In (SAction (ARemove p)) (map SAction t).
Proof.
  induction t as [|a t IH]; simpl; [tauto|].
  rewrite in_app_iff, IH. destruct a; simpl; intuition (try discriminate); congruence.
Qed.

(** Every run of the clean-install command, case by case. *)
Lemma cleanInstall_command_run (ed : Editor) :
  Extension.cleanInstall ed
  = match workspaceFolders ed with
    | None => (inr tt, [SError "No workspace folder found"])
    | Some [] =>
        (inr tt,
         [bar ed "$(sync~spin) Installing dependencies...";
          bar ed "$(error) Install failed";
          SError ("Failed to install dependencies: "
                    ++ "TypeError: Cannot read properties of undefined (reading 'uri')")])
    | Some (ws :: _) =>
        let detection :=
          PackageManagerDetector.detectPackageManager ws (runtime (installHost ed)) in
        let detected := map (fun e => SAction (AHost e)) (snd detection) in
        match fst detection with
        | inl e =>
            (inr tt,
             (bar ed "$(sync~spin) Installing dependencies..." :: detected
              ++ [bar ed "$(error) Install failed";
                  SError ("Failed to install dependencies: " ++ exn_to_string e)])%list)
        | inr pm =>
            let install := Installer.cleanInstall ws pm (installHost ed) in
            let installed := map SAction (snd install) in
            match fst install with
            | inl e =>
                (inr tt,
                 (bar ed "$(sync~spin) Installing dependencies..." :: detected
                  ++ installed
                  ++ [bar ed "$(error) Install failed";
                      SError ("Failed to install dependencies: " ++ exn_to_string e)])%list)
            | inr _ =>
                (inr tt,
                 (bar ed "$(sync~spin) Installing dependencies..." :: detected
                  ++ installed
                  ++ [bar ed "$(check) Dependencies installed";
                      SInformation "Dependencies successfully installed!"])%list)
            end
        end
    end.
Proof.
  unfold Extension.cleanInstall, Run.bind, Run.tryCatch, Extension.hasWorkspaceFolders,
    Extension.firstFolder, Extension.updateStatusBar, Extension.showErrorMessage,
    Extension.showInformationMessage, Run.emit, Extension.ofEff, Extension.ofAct,
    Run.embed, bar.
  cbv beta.
  destruct (workspaceFolders ed) as [[|ws rest]|] eqn:Hw;
    cbv beta iota zeta; cbn [negb]; cbv beta iota zeta; rewrite ?Hw;
    [reflexivity| |reflexivity].
  cbv beta iota zeta.
  destruct (PackageManagerDetector.detectPackageManager ws (runtime (installHost ed)))
    as [[e|pm] t]; cbv beta iota zeta; cbn [fst snd app].
  - rewrite ?app_nil_r. reflexivity.
  - destruct (Installer.cleanInstall ws pm (installHost ed)) as [[e|[]] t2];
      cbv beta iota zeta; cbn [fst snd app];
      rewrite ?app_nil_r, <- ?app_assoc; reflexivity.
Qed.

(** X20: the clean-install command never raises and always ends by
    telling the user one thing: that the dependencies were installed,
    which it says only after a clean install that succeeded, or an
    error. *)
Theorem cleanInstall_command_reports_once (ed : Editor) :
  exists steps,
    Extension.cleanInstall ed = (inr tt, steps)
    /\ (messages steps = [SInformation "Dependencies successfully installed!"]
        /\ (exists ws others pm,
              workspaceFolders ed = Some (ws :: others)
              /\ fst (PackageManagerDetector.detectPackageManager
                        ws (runtime (installHost ed))) = inr pm
              /\ fst (Installer.cleanInstall ws pm (installHost ed)) = inr tt)
        \/ exists text, messages steps = [SError text]).
Proof.
  rewrite cleanInstall_command_run.
  destruct (workspaceFolders ed) as [[|ws rest]|] eqn:Hw.
  - eexists. split; [reflexivity|]. right. eexists. reflexivity.
  - cbv zeta.
    destruct (fst (PackageManagerDetector.detectPackageManager _ _)) as [e|pm] eqn:Hd.
    + eexists. split; [reflexivity|]. right. eexists.
      rewrite messages_bar, messages_app, messages_events. reflexivity.
    + destruct (fst (Installer.cleanInstall ws pm (installHost ed))) as [e|[]] eqn:Hi.
      * eexists. split; [reflexivity|]. right. eexists.
        rewrite messages_bar, !messages_app, messages_events, messages_actions.
        reflexivity.
      * eexists. split; [reflexivity|]. left. split.
        -- rewrite messages_bar, !messages_app, messages_events, messages_actions.
           reflexivity.
        -- exists ws, rest, pm. auto.
  - eexists. split; [reflexivity|]. right. eexists. reflexivity.
Qed.

Lemma cleanInstall_command_total (ed : Editor) :
  fst (Extension.cleanInstall ed) = inr tt.
Proof.
  rewrite cleanInstall_command_run.
  destruct (workspaceFolders ed) as [[|ws rest]|]; try reflexivity. cbv zeta.
  destruct (fst (PackageManagerDetector.detectPackageManager _ _)); [reflexivity|].
  destruct (fst (Installer.cleanInstall _ _ _)); reflexivity.
Qed.

(** Every run of the check command in an open folder, case by case. *)
Lemma checkDependencies_command_run (ed : Editor) (ws : string) (others : list string) :
  workspaceFolders ed = Some (ws :: others) ->
  let check := DependencyChecker.checkDependencies ws (runtime (installHost ed)) in
  let checked := map (fun e => SAction (AHost e)) (snd check) in
  Extension.checkDependencies ed
  = match fst check with
    | inl e =>
        (inr tt,
         (bar ed "$(sync~spin) Checking dependencies..." :: checked
          ++ [bar ed "$(error) Check failed";
              SError ("Failed to check dependencies: " ++ exn_to_string e)])%list)
    | inr r =>
        if DependencyChecker.isValid r
        then
          (inr tt,
           (bar ed "$(sync~spin) Checking dependencies..." :: checked
            ++ [bar ed "$(check) Dependencies OK";
                SInformation "Dependencies are up to date!"])%list)
        else
          (inr tt,
           (bar ed "$(sync~spin) Checking dependencies..." :: checked
            ++ bar ed "$(warning) Dependencies out of sync"
            :: SWarning (Extension.outOfSyncMessage r) offered
            :: (if picksCleanInstall ed (Extension.outOfSyncMessage r)
                then snd (Extension.cleanInstall ed) else []))%list)
    end.
Proof.
  intros Hw. cbv zeta.
  unfold Extension.checkDependencies, Run.bind, Run.tryCatch,
    Extension.hasWorkspaceFolders, Extension.firstFolder, Extension.updateStatusBar,
    Extension.showErrorMessage, Extension.showInformationMessage,
    Extension.showWarningMessage, Run.emit, Run.ret, Extension.ofEff, Run.embed,
    bar, picksCleanInstall, offered.
  cbv beta. rewrite Hw. cbv beta iota zeta. cbn [negb]. cbv beta iota zeta.
  rewrite ?Hw. cbv beta iota zeta.
  destruct (DependencyChecker.checkDependencies ws (runtime (installHost ed)))
    as [[e|r] t]; cbv beta iota zeta; cbn [fst snd app].
  - rewrite ?app_nil_r. reflexivity.
  - destruct (DependencyChecker.isValid r); cbv beta iota zeta; cbn [fst snd app].
    + rewrite ?app_nil_r, <- ?app_assoc. reflexivity.
    + destruct (pickWarning ed (Extension.outOfSyncMessage r) ["Clean Install"; "Ignore"])
        as [choice|]; cbv beta iota zeta.
      * destruct (String.eqb choice "Clean Install"); cbv beta iota zeta.
        -- rewrite (surjective_pairing (Extension.cleanInstall ed)),
             cleanInstall_command_total.
           cbn [fst snd app]. rewrite <- ?app_assoc. reflexivity.
        -- cbn [fst snd app]. rewrite ?app_nil_r, <- ?app_assoc. reflexivity.
      * cbn [fst snd app]. rewrite ?app_nil_r, <- ?app_assoc. reflexivity.
Qed.

(** What the clean-install command starts and removes. *)
Lemma cleanInstall_command_effects (ed : Editor) :
  (forall c, In c (started (snd (Extension.cleanInstall ed))) ->
     exists ws others,
       workspaceFolders ed = Some (ws :: others)
       /\ ((In (fst c) versionQueries /\ snd c = None)
           \/ (In (fst c) cleanInstallCommands /\ snd c = Some ws)))
  /\ (forall p, In p (removed (snd (Extension.cleanInstall ed))) ->
        exists ws others,
          workspaceFolders ed = Some (ws :: others)
          /\ p = nodeModules (installHost ed) ws).
Proof.
  rewrite cleanInstall_command_run.
  destruct (workspaceFolders ed) as [[|ws rest]|]; [simpl; split; tauto| |simpl; split; tauto].
  cbv zeta.
  destruct (fst (PackageManagerDetector.detectPackageManager _ _)) as [e|pm].
  - cbn [snd]. rewrite started_bar, removed_bar, started_app, removed_app,
      started_events, removed_events. split.
    + intros c H. apply in_app_or in H as [H|H]; [|simpl in H; tauto].
      exists ws, rest. split; [reflexivity|]. left. now apply detect_asks in H.
    + simpl. tauto.
  - assert (S : forall c tail,
               started tail = [] ->
               In c (started
                       (map (fun e => SAction (AHost e))
                            (snd (PackageManagerDetector.detectPackageManager
                                    ws (runtime (installHost ed))))
                        ++ map SAction (snd (Installer.cleanInstall ws pm (installHost ed)))
                        ++ tail)) ->
               exists ws0 others,
                 Some (ws :: rest) = Some (ws0 :: others)
                 /\ ((In (fst c) versionQueries /\ snd c = None)
                     \/ (In (fst c) cleanInstallCommands /\ snd c = Some ws0))).
    { intros c tail Ht. rewrite !started_app, started_events, started_actions, Ht,
        app_nil_r. intros H. exists ws, rest. split; [reflexivity|].
      apply in_app_or in H as [H|H].
      - left. now apply detect_asks in H.
      - right. now apply install_starts in H. }
    assert (R : forall p tail,
               removed tail = [] ->
               In p (removed
                       (map (fun e => SAction (AHost e))
                            (snd (PackageManagerDetector.detectPackageManager
                                    ws (runtime (installHost ed))))
                        ++ map SAction (snd (Installer.cleanInstall ws pm (installHost ed)))
                        ++ tail)) ->
               exists ws0 others,
                 Some (ws :: rest) = Some (ws0 :: others)
                 /\ p = nodeModules (installHost ed) ws0).
    { intros p tail Ht. rewrite !removed_app, removed_events, Ht, app_nil_r.
      cbn [app]. intros H. exists ws, rest. split; [reflexivity|].
      apply removed_actions in H. now apply install_removes in H. }
    destruct (fst (Installer.cleanInstall ws pm (installHost ed))) as [e|u];
      cbn [snd]; rewrite started_bar, removed_bar; split; intros x H;
      first [ refine (S x _ _ H); reflexivity | refine (R x _ _ H); reflexivity ].
Qed.

(** X21: in an open folder the check command never raises.  After a
    valid check it only says that the dependencies are up to date; after
    an invalid one its first message is the out-of-sync warning offering
    a clean install.  Unless the user picks the clean install, that is
    the only message, nothing is removed, and every command started is
    one that only asks (a version query, a list command or its shell
    form): nothing is installed. *)
Theorem checkDependencies_command_installs_on_request_only
        (ed : Editor) (ws : string) (others : list string)
        (r : DependencyChecker.DependencyCheckResult) :
  workspaceFolders ed = Some (ws :: others) ->
  fst (DependencyChecker.checkDependencies ws (runtime (installHost ed))) = inr r ->
  fst (Extension.checkDependencies ed) = inr tt
  /\ (DependencyChecker.isValid r = true ->
      messages (snd (Extension.checkDependencies ed))
      = [SInformation "Dependencies are up to date!"]
      /\ removed (snd (Extension.checkDependencies ed)) = []
      /\ forall c, In c (started (snd (Extension.checkDependencies ed))) ->
                   asksOnly ws c)
  /\ (DependencyChecker.isValid r = false ->
      exists more,
        messages (snd (Extension.checkDependencies ed))
        = SWarning (Extension.outOfSyncMessage r) offered :: more
        /\ (picksCleanInstall ed (Extension.outOfSyncMessage r) = false ->
            more = []
            /\ removed (snd (Extension.checkDependencies ed)) = []
            /\ forall c, In c (started (snd (Extension.checkDependencies ed))) ->
                         asksOnly ws c)).
Proof.
  intros Hw Hr. rewrite (checkDependencies_command_run ed ws others Hw). cbv zeta.
  rewrite Hr.
  destruct (DependencyChecker.isValid r).
  - split; [reflexivity|]. split; [|discriminate]. intros _. cbn [snd].
    split; [|split].
    + rewrite messages_bar, messages_app, messages_events. reflexivity.
    + rewrite removed_bar, removed_app, removed_events. reflexivity.
    + intros c. rewrite started_bar, started_app, started_events.
      cbn [started flat_map app]. rewrite app_nil_r. apply check_asks.
  - split; [reflexivity|]. split; [discriminate|]. intros _. cbn [snd].
    exists (messages (if picksCleanInstall ed (Extension.outOfSyncMessage r)
                      then snd (Extension.cleanInstall ed) else [])).
    split.
    + rewrite messages_bar, messages_app, messages_events. reflexivity.
    + intros ->. split; [reflexivity|]. split.
      * rewrite removed_bar, removed_app, removed_events. reflexivity.
      * intros c. rewrite started_bar, started_app, started_events.
        cbn [started flat_map app]. rewrite app_nil_r. apply check_asks.
Qed.

Lemma checkDependencies_command_installs_on_request_only_witness :
  messages (snd (Extension.checkDependencies
                   (Cases.editor
                      (Cases.installer Scenario.chalkMissing None None (Some 0%Z))
                      (Some "Ignore"))))
  = [SWarning "Dependencies out of sync. Missing: chalk" offered]
  /\ removed (snd (Extension.checkDependencies
                     (Cases.editor
                        (Cases.installer Scenario.chalkMissing None None (Some 0%Z))
                        (Some "Ignore"))))
     = []
  /\ started (snd (Extension.checkDependencies
                     (Cases.editor
                        (Cases.installer Scenario.chalkMissing None None (Some 0%Z))
                        (Some "Ignore"))))
     = [("npm list --depth=0 --silent --json", Some "/ws")]
  /\ asksOnly "/ws" ("npm list --depth=0 --silent --json", Some "/ws").
Proof.
  destruct (checkDependencies_command_installs_on_request_only
              (Cases.editor
                 (Cases.installer Scenario.chalkMissing None None (Some 0%Z))
                 (Some "Ignore"))
              "/ws" []
              {| DependencyChecker.isValid := false;
                 DependencyChecker.missingPackages := ["chalk"];
                 DependencyChecker.extraPackages := [];
                 DependencyChecker.outdatedPackages := [];
                 DependencyChecker.errors := [] |}
              eq_refl eq_refl) as (_ & _ & H).
  destruct (H eq_refl) as (more & Hm & Hq).
  destruct (Hq eq_refl) as (-> & Hc & Hs).
  split; [exact Hm|]. split; [exact Hc|]. split; [reflexivity|].
  apply Hs. left. reflexivity.
Defined.

Lemma checkDependencies_without_manifest (ws : string) (w : Runtime) :
  existsSync w (path_join w [ws; "package.json"]) = false ->
  fst (DependencyChecker.checkDependencies ws w)
  = inr (DependencyChecker.setInvalid
           (DependencyChecker.pushError "package.json not found"
                                        DependencyChecker.fresh)).
Proof.
  intros H.
  unfold DependencyChecker.checkDependencies, DependencyChecker.checkDependencies_try,
    Eff.tryCatch, Eff.bind, Eff.pathJoin, Eff.fsExistsSync.
  rewrite H. reflexivity.
Qed.

(** X22: when the manifest is missing, the check command shows the
    out-of-sync warning with no detail at all (the error kept in the
    result is not shown) and offers a clean install. *)
Theorem checkDependencies_command_missing_manifest
        (ed : Editor) (ws : string) (others : list string) :
  workspaceFolders ed = Some (ws :: others) ->
  existsSync (runtime (installHost ed))
             (path_join (runtime (installHost ed)) [ws; "package.json"]) = false ->
  exists more,
    messages (snd (Extension.checkDependencies ed))
    = SWarning "Dependencies out of sync. " ["Clean Install"; "Ignore"] :: more.
Proof.
  intros Hw Hex. rewrite (checkDependencies_command_run ed ws others Hw). cbv zeta.
  rewrite (checkDependencies_without_manifest ws _ Hex).
  cbn [DependencyChecker.isValid DependencyChecker.setInvalid snd].
  eexists. rewrite messages_bar, messages_app, messages_events. reflexivity.
Qed.

Lemma checkDependencies_command_missing_manifest_witness :
  messages (snd (Extension.checkDependencies
                   (Cases.editor
                      (Cases.installer Scenario.noManifest None None (Some 0%Z))
                      None)))
  = [SWarning "Dependencies out of sync. " ["Clean Install"; "Ignore"]].
Proof.
  destruct (checkDependencies_command_missing_manifest
              (Cases.editor
                 (Cases.installer Scenario.noManifest None None (Some 0%Z)) None)
              "/ws" [] eq_refl eq_refl) as (more & H).
  rewrite H. f_equal.
  assert (E : messages (snd (Extension.checkDependencies
                   (Cases.editor
                      (Cases.installer Scenario.noManifest None None (Some 0%Z))
                      None)))
              = [SWarning "Dependencies out of sync. " ["Clean Install"; "Ignore"]])
    by reflexivity.
  rewrite H in E. now injection E.
Defined.

(** X23: whatever the preference and the state of the workspace, every
    command the clean-install command starts is either a version query
    of pnpm, yarn or npm, run without a working directory while the
    manager is being detected, or the clean-install command of one of
    the three, run in the first open folder; and nothing is removed but
    [node_modules] in that folder. *)
Theorem cleanInstall_command_starts_known_commands (ed : Editor) :
  (forall c, In c (started (snd (Extension.cleanInstall ed))) ->
     exists ws others,
       workspaceFolders ed = Some (ws :: others)
       /\ ((In (fst c) ["pnpm --version"; "yarn --version"; "npm --version"]
            /\ snd c = None)
           \/ (In (fst c) ["pnpm install --frozen-lockfile";
                           "yarn install --frozen-lockfile"; "npm ci"]
               /\ snd c = Some ws)))
  /\ (forall p, In p (removed (snd (Extension.cleanInstall ed))) ->
        exists ws others,
          workspaceFolders ed = Some (ws :: others)
          /\ p = path_join (runtime (installHost ed)) [ws; "node_modules"]).
Proof. exact (cleanInstall_command_effects ed). Qed.

(** With only yarn on the machine and no lock file, a clean install
    queries pnpm and yarn before it installs with yarn. *)
Example cleanInstall_command_queries_first :
  started (snd (Extension.cleanInstall
                  (Cases.editor
                     (Cases.installer Scenario.onlyYarnInstalled None None (Some 0%Z))
                     None)))
  = [("pnpm --version", None); ("yarn --version", None);
     ("yarn install --frozen-lockfile", Some "/ws")].
Proof. reflexivity. Qed.

End ExtensionFacts.
